(** * Nutrition engine: need analyzer, resource scorer and plan builder

    A shallow embedding of [user_context.py], [bio_analyzer.py],
    [resource_locator.py] and [shopping_planner.py], of the pipeline of
    [main.py] and of the lookups of [interactive_cli.py], followed by the
    properties of the three-stage pipeline.

    Conventions of the embedding:
    - an amount of money (budget, price, cost) is a binary64 [float], with
      the additions, subtractions and comparisons of IEEE 754 that Python
      performs; a decimal literal such as [0.89] denotes the nearest
      binary64 value, as it does in Python;
    - a lab value, a distance and a score are exact rationals ([Q]) with
      the boolean comparisons of [QArith]: the analyzer only compares lab
      values with its thresholds, and the statements on travel time and
      score are bounds and orders, not exact values;
    - a Python [int] is a [Z];
    - a [str] is a [string] of 8-bit characters; [lower], [upper] and
      [title] act on the ASCII letters only, as Python's do on a string of
      ASCII characters ([ascii_only]);
    - a [dict] whose iteration order is observable is an association list
      in insertion order; [list(set(l))] is [elements (list_to_set l)] of a
      [gset], Python leaving the order of a set unspecified;
    - an f-string that interpolates a number is kept as a list of pieces
      ([Txt], [Num], [Amount]) instead of being rendered;
    - each dataclass is a record in a module of its own name, so that
      [Store.name s] reads like [store.name]. *)

From Stdlib Require Import Floats.
From Stdlib Require Import Ascii QArith Qround Qminmax Lqa Sorted Permutation.
From stdpp Require Import gmap strings list.

#[local] Set Warnings "-inexact-float".

(** ** Python built-ins used by the program *)

Definition Qltb (a b : Q) : bool := negb (Qle_bool b a).

Definition Qgtb (a b : Q) : bool := Qltb b a.

(** [int(x)] on a float: truncation toward zero. *)
Definition int_of_float (x : Q) : Z :=
  if Qle_bool 0 x then Qfloor x else Qceiling x.

(** [round(x, 2)]: nearest multiple of 1/100, ties to the even one. *)
Definition round2 (x : Q) : Q :=
  let y := (x * 100)%Q in
  let n := Qfloor y in
  let frac := (y - inject_Z n)%Q in
  let up :=
    if Qltb (1 # 2) frac then true
    else if Qltb frac (1 # 2) then false
    else Z.odd n in
  ((if up then n + 1 else n)%Z # 100)%Q.

Definition is_upper (c : ascii) : bool :=
  let n := N_of_ascii c in (65 <=? n)%N && (n <=? 90)%N.

Definition is_lower (c : ascii) : bool :=
  let n := N_of_ascii c in (97 <=? n)%N && (n <=? 122)%N.

Definition lower_ascii (c : ascii) : ascii :=
  if is_upper c then ascii_of_N (N_of_ascii c + 32) else c.

Definition upper_ascii (c : ascii) : ascii :=
  if is_lower c then ascii_of_N (N_of_ascii c - 32) else c.

(** [s.lower()] and [s.upper()] for a string of ASCII characters; a
    character outside ASCII is left as it is. *)
Fixpoint lower (s : string) : string :=
  match s with
  | EmptyString => EmptyString
  | String c s' => String (lower_ascii c) (lower s')
  end.

Fixpoint upper (s : string) : string :=
  match s with
  | EmptyString => EmptyString
  | String c s' => String (upper_ascii c) (upper s')
  end.

Fixpoint title_from (prev_cased : bool) (s : string) : string :=
  match s with
  | EmptyString => EmptyString
  | String c s' =>
      let cased := is_upper c || is_lower c in
      String (if cased then
                if prev_cased then lower_ascii c else upper_ascii c
              else c)
             (title_from cased s')
  end.

(** [s.title()] *)
Definition title (s : string) : string := title_from false s.

(** [sub in s] on strings: substring test. *)
Fixpoint contains (sub s : string) : bool :=
  String.prefix sub s ||
  match s with
  | EmptyString => false
  | String _ s' => contains sub s'
  end.

(** [x in l] on a list of strings. *)
Definition mem (x : string) (l : list string) : bool :=
  existsb (String.eqb x) l.

(** Truthiness of a [str]. *)
Definition nonempty (s : string) : bool :=
  match s with EmptyString => false | _ => true end.

(** [list(set(l))] *)
Definition list_of_set (l : list string) : list string :=
  elements (list_to_set l : gset string).

(** [sorted] and [list.sort] are stable: an insertion sort that puts an
    element in front of the first later element it does not exceed. *)
Fixpoint insert_sorted {A} (leb : A → A → bool) (x : A) (l : list A) : list A :=
  match l with
  | [] => [x]
  | y :: l' => if leb x y then x :: y :: l' else y :: insert_sorted leb x l'
  end.

Definition stable_sort {A} (leb : A → A → bool) (l : list A) : list A :=
  foldr (insert_sorted leb) [] l.

(** Insertion-ordered dictionaries with string keys. *)
Fixpoint dict_get {V} (k : string) (d : list (string * V)) : option V :=
  match d with
  | [] => None
  | (k', v) :: d' => if String.eqb k k' then Some v else dict_get k d'
  end.

Fixpoint dict_set {V} (k : string) (v : V) (d : list (string * V)) : list (string * V) :=
  match d with
  | [] => [(k, v)]
  | (k', v') :: d' =>
      if String.eqb k k' then (k, v) :: d' else (k', v') :: dict_set k v d'
  end.

(** A piece of an f-string: literal text, an interpolated lab value
    ([{x}]), an interpolated amount of money ([{x}]), an amount with two
    decimals ([{x:.2f}]) or an interpolated integer. *)
Inductive piece : Type :=
  | Txt (s : string)
  | Num (x : Q)
  | Amount (x : float)
  | Fixed2 (x : float)
  | Int (n : Z).

Definition text := list piece.

(** ** user_context.py *)

Inductive BudgetTier : Type := very_low | low | moderate | comfortable.

Module Financials.
Record t : Type := mk {
  weekly_budget : float;
  snap_status : bool;
  wic_status : bool;
  annual_income : option float
}.

Definition has_assistance (self : t) : bool :=
  snap_status self || wic_status self.

Definition budget_tier (self : t) : BudgetTier :=
  if PrimFloat.ltb (weekly_budget self) 50 then very_low
  else if PrimFloat.ltb (weekly_budget self) 100 then low
  else if PrimFloat.ltb (weekly_budget self) 200 then moderate
  else comfortable.
End Financials.

Module Logistics.
Record t : Type := mk {
  zip_code : string;
  has_vehicle : bool;
  has_public_transit : bool;
  grocery_trips_per_week : Z;
  max_travel_distance_miles : Q
}.
End Logistics.

Module MedicalHistory.
Record t : Type := mk {
  family_history : list string;
  previous_conditions : list string;
  current_symptoms : list string;
  known_allergies : list string;
  medications : list string
}.
End MedicalHistory.

Module LabResults.
Record t : Type := mk {
  mthfr_variant : option string;
  comt_variant : option string;
  vitamin_b12_level : option Q;
  vitamin_d_level : option Q;
  iron_level : option Q;
  ferritin_level : option Q;
  crp_level : option Q;
  homocysteine_level : option Q;
  glucose_fasting : option Q;
  omega3_index : option Q
}.
End LabResults.

Module UserContext.
Record t : Type := mk {
  user_id : string;
  name : string;
  financials : Financials.t;
  logistics : Logistics.t;
  medical : MedicalHistory.t;
  lab_results : option LabResults.t
}.
End UserContext.

(** ** bio_analyzer.py *)

Module NutrientNeed.
Record t : Type := mk {
  nutrient : string;
  priority : Z;
  reason : text;
  related_markers : list string;
  food_sources : list string
}.
End NutrientNeed.

Module NutrientPriorityList.
Record t : Type := mk {
  user_id : string;
  needs : list NutrientNeed.t;
  warnings : list string
}.

Definition get_top_priorities (self : t) (n : nat) : list NutrientNeed.t :=
  take n (stable_sort
            (λ a b, (NutrientNeed.priority a <=? NutrientNeed.priority b)%Z)
            (needs self)).
End NutrientPriorityList.

(** The rows of [LAB_REFERENCE_RANGES], one record per set of keys. *)
Module LevelRange.
Record t : Type := mk { low : Q; optimal_low : Q; optimal_high : Q; unit : string }.
End LevelRange.

Module MarkerRange.
Record t : Type := mk { optimal_high : Q; elevated : Q; high : Q; unit : string }.
End MarkerRange.

Module GlucoseRange.
Record t : Type := mk { optimal_high : Q; prediabetic : Q; diabetic : Q; unit : string }.
End GlucoseRange.

Module LAB_REFERENCE_RANGES.
Definition vitamin_b12 := LevelRange.mk 300 500 900 "pg/mL".
Definition vitamin_d := LevelRange.mk 20 40 60 "ng/mL".
Definition iron := LevelRange.mk 60 80 170 "mcg/dL".
Definition ferritin := LevelRange.mk 30 50 150 "ng/mL".
Definition crp := MarkerRange.mk 1.0 3.0 10.0 "mg/L".
Definition homocysteine := MarkerRange.mk 7 12 15 "umol/L".
Definition glucose_fasting := GlucoseRange.mk 100 125 126 "mg/dL".
Definition omega3_index := LevelRange.mk 4 8 12 "%".
End LAB_REFERENCE_RANGES.

Definition NUTRIENT_FOOD_SOURCES : list (string * list string) :=
  [ ("Vitamin B12",
     ["eggs"; "fortified cereals"; "nutritional yeast"; "sardines";
      "beef liver"; "clams"; "fortified plant milk"]);
    ("Methylfolate",
     ["spinach"; "lentils"; "asparagus"; "broccoli"; "avocado";
      "black-eyed peas"; "brussels sprouts"; "romaine lettuce"]);
    ("Vitamin D",
     ["fortified milk"; "egg yolks"; "salmon"; "sardines";
      "fortified orange juice"; "mushrooms (UV-exposed)"]);
    ("Iron",
     ["spinach"; "lentils"; "chickpeas"; "beef"; "fortified cereals";
      "pumpkin seeds"; "quinoa"; "dark chocolate"]);
    ("Omega-3 Fatty Acids",
     ["salmon"; "sardines"; "walnuts"; "flaxseed"; "chia seeds";
      "mackerel"; "hemp seeds"]);
    ("Anti-inflammatory Foods",
     ["turmeric"; "ginger"; "berries"; "leafy greens"; "fatty fish";
      "olive oil"; "tomatoes"; "nuts"; "green tea"]);
    ("Magnesium",
     ["spinach"; "pumpkin seeds"; "black beans"; "almonds";
      "avocado"; "dark chocolate"; "quinoa"]);
    ("Fiber",
     ["oats"; "beans"; "lentils"; "berries"; "broccoli";
      "apples"; "whole grains"; "chia seeds"]);
    ("Antioxidants",
     ["berries"; "dark leafy greens"; "pecans"; "artichokes";
      "beets"; "red cabbage"; "dark chocolate"]);
    ("Chromium",
     ["broccoli"; "grape juice"; "whole grains"; "beef";
      "green beans"; "potatoes"]) ].

(** [NUTRIENT_FOOD_SOURCES[k]] for the keys the analyzer uses, all of
    which are in the table. *)
Definition sources_of (k : string) : list string :=
  default [] (dict_get k NUTRIENT_FOOD_SOURCES).

(** The block [# MTHFR Analysis]. *)
Definition mthfr_rule (lab_results : LabResults.t) : list NutrientNeed.t :=
  match LabResults.mthfr_variant lab_results with
  | Some v =>
      if nonempty v then
        let variant := upper v in
        if mem variant ["C677T"; "COMPOUND"; "HOMOZYGOUS"] then
          [ NutrientNeed.mk "Methylfolate" 1
              [Txt ("MTHFR " +:+ variant +:+
                    " variant detected - reduced ability to convert folic acid to active methylfolate")]
              ["MTHFR"; "homocysteine"] (sources_of "Methylfolate");
            NutrientNeed.mk "Vitamin B12" 1
              [Txt ("MTHFR " +:+ variant +:+
                    " requires adequate B12 for proper methylation cycle function")]
              ["MTHFR"; "methylation"] (sources_of "Vitamin B12") ]
        else if String.eqb variant "A1298C" then
          [ NutrientNeed.mk "Methylfolate" 2
              [Txt "MTHFR A1298C variant - moderately reduced folate metabolism"]
              ["MTHFR"; "BH4"] (sources_of "Methylfolate") ]
        else []
      else []
  | None => []
  end.

(** The block [# COMT Analysis]. *)
Definition comt_rule (lab_results : LabResults.t) : list NutrientNeed.t :=
  match LabResults.comt_variant lab_results with
  | Some v =>
      if nonempty v && String.eqb (lower v) "slow" then
        [ NutrientNeed.mk "Magnesium" 2
            [Txt "Slow COMT variant - magnesium supports stress response and catecholamine metabolism"]
            ["COMT"; "catecholamines"] (sources_of "Magnesium") ]
      else []
  | None => []
  end.

Definition analyze_methylation_markers (lab_results : LabResults.t) : list NutrientNeed.t :=
  mthfr_rule lab_results ++ comt_rule lab_results.

(** The block [# Vitamin B12]. *)
Definition vitamin_b12_rule (lab_results : LabResults.t) : list NutrientNeed.t :=
  match LabResults.vitamin_b12_level lab_results with
  | Some level =>
      let ref := LAB_REFERENCE_RANGES.vitamin_b12 in
      if Qltb level (LevelRange.low ref) then
        [ NutrientNeed.mk "Vitamin B12" 1
            [Txt "B12 level ("; Num level; Txt (" " +:+ LevelRange.unit ref +:+
               ") is deficient - urgent supplementation recommended")]
            ["B12"; "MCV"; "homocysteine"] (sources_of "Vitamin B12") ]
      else if Qltb level (LevelRange.optimal_low ref) then
        [ NutrientNeed.mk "Vitamin B12" 2
            [Txt "B12 level ("; Num level; Txt (" " +:+ LevelRange.unit ref +:+
               ") is suboptimal - dietary increase recommended")]
            ["B12"] (sources_of "Vitamin B12") ]
      else []
  | None => []
  end.

(** The block [# Vitamin D]. *)
Definition vitamin_d_rule (lab_results : LabResults.t) : list NutrientNeed.t :=
  match LabResults.vitamin_d_level lab_results with
  | Some level =>
      let ref := LAB_REFERENCE_RANGES.vitamin_d in
      if Qltb level (LevelRange.low ref) then
        [ NutrientNeed.mk "Vitamin D" 1
            [Txt "Vitamin D level ("; Num level; Txt (" " +:+ LevelRange.unit ref +:+
               ") is deficient - significant health impact")]
            ["25-OH Vitamin D"; "calcium"; "PTH"] (sources_of "Vitamin D") ]
      else if Qltb level (LevelRange.optimal_low ref) then
        [ NutrientNeed.mk "Vitamin D" 2
            [Txt "Vitamin D level ("; Num level; Txt (" " +:+ LevelRange.unit ref +:+
               ") is insufficient")]
            ["25-OH Vitamin D"] (sources_of "Vitamin D") ]
      else []
  | None => []
  end.

(** The block [# Iron]. *)
Definition iron_rule (lab_results : LabResults.t) : list NutrientNeed.t :=
  match LabResults.iron_level lab_results with
  | Some level =>
      let ref := LAB_REFERENCE_RANGES.iron in
      if Qltb level (LevelRange.low ref) then
        [ NutrientNeed.mk "Iron" 1
            [Txt "Iron level ("; Num level; Txt (" " +:+ LevelRange.unit ref +:+
               ") is low - may cause fatigue and anemia")]
            ["serum iron"; "ferritin"; "TIBC"] (sources_of "Iron") ]
      else []
  | None => []
  end.

Definition analyze_vitamin_levels (lab_results : LabResults.t) : list NutrientNeed.t :=
  vitamin_b12_rule lab_results ++ vitamin_d_rule lab_results ++ iron_rule lab_results.

(** The block [# CRP (C-Reactive Protein)]. *)
Definition crp_rule (lab_results : LabResults.t) : list NutrientNeed.t :=
  match LabResults.crp_level lab_results with
  | Some level =>
      let ref := LAB_REFERENCE_RANGES.crp in
      if Qgtb level (MarkerRange.elevated ref) then
        let priority := if Qgtb level (MarkerRange.high ref) then 1%Z else 2%Z in
        [ NutrientNeed.mk "Anti-inflammatory Foods" priority
            [Txt "CRP level ("; Num level; Txt (" " +:+ MarkerRange.unit ref +:+
               ") indicates systemic inflammation")]
            ["CRP"; "ESR"; "inflammation"] (sources_of "Anti-inflammatory Foods");
          NutrientNeed.mk "Omega-3 Fatty Acids" priority
            [Txt "Omega-3s help reduce inflammation markers like CRP ("; Num level;
             Txt (" " +:+ MarkerRange.unit ref +:+ ")")]
            ["CRP"; "omega-3 index"] (sources_of "Omega-3 Fatty Acids") ]
      else []
  | None => []
  end.

(** The block [# Homocysteine]. *)
Definition homocysteine_rule (lab_results : LabResults.t) : list NutrientNeed.t :=
  match LabResults.homocysteine_level lab_results with
  | Some level =>
      let ref := LAB_REFERENCE_RANGES.homocysteine in
      if Qgtb level (MarkerRange.elevated ref) then
        let priority := if Qgtb level (MarkerRange.high ref) then 1%Z else 2%Z in
        [ NutrientNeed.mk "Methylfolate" priority
            [Txt "Homocysteine ("; Num level; Txt (" " +:+ MarkerRange.unit ref +:+
               ") is elevated - B vitamins help lower it")]
            ["homocysteine"; "cardiovascular risk"] (sources_of "Methylfolate") ]
      else []
  | None => []
  end.

Definition analyze_inflammation_markers (lab_results : LabResults.t) : list NutrientNeed.t :=
  crp_rule lab_results ++ homocysteine_rule lab_results.

Definition analyze_metabolic_markers (lab_results : LabResults.t) : list NutrientNeed.t :=
  match LabResults.glucose_fasting lab_results with
  | Some level =>
      let ref := LAB_REFERENCE_RANGES.glucose_fasting in
      if Qgtb level (GlucoseRange.optimal_high ref) then
        let priority := if Qltb level (GlucoseRange.prediabetic ref) then 2%Z else 1%Z in
        [ NutrientNeed.mk "Fiber" priority
            [Txt "Fasting glucose ("; Num level; Txt (" " +:+ GlucoseRange.unit ref +:+
               ") elevated - fiber helps regulate blood sugar")]
            ["glucose"; "HbA1c"; "insulin"] (sources_of "Fiber");
          NutrientNeed.mk "Chromium" (priority + 1)
            [Txt "Chromium supports glucose metabolism with elevated fasting glucose (";
             Num level; Txt ")"]
            ["glucose"; "insulin sensitivity"] (sources_of "Chromium") ]
      else []
  | None => []
  end.

Definition symptom_nutrient_map : list (string * list NutrientNeed.t) :=
  [ ("fatigue",
     [ NutrientNeed.mk "Iron" 3
         [Txt "Fatigue reported - iron deficiency is a common cause"]
         ["symptoms: fatigue"] (sources_of "Iron");
       NutrientNeed.mk "Vitamin B12" 3
         [Txt "Fatigue reported - B12 supports energy metabolism"]
         ["symptoms: fatigue"] (sources_of "Vitamin B12") ]);
    ("brain_fog",
     [ NutrientNeed.mk "Omega-3 Fatty Acids" 3
         [Txt "Brain fog reported - omega-3s support cognitive function"]
         ["symptoms: brain fog"] (sources_of "Omega-3 Fatty Acids") ]);
    ("joint_pain",
     [ NutrientNeed.mk "Anti-inflammatory Foods" 3
         [Txt "Joint pain reported - anti-inflammatory foods may help"]
         ["symptoms: joint pain"] (sources_of "Anti-inflammatory Foods") ]);
    ("anxiety",
     [ NutrientNeed.mk "Magnesium" 3
         [Txt "Anxiety reported - magnesium supports nervous system calm"]
         ["symptoms: anxiety"] (sources_of "Magnesium") ]);
    ("weak_immunity",
     [ NutrientNeed.mk "Vitamin D" 3
         [Txt "Immune concerns - Vitamin D is crucial for immune function"]
         ["symptoms: immunity"] (sources_of "Vitamin D") ]) ].

Definition analyze_symptoms (medical : MedicalHistory.t) : list NutrientNeed.t :=
  let symptoms := map lower (MedicalHistory.current_symptoms medical) in
  flat_map
    (λ symptom,
       flat_map
         (λ entry : string * list NutrientNeed.t,
            if contains (fst entry) symptom then snd entry else [])
         symptom_nutrient_map)
    symptoms.

Definition analyze_family_history (medical : MedicalHistory.t) : list NutrientNeed.t :=
  let history := map lower (MedicalHistory.family_history medical) in
  (if existsb (contains "diabetes") history then
     [ NutrientNeed.mk "Fiber" 4
         [Txt "Family history of diabetes - fiber helps maintain healthy blood sugar"]
         ["family history: diabetes"] (sources_of "Fiber");
       NutrientNeed.mk "Chromium" 4
         [Txt "Family history of diabetes - chromium supports glucose metabolism"]
         ["family history: diabetes"] (sources_of "Chromium") ]
   else []) ++
  (if existsb (λ h, contains "heart" h || contains "cardiovascular" h) history then
     [ NutrientNeed.mk "Omega-3 Fatty Acids" 4
         [Txt "Family history of heart disease - omega-3s support cardiovascular health"]
         ["family history: cardiovascular"] (sources_of "Omega-3 Fatty Acids") ]
   else []) ++
  (if existsb (contains "cancer") history then
     [ NutrientNeed.mk "Antioxidants" 4
         [Txt "Family history considerations - antioxidants support cellular health"]
         ["family history: cancer"] (sources_of "Antioxidants") ]
   else []).

(** The body of the loop of [consolidate_nutrient_needs]: [nutrient_map]
    is the dictionary built so far.  The [else] branch assigns to a field of
    the stored object; the stored object is replaced by its updated copy. *)
Definition consolidate_step (nutrient_map : list (string * NutrientNeed.t))
    (need : NutrientNeed.t) : list (string * NutrientNeed.t) :=
  match dict_get (NutrientNeed.nutrient need) nutrient_map with
  | Some existing =>
      if (NutrientNeed.priority need <? NutrientNeed.priority existing)%Z then
        let combined_markers :=
          list_of_set (NutrientNeed.related_markers existing ++
                       NutrientNeed.related_markers need) in
        let combined_reason :=
          NutrientNeed.reason need ++ [Txt "; Also: "] ++ NutrientNeed.reason existing in
        dict_set (NutrientNeed.nutrient need)
          (NutrientNeed.mk (NutrientNeed.nutrient need) (NutrientNeed.priority need)
             combined_reason combined_markers (NutrientNeed.food_sources need))
          nutrient_map
      else
        dict_set (NutrientNeed.nutrient need)
          (NutrientNeed.mk (NutrientNeed.nutrient existing)
             (NutrientNeed.priority existing) (NutrientNeed.reason existing)
             (list_of_set (NutrientNeed.related_markers existing ++
                           NutrientNeed.related_markers need))
             (NutrientNeed.food_sources existing))
          nutrient_map
  | None => dict_set (NutrientNeed.nutrient need) need nutrient_map
  end.

Definition consolidate_nutrient_needs (all_needs : list NutrientNeed.t) : list NutrientNeed.t :=
  map snd (fold_left consolidate_step all_needs []).

(** The needs of all rule groups, in the order [analyze_lab_data] collects
    them, and the first warning. *)
Definition collect_needs (user_context : UserContext.t) : list NutrientNeed.t :=
  (match UserContext.lab_results user_context with
   | Some lab_results =>
       analyze_methylation_markers lab_results ++
       analyze_vitamin_levels lab_results ++
       analyze_inflammation_markers lab_results ++
       analyze_metabolic_markers lab_results
   | None => []
   end) ++
  analyze_symptoms (UserContext.medical user_context) ++
  analyze_family_history (UserContext.medical user_context).

Definition lab_warnings (user_context : UserContext.t) : list string :=
  match UserContext.lab_results user_context with
  | Some _ => []
  | None => ["No lab results provided - recommendations based on symptoms and history only"]
  end.

(** [not any(allergy in source.lower() for allergy in allergies)] *)
Definition allergy_safe (allergies : list string) (source : string) : bool :=
  negb (existsb (λ allergy, contains allergy (lower source)) allergies).

Definition filter_sources (allergies : list string) (need : NutrientNeed.t) : NutrientNeed.t :=
  NutrientNeed.mk (NutrientNeed.nutrient need) (NutrientNeed.priority need)
    (NutrientNeed.reason need) (NutrientNeed.related_markers need)
    (List.filter (allergy_safe allergies) (NutrientNeed.food_sources need)).

Definition allergy_warnings (filtered : list NutrientNeed.t) : list string :=
  flat_map
    (λ need,
       match NutrientNeed.food_sources need with
       | [] => ["Limited food sources for " +:+ NutrientNeed.nutrient need +:+
                " due to allergies"]
       | _ => []
       end)
    filtered.

(** The needs after the allergy pass, before consolidation. *)
Definition filtered_needs (user_context : UserContext.t) : list NutrientNeed.t :=
  let allergies :=
    map lower (MedicalHistory.known_allergies (UserContext.medical user_context)) in
  map (filter_sources allergies) (collect_needs user_context).

Definition analyze_lab_data (user_context : UserContext.t) : NutrientPriorityList.t :=
  let all_needs := filtered_needs user_context in
  let warnings := lab_warnings user_context ++ allergy_warnings all_needs in
  let consolidated_needs := consolidate_nutrient_needs all_needs in
  NutrientPriorityList.mk
    (UserContext.user_id user_context)
    (stable_sort
       (λ a b, (NutrientNeed.priority a <=? NutrientNeed.priority b)%Z)
       consolidated_needs)
    warnings.

(** [create_sample_user()] *)
Definition create_sample_user : UserContext.t :=
  UserContext.mk "sample_user_001" "Sample User"
    (Financials.mk 60.0 true false (Some 28000%float))
    (Logistics.mk "30312" false true 2 5.0)
    (MedicalHistory.mk ["diabetes"; "hypertension"] ["anemia"]
       ["fatigue"; "brain_fog"] ["shellfish"] [])
    (Some (LabResults.mk (Some "C677T") None (Some 280%Q) (Some 18%Q) (Some 50%Q)
             None (Some 3.5%Q) (Some 14%Q) (Some 105%Q) None)).

(** ** resource_locator.py *)

Module StoreType.
Inductive t : Type :=
  GROCERY | FOOD_PANTRY | FARMERS_MARKET | DISCOUNT | SPECIALTY.

Definition eqb (a b : t) : bool :=
  match a, b with
  | GROCERY, GROCERY | FOOD_PANTRY, FOOD_PANTRY
  | FARMERS_MARKET, FARMERS_MARKET | DISCOUNT, DISCOUNT
  | SPECIALTY, SPECIALTY => true
  | _, _ => false
  end.
End StoreType.

Module InventoryLevel.
Inductive t : Type := HIGH | MEDIUM | LOW.

Definition eqb (a b : t) : bool :=
  match a, b with
  | HIGH, HIGH | MEDIUM, MEDIUM | LOW, LOW => true
  | _, _ => false
  end.
End InventoryLevel.

(** The values of [travel_method]: "walk", "transit", "drive". *)
Inductive TravelMethod : Type := walk | transit | drive.

Module Store.
Record t : Type := mk {
  name : string;
  store_type : StoreType.t;
  distance_miles : Q;
  snap_accepted : bool;
  wic_accepted : bool;
  inventory_level : InventoryLevel.t;
  price_tier : Z;
  specialty_items : list string;
  hours : string
}.

Definition is_food_assistance_friendly (self : t) : bool :=
  snap_accepted self || wic_accepted self.
End Store.

Module TravelFeasibility.
Record t : Type := mk {
  store : Store.t;
  is_accessible : bool;
  travel_method : TravelMethod;
  estimated_time_minutes : Z;
  accessibility_score : Q;
  notes : list string
}.
End TravelFeasibility.

Module ResourceMap.
Record t : Type := mk {
  user_zip : string;
  accessible_stores : list TravelFeasibility.t;
  food_pantries : list TravelFeasibility.t;
  snap_stores : list TravelFeasibility.t;
  all_stores : list Store.t
}.
End ResourceMap.

Definition SYNTHETIC_STORES_DATABASE : list (string * list Store.t) :=
  [ ("default",
     [ Store.mk "SaveMart Grocery" StoreType.GROCERY 1.2 true true InventoryLevel.HIGH 3
         ["organic produce"; "gluten-free"] "7am-10pm";
       Store.mk "Community Food Pantry" StoreType.FOOD_PANTRY 0.8 false false InventoryLevel.MEDIUM 1
         ["canned goods"; "bread"; "produce"] "Mon/Wed/Fri 10am-2pm";
       Store.mk "Budget Foods" StoreType.DISCOUNT 2.5 true false InventoryLevel.HIGH 1
         ["bulk items"; "frozen foods"] "8am-9pm";
       Store.mk "Fresh Farmers Market" StoreType.FARMERS_MARKET 1.8 true true InventoryLevel.MEDIUM 2
         ["local produce"; "eggs"; "honey"] "Sat 8am-1pm";
       Store.mk "Whole Health Foods" StoreType.SPECIALTY 3.2 false false InventoryLevel.HIGH 5
         ["supplements"; "organic"; "specialty diet"] "9am-8pm";
       Store.mk "Dollar General" StoreType.DISCOUNT 0.5 true false InventoryLevel.LOW 2
         ["canned goods"; "snacks"; "basic staples"] "8am-10pm";
       Store.mk "St. Mary's Food Bank" StoreType.FOOD_PANTRY 2.1 false false InventoryLevel.HIGH 1
         ["fresh produce"; "meat"; "dairy"] "Tue/Thu 9am-3pm";
       Store.mk "ALDI" StoreType.DISCOUNT 4.0 true true InventoryLevel.HIGH 1
         ["produce"; "dairy"; "frozen"; "specialty imports"] "9am-8pm";
       Store.mk "Target" StoreType.GROCERY 5.5 true true InventoryLevel.HIGH 3
         ["organic"; "fresh produce"; "supplements"] "8am-10pm";
       Store.mk "Neighborhood Co-op" StoreType.SPECIALTY 1.5 true false InventoryLevel.MEDIUM 4
         ["local"; "organic"; "bulk bins"; "specialty"] "10am-7pm" ]);
    ("303",
     [ Store.mk "King Soopers" StoreType.GROCERY 1.0 true true InventoryLevel.HIGH 3
         ["organic"; "deli"; "pharmacy"] "6am-11pm" ]);
    ("300",
     [ Store.mk "Publix" StoreType.GROCERY 1.3 true true InventoryLevel.HIGH 3
         ["deli"; "bakery"; "organic"] "7am-10pm" ]) ].

(** [s[:3]] *)
Definition prefix3 (s : string) : string := String.substring 0 3 s.

Definition get_stores_for_zip (zip_code : string) : list Store.t :=
  let zip_prefix :=
    if (3 <=? String.length zip_code)%nat then prefix3 zip_code else zip_code in
  let stores := default [] (dict_get "default" SYNTHETIC_STORES_DATABASE) in
  match dict_get zip_prefix SYNTHETIC_STORES_DATABASE with
  | Some extra => stores ++ extra
  | None => stores
  end.

Definition speed_of (method : TravelMethod) : Q :=
  match method with walk => 3.0 | transit => 12.0 | drive => 25.0 end.

(** The time is computed on exact rationals before [int] truncates it;
    the source divides, multiplies and adds in binary64, so that its result
    can differ by one minute where the exact time is a whole number of
    minutes.  What is proved about it are bounds and monotonicity, not exact
    values; the same holds for the rounded score of
    [calculate_travel_feasibility]. *)
Definition calculate_travel_time (distance_miles : Q) (method : TravelMethod) : Z :=
  let base_time := ((distance_miles / speed_of method) * 60)%Q in
  let base_time :=
    match method with
    | transit => (base_time + 10)%Q
    | walk => (base_time + 5)%Q
    | drive => base_time
    end in
  int_of_float base_time.

Definition inventory_score (level : InventoryLevel.t) : Q :=
  match level with
  | InventoryLevel.HIGH => 1.0
  | InventoryLevel.MEDIUM => 0.7
  | InventoryLevel.LOW => 0.4
  end.

Definition calculate_travel_feasibility (store : Store.t) (logistics : Logistics.t)
    : TravelFeasibility.t :=
  let d := Store.distance_miles store in
  let '(travel_method, max_practical_distance) :=
    if Logistics.has_vehicle logistics then (drive, 15.0%Q)
    else if Logistics.has_public_transit logistics then (transit, 8.0%Q)
    else (walk, 2.0%Q) in
  let is_accessible := Qle_bool d (Logistics.max_travel_distance_miles logistics) in
  let '(travel_method, is_accessible, notes) :=
    if negb is_accessible then
      if Qle_bool d 2.0 then (walk, true, ["Walking distance"])
      else if Qle_bool d 8.0 && Logistics.has_public_transit logistics then
        (transit, true, ["Accessible via public transit"])
      else (travel_method, is_accessible, [])
    else (travel_method, is_accessible, []) in
  let travel_time := calculate_travel_time d travel_method in
  let distance_score := Qmax 0 (1 - d / max_practical_distance) in
  let time_score := Qmax 0 (1 - inject_Z travel_time / 60) in
  let inventory_score := inventory_score (Store.inventory_level store) in
  let accessibility_score :=
    (distance_score * 0.4 + time_score * 0.3 + inventory_score * 0.3)%Q in
  let notes :=
    notes ++
    (if StoreType.eqb (Store.store_type store) StoreType.FOOD_PANTRY
     then ["FREE - Food pantry"] else []) ++
    (if Qle_bool d 1.0 then ["Very close"] else []) ++
    (if (45 <? travel_time)%Z then ["Long travel time"] else []) in
  let is_accessible :=
    if (45 <? travel_time)%Z then
      is_accessible && (2 <=? Logistics.grocery_trips_per_week logistics)%Z
    else is_accessible in
  TravelFeasibility.mk store is_accessible travel_method travel_time
    (round2 accessibility_score) notes.

(** Order of the keys [(-x.accessibility_score, x.store.distance_miles)]. *)
Definition by_score_then_distance (a b : TravelFeasibility.t) : bool :=
  let ka := (- TravelFeasibility.accessibility_score a)%Q in
  let kb := (- TravelFeasibility.accessibility_score b)%Q in
  Qltb ka kb ||
  (Qeq_bool ka kb &&
   Qle_bool (Store.distance_miles (TravelFeasibility.store a))
            (Store.distance_miles (TravelFeasibility.store b))).

(** Order of the keys [(x.store.price_tier, x.store.distance_miles)]. *)
Definition by_price_then_distance (a b : TravelFeasibility.t) : bool :=
  let sa := TravelFeasibility.store a in
  let sb := TravelFeasibility.store b in
  (Store.price_tier sa <? Store.price_tier sb)%Z ||
  ((Store.price_tier sa =? Store.price_tier sb)%Z &&
   Qle_bool (Store.distance_miles sa) (Store.distance_miles sb)).

Definition resource_locator (user_context : UserContext.t) : ResourceMap.t :=
  let logistics := UserContext.logistics user_context in
  let all_stores := get_stores_for_zip (Logistics.zip_code logistics) in
  let all_feasibility :=
    map (λ store, calculate_travel_feasibility store logistics) all_stores in
  let accessible_stores :=
    stable_sort by_score_then_distance
      (List.filter TravelFeasibility.is_accessible all_feasibility) in
  let food_pantries :=
    List.filter
      (λ f, StoreType.eqb (Store.store_type (TravelFeasibility.store f))
         StoreType.FOOD_PANTRY)
      accessible_stores in
  let snap_stores :=
    List.filter (λ f, Store.snap_accepted (TravelFeasibility.store f))
      accessible_stores in
  let snap_stores :=
    if Financials.has_assistance (UserContext.financials user_context)
    then stable_sort by_price_then_distance snap_stores
    else snap_stores in
  ResourceMap.mk (Logistics.zip_code logistics) accessible_stores food_pantries
    snap_stores all_stores.

(** ** shopping_planner.py *)

Module ShoppingPriority.
Inductive t : Type := CRITICAL | HIGH | MODERATE | OPTIONAL.

Definition value (p : t) : Z :=
  match p with CRITICAL => 1 | HIGH => 2 | MODERATE => 3 | OPTIONAL => 4 end.
End ShoppingPriority.

Module FoodItem.
Record t : Type := mk {
  name : string;
  category : string;
  price_estimate : float;
  snap_eligible : bool;
  wic_eligible : bool;
  nutrients_provided : list string;
  serving_size : string;
  shelf_life_days : Z
}.
End FoodItem.

(** The [reason] of a shopping-list item: [Addresses n r] is the string
    [f"Addresses {n}: {r[:80]}..."], [Because s] a literal. *)
Inductive ItemReason : Type :=
  | Addresses (nutrient : string) (need_reason : text)
  | Because (s : string).

Module ShoppingListItem.
Record t : Type := mk {
  food : FoodItem.t;
  quantity : Z;
  priority : ShoppingPriority.t;
  reason : ItemReason;
  suggested_store : option string;
  estimated_cost : float;
  nutrients_addressed : list string
}.
End ShoppingListItem.

Module ShoppingList.
Record t : Type := mk {
  user_id : string;
  items : list ShoppingListItem.t;
  total_estimated_cost : float;
  budget_remaining : float;
  pantry_items : list ShoppingListItem.t;
  store_visits : list (string * list ShoppingListItem.t);
  reasoning_log : list text
}.
End ShoppingList.

Definition FOOD_DATABASE : list (string * FoodItem.t) :=
  [ ("spinach", FoodItem.mk "Spinach (fresh bunch)" "produce" 2.50 true true
       ["Iron"; "Methylfolate"; "Magnesium"; "Anti-inflammatory Foods"] "1 bunch" 5);
    ("spinach_frozen", FoodItem.mk "Spinach (frozen bag)" "frozen" 1.50 true false
       ["Iron"; "Methylfolate"; "Magnesium"] "16 oz bag" 180);
    ("broccoli", FoodItem.mk "Broccoli" "produce" 1.75 true true
       ["Fiber"; "Chromium"; "Anti-inflammatory Foods"] "1 head" 7);
    ("kale", FoodItem.mk "Kale" "produce" 2.00 true false
       ["Iron"; "Antioxidants"; "Anti-inflammatory Foods"] "1 bunch" 5);
    ("lentils_dry", FoodItem.mk "Lentils (dry)" "dry goods" 1.50 true false
       ["Iron"; "Fiber"; "Methylfolate"] "1 lb bag" 365);
    ("black_beans_canned", FoodItem.mk "Black Beans (canned)" "canned" 0.89 true false
       ["Fiber"; "Iron"; "Magnesium"] "15 oz can" 730);
    ("chickpeas_canned", FoodItem.mk "Chickpeas (canned)" "canned" 1.00 true false
       ["Iron"; "Fiber"] "15 oz can" 730);
    ("eggs", FoodItem.mk "Eggs (dozen)" "dairy" 3.50 true true
       ["Vitamin B12"; "Vitamin D"] "12 eggs" 21);
    ("sardines_canned", FoodItem.mk "Sardines (canned)" "canned" 2.00 true false
       ["Vitamin B12"; "Vitamin D"; "Omega-3 Fatty Acids"] "4 oz can" 1095);
    ("salmon_canned", FoodItem.mk "Salmon (canned)" "canned" 3.50 true false
       ["Vitamin B12"; "Vitamin D"; "Omega-3 Fatty Acids"] "6 oz can" 1095);
    ("chicken_thighs", FoodItem.mk "Chicken Thighs" "meat" 4.00 true false
       ["Vitamin B12"; "Iron"] "1 lb" 2);
    ("beef_liver", FoodItem.mk "Beef Liver" "meat" 3.00 true false
       ["Vitamin B12"; "Iron"; "Vitamin D"] "1 lb" 2);
    ("oats", FoodItem.mk "Oats (rolled)" "dry goods" 2.50 true true
       ["Fiber"; "Magnesium"] "42 oz container" 365);
    ("fortified_cereal", FoodItem.mk "Fortified Cereal" "dry goods" 3.00 true true
       ["Vitamin B12"; "Iron"; "Methylfolate"] "12 oz box" 180);
    ("quinoa", FoodItem.mk "Quinoa" "dry goods" 5.00 true false
       ["Iron"; "Magnesium"; "Fiber"] "16 oz bag" 365);
    ("walnuts", FoodItem.mk "Walnuts" "nuts" 6.00 true false
       ["Omega-3 Fatty Acids"; "Magnesium"] "8 oz bag" 180);
    ("flaxseed", FoodItem.mk "Ground Flaxseed" "nuts" 4.00 true false
       ["Omega-3 Fatty Acids"; "Fiber"] "16 oz bag" 180);
    ("chia_seeds", FoodItem.mk "Chia Seeds" "nuts" 5.50 true false
       ["Omega-3 Fatty Acids"; "Fiber"] "12 oz bag" 365);
    ("pumpkin_seeds", FoodItem.mk "Pumpkin Seeds" "nuts" 4.50 true false
       ["Iron"; "Magnesium"] "8 oz bag" 180);
    ("turmeric", FoodItem.mk "Turmeric (ground)" "spices" 3.50 true false
       ["Anti-inflammatory Foods"] "2 oz jar" 730);
    ("ginger_root", FoodItem.mk "Ginger Root" "produce" 1.00 true false
       ["Anti-inflammatory Foods"] "1 piece" 21);
    ("berries_frozen", FoodItem.mk "Mixed Berries (frozen)" "frozen" 3.50 true true
       ["Antioxidants"; "Anti-inflammatory Foods"; "Fiber"] "16 oz bag" 365);
    ("olive_oil", FoodItem.mk "Olive Oil (extra virgin)" "oils" 7.00 true false
       ["Anti-inflammatory Foods"; "Omega-3 Fatty Acids"] "16 oz bottle" 730);
    ("fortified_milk", FoodItem.mk "Fortified Milk (or plant milk)" "dairy" 3.00 true true
       ["Vitamin D"; "Vitamin B12"] "half gallon" 10);
    ("yogurt", FoodItem.mk "Yogurt" "dairy" 4.00 true true
       ["Vitamin B12"; "Vitamin D"] "32 oz container" 14);
    ("brown_rice", FoodItem.mk "Brown Rice" "dry goods" 2.00 true false
       ["Fiber"; "Magnesium"] "2 lb bag" 365);
    ("peanut_butter", FoodItem.mk "Peanut Butter" "dry goods" 3.00 true true
       ["Magnesium"] "16 oz jar" 180);
    ("bananas", FoodItem.mk "Bananas" "produce" 0.50 true true
       ["Magnesium"; "Fiber"] "per lb" 5) ].

Definition BUDGET_ALTERNATIVES : list (string * string) :=
  [ ("salmon_canned", "sardines_canned");
    ("quinoa", "brown_rice");
    ("walnuts", "flaxseed");
    ("chia_seeds", "flaxseed");
    ("kale", "spinach_frozen");
    ("spinach", "spinach_frozen");
    ("chicken_thighs", "eggs") ].

(** [sorted(matching_foods, key=price)] compares the prices with [<]. *)
Definition get_foods_for_nutrient (nutrient : string) : list FoodItem.t :=
  let matching_foods :=
    List.filter (λ food, mem nutrient (FoodItem.nutrients_provided food))
      (map snd FOOD_DATABASE) in
  stable_sort
    (λ a b, negb (PrimFloat.ltb (FoodItem.price_estimate b) (FoodItem.price_estimate a)))
    matching_foods.

Definition calculate_priority (nutrient_priority : Z) (budget_tier : BudgetTier)
    : ShoppingPriority.t :=
  if (nutrient_priority =? 1)%Z then ShoppingPriority.CRITICAL
  else if (nutrient_priority =? 2)%Z then ShoppingPriority.HIGH
  else if (nutrient_priority <=? 3)%Z then ShoppingPriority.MODERATE
  else ShoppingPriority.OPTIONAL.

(** [budget_tier in ["very_low", "low"]] *)
Definition tight_budget (budget_tier : BudgetTier) : bool :=
  match budget_tier with very_low | low => true | _ => false end.

Definition tier_name (budget_tier : BudgetTier) : string :=
  match budget_tier with
  | very_low => "very_low"
  | low => "low"
  | moderate => "moderate"
  | comfortable => "comfortable"
  end.

(** [", ".join(l)] *)
Fixpoint join_comma (l : list string) : string :=
  match l with
  | [] => ""
  | [x] => x
  | x :: rest => x +:+ ", " +:+ join_comma rest
  end.

(** The local variables of [generate_shopping_list] that its loops update:
    [shopping_list.items], [remaining_budget] and [reasoning].  The
    dictionary [nutrients_addressed] of the function is written but never
    read, and is left out. *)
Module Plan.
Record t : Type := mk {
  items : list ShoppingListItem.t;
  remaining_budget : float;
  reasoning : list text
}.
End Plan.

Definition pantry_foods : list string := ["bread"; "canned goods"; "produce"].

Definition pantry_item (pantry : TravelFeasibility.t) (pf : string) : ShoppingListItem.t :=
  ShoppingListItem.mk
    (FoodItem.mk ("Pantry: " +:+ title pf) "pantry" 0.0 false false [] "varies" 7)
    1 ShoppingPriority.HIGH (Because "Available FREE at food pantry")
    (Some (Store.name (TravelFeasibility.store pantry))) 0.0 [].

(** Phase 1: the placeholders taken from the first reachable pantry. *)
Definition pantry_placeholders (pantry : TravelFeasibility.t) : list ShoppingListItem.t :=
  let tags := Store.specialty_items (TravelFeasibility.store pantry) in
  map (pantry_item pantry)
    (List.filter (λ pf, mem pf tags || mem "produce" tags) pantry_foods).

Definition pantry_recommendation (pantry : TravelFeasibility.t) : text :=
  let store := TravelFeasibility.store pantry in
  let pantry_items_text := join_comma (take 3 (Store.specialty_items store)) in
  [Txt ("RECOMMENDATION: Visit " +:+ Store.name store +:+ " first (FREE). " +:+
        "Available: " +:+ pantry_items_text +:+ ". Hours: " +:+ Store.hours store)].

(** [not any(allergy in f.name.lower() for allergy in allergies)] *)
Definition food_safe (allergies : list string) (f : FoodItem.t) : bool :=
  negb (existsb (λ allergy, contains allergy (lower (FoodItem.name f))) allergies).

(** The rebinding of [food] at the head of the selection loop. *)
Definition budget_substitute (budget_tier : BudgetTier) (food : FoodItem.t) : FoodItem.t :=
  let food_key :=
    map fst
      (List.filter
         (λ kv : string * FoodItem.t,
            String.eqb (FoodItem.name (snd kv)) (FoodItem.name food))
         FOOD_DATABASE) in
  match food_key with
  | k :: _ =>
      if tight_budget budget_tier then
        match dict_get k BUDGET_ALTERNATIVES with
        | Some alt_key =>
            if nonempty alt_key then
              match dict_get alt_key FOOD_DATABASE with
              | Some alt => alt
              | None => food
              end
            else food
        | None => food
        end
      else food
  | [] => food
  end.

(** The selection loop over [safe_options]: [Some food] when it reaches
    [break], [None] when it runs to the end. *)
Fixpoint first_affordable (user_context : UserContext.t) (remaining_budget : float)
    (safe_options : list FoodItem.t) : option FoodItem.t :=
  match safe_options with
  | [] => None
  | food :: rest =>
      let food :=
        budget_substitute
          (Financials.budget_tier (UserContext.financials user_context)) food in
      if PrimFloat.leb (FoodItem.price_estimate food) remaining_budget then
        if Financials.snap_status (UserContext.financials user_context)
           && negb (FoodItem.snap_eligible food)
        then first_affordable user_context remaining_budget rest
        else Some food
      else first_affordable user_context remaining_budget rest
  end.

(** What the body of the loop over [top_needs] decides for one need, up to
    the choice of [selected_food]: a [continue] with its log line, or the
    selected food. *)
Inductive Resolution : Type :=
  | Skipped (why : text)
  | Selected (selected_food : FoodItem.t).

Definition resolve_need (user_context : UserContext.t) (remaining_budget : float)
    (need : NutrientNeed.t) : Resolution :=
  let nutrient := NutrientNeed.nutrient need in
  if PrimFloat.leb remaining_budget 0 then
    Skipped [Txt ("BUDGET EXHAUSTED: Skipping " +:+ nutrient)]
  else
    let food_options := get_foods_for_nutrient nutrient in
    match food_options with
    | [] => Skipped [Txt ("No foods found for " +:+ nutrient)]
    | _ =>
        let allergies :=
          map lower (MedicalHistory.known_allergies (UserContext.medical user_context)) in
        let safe_options := List.filter (food_safe allergies) food_options in
        match safe_options with
        | [] => Skipped [Txt ("All foods for " +:+ nutrient +:+ " conflict with allergies")]
        | cheapest :: _ =>
            match first_affordable user_context remaining_budget safe_options with
            | Some food => Selected food
            | None => Selected cheapest
            end
        end
    end.

Definition find_best_store (user_context : UserContext.t) (resource_map : ResourceMap.t)
    : option string :=
  let snap := Financials.snap_status (UserContext.financials user_context) in
  option_map (λ tf, Store.name (TravelFeasibility.store tf))
    (List.find
       (λ tf,
          negb (snap && negb (Store.snap_accepted (TravelFeasibility.store tf))) &&
          negb (InventoryLevel.eqb (Store.inventory_level (TravelFeasibility.store tf))
                  InventoryLevel.LOW))
       (ResourceMap.accessible_stores resource_map)).

(** The [else] branch of the duplicate test: the first item with the
    selected food's name gets the nutrient, unless it has it already. *)
Fixpoint add_nutrient (food_name nutrient : string) (items : list ShoppingListItem.t)
    : list ShoppingListItem.t :=
  match items with
  | [] => []
  | existing :: rest =>
      if String.eqb (FoodItem.name (ShoppingListItem.food existing)) food_name then
        (if mem nutrient (ShoppingListItem.nutrients_addressed existing) then existing
         else
           ShoppingListItem.mk
             (ShoppingListItem.food existing) (ShoppingListItem.quantity existing)
             (ShoppingListItem.priority existing) (ShoppingListItem.reason existing)
             (ShoppingListItem.suggested_store existing)
             (ShoppingListItem.estimated_cost existing)
             (ShoppingListItem.nutrients_addressed existing ++ [nutrient])) :: rest
      else existing :: add_nutrient food_name nutrient rest
  end.

Definition has_food (food_name : string) (items : list ShoppingListItem.t) : bool :=
  existsb
    (λ existing, String.eqb food_name (FoodItem.name (ShoppingListItem.food existing)))
    items.

(** Phase 2, one iteration of the loop over [top_needs]. *)
Definition plan_need (user_context : UserContext.t) (resource_map : ResourceMap.t)
    (st : Plan.t) (need : NutrientNeed.t) : Plan.t :=
  match resolve_need user_context (Plan.remaining_budget st) need with
  | Skipped why =>
      Plan.mk (Plan.items st) (Plan.remaining_budget st) (Plan.reasoning st ++ [why])
  | Selected selected_food =>
      let best_store := find_best_store user_context resource_map in
      let priority :=
        calculate_priority (NutrientNeed.priority need)
          (Financials.budget_tier (UserContext.financials user_context)) in
      let item :=
        ShoppingListItem.mk selected_food 1 priority
          (Addresses (NutrientNeed.nutrient need) (NutrientNeed.reason need))
          best_store (FoodItem.price_estimate selected_food)
          [NutrientNeed.nutrient need] in
      if negb (has_food (FoodItem.name selected_food) (Plan.items st)) then
        Plan.mk (Plan.items st ++ [item])
          (Plan.remaining_budget st - FoodItem.price_estimate selected_food)
          (Plan.reasoning st ++
           [[Txt ("Added " +:+ FoodItem.name selected_food +:+ " ($");
             Fixed2 (FoodItem.price_estimate selected_food);
             Txt (") for " +:+ NutrientNeed.nutrient need +:+ " [Priority ");
             Int (NutrientNeed.priority need); Txt "]"]])
      else
        Plan.mk
          (add_nutrient (FoodItem.name selected_food) (NutrientNeed.nutrient need)
             (Plan.items st))
          (Plan.remaining_budget st) (Plan.reasoning st)
  end.

Definition staples : list string :=
  ["oats"; "brown_rice"; "black_beans_canned"; "bananas"; "peanut_butter"].

(** Phase 3: the loop over the staples, with its [break]. *)
Fixpoint fill_staples (staple_keys : list string) (st : Plan.t) : Plan.t :=
  match staple_keys with
  | [] => st
  | staple_key :: rest =>
      if PrimFloat.leb (Plan.remaining_budget st) 2 then st
      else
        match dict_get staple_key FOOD_DATABASE with
        | None => fill_staples rest st
        | Some staple =>
            if negb (has_food (FoodItem.name staple) (Plan.items st)) &&
               PrimFloat.leb (FoodItem.price_estimate staple) (Plan.remaining_budget st)
            then
              fill_staples rest
                (Plan.mk
                   (Plan.items st ++
                    [ShoppingListItem.mk staple 1 ShoppingPriority.OPTIONAL
                       (Because "Budget-friendly staple for general nutrition")
                       None (FoodItem.price_estimate staple) []])
                   (Plan.remaining_budget st - FoodItem.price_estimate staple)
                   (Plan.reasoning st ++ [[Txt ("Added staple: " +:+ FoodItem.name staple)]]))
            else fill_staples rest st
        end
  end.

(** [sum(item.estimated_cost for item in items)]: the costs are added one
    after another, from left to right, starting from 0, as CPython does up
    to version 3.11 (later versions compensate the rounding error of the
    intermediate sums). *)
Definition sum_costs (items : list ShoppingListItem.t) : float :=
  fold_left (λ acc item, (acc + ShoppingListItem.estimated_cost item)%float) items 0%float.

(** [item.suggested_store or "Any Store"] *)
Definition visit_key (item : ShoppingListItem.t) : string :=
  match ShoppingListItem.suggested_store item with
  | Some s => if nonempty s then s else "Any Store"
  | None => "Any Store"
  end.

Definition group_by_store (items : list ShoppingListItem.t)
    : list (string * list ShoppingListItem.t) :=
  fold_left
    (λ visits item,
       let store := visit_key item in
       dict_set store (default [] (dict_get store visits) ++ [item]) visits)
    items [].

Definition by_priority (a b : ShoppingListItem.t) : bool :=
  (ShoppingPriority.value (ShoppingListItem.priority a) <=?
   ShoppingPriority.value (ShoppingListItem.priority b))%Z.

(** The guard of phase 1: the pantry it recommends, if any. *)
Definition recommended_pantry (user_context : UserContext.t) (resource_map : ResourceMap.t)
    : option TravelFeasibility.t :=
  if tight_budget (Financials.budget_tier (UserContext.financials user_context)) then
    match ResourceMap.food_pantries resource_map with
    | pantry :: _ => Some pantry
    | [] => None
    end
  else None.

(** The state in which the loop over [top_needs] starts. *)
Definition initial_plan (user_context : UserContext.t)
    (nutrient_priorities : NutrientPriorityList.t) (resource_map : ResourceMap.t) : Plan.t :=
  let financials := UserContext.financials user_context in
  let budget := Financials.weekly_budget financials in
  let budget_tier := Financials.budget_tier financials in
  let top_needs := NutrientPriorityList.get_top_priorities nutrient_priorities 8 in
  Plan.mk [] budget
    ([ [Txt ("Budget tier: " +:+ tier_name budget_tier +:+ " ($"); Amount budget;
        Txt "/week)"];
       [Txt "Top "; Int (Z.of_nat (length top_needs));
        Txt " nutrient priorities identified"] ] ++
     match recommended_pantry user_context resource_map with
     | Some _ => [[Txt "LOW BUDGET: Recommending food pantry as primary resource"]]
     | None => []
     end).

(** The state after the loop over [top_needs] and the loop over the
    staples. *)
Definition final_plan (user_context : UserContext.t)
    (nutrient_priorities : NutrientPriorityList.t) (resource_map : ResourceMap.t) : Plan.t :=
  let top_needs := NutrientPriorityList.get_top_priorities nutrient_priorities 8 in
  let st := initial_plan user_context nutrient_priorities resource_map in
  let st := fold_left (plan_need user_context resource_map) top_needs st in
  fill_staples staples st.

Definition generate_shopping_list (user_context : UserContext.t)
    (nutrient_priorities : NutrientPriorityList.t) (resource_map : ResourceMap.t)
    : ShoppingList.t :=
  let pantry := recommended_pantry user_context resource_map in
  let st := final_plan user_context nutrient_priorities resource_map in
  ShoppingList.mk
    (UserContext.user_id user_context)
    (stable_sort by_priority (Plan.items st))
    (sum_costs (Plan.items st))
    (Plan.remaining_budget st)
    (match pantry with Some pantry => pantry_placeholders pantry | None => [] end)
    (group_by_store (Plan.items st))
    (match pantry with Some pantry => [pantry_recommendation pantry] | None => [] end ++
     Plan.reasoning st).

(** ** main.py *)

Definition run_full_analysis (user : UserContext.t)
    : NutrientPriorityList.t * ResourceMap.t * ShoppingList.t :=
  let nutrient_priorities := analyze_lab_data user in
  let resource_map := resource_locator user in
  let shopping_list := generate_shopping_list user nutrient_priorities resource_map in
  (nutrient_priorities, resource_map, shopping_list).

(** ** Notions used by the statements *)

(** A lab record in which only the iron level is set. *)
Definition lab_with_iron (level : Q) : LabResults.t :=
  LabResults.mk None None None None (Some level) None None None None None.

(** The needs that name a given nutrient. *)
Definition needs_for (nutrient : string) (needs : list NutrientNeed.t) : list NutrientNeed.t :=
  List.filter (λ n, String.eqb (NutrientNeed.nutrient n) nutrient) needs.

(** Two lab records that agree on every field but [ferritin_level] and
    [omega3_index]. *)
Definition same_labs_but_ferritin_omega3 (a b : LabResults.t) : Prop :=
  LabResults.mthfr_variant a = LabResults.mthfr_variant b ∧
  LabResults.comt_variant a = LabResults.comt_variant b ∧
  LabResults.vitamin_b12_level a = LabResults.vitamin_b12_level b ∧
  LabResults.vitamin_d_level a = LabResults.vitamin_d_level b ∧
  LabResults.iron_level a = LabResults.iron_level b ∧
  LabResults.crp_level a = LabResults.crp_level b ∧
  LabResults.homocysteine_level a = LabResults.homocysteine_level b ∧
  LabResults.glucose_fasting a = LabResults.glucose_fasting b.

(** Two profiles that differ at most in those two fields of the lab record. *)
Definition same_but_ferritin_omega3 (a b : UserContext.t) : Prop :=
  UserContext.user_id a = UserContext.user_id b ∧
  UserContext.name a = UserContext.name b ∧
  UserContext.financials a = UserContext.financials b ∧
  UserContext.logistics a = UserContext.logistics b ∧
  UserContext.medical a = UserContext.medical b ∧
  match UserContext.lab_results a, UserContext.lab_results b with
  | Some la, Some lb => same_labs_but_ferritin_omega3 la lb
  | None, None => True
  | _, _ => False
  end.

(** A profile as the questionnaire builds it when every answer is left
    empty, carrying the given lab record. *)
Definition profile_with_labs (lab : LabResults.t) : UserContext.t :=
  UserContext.mk "user_anonymous" "Anonymous"
    (Financials.mk 75 false false None)
    (Logistics.mk "00000" false false 1 2.0)
    (MedicalHistory.mk [] [] [] [] [])
    (Some lab).

(** What one iteration of [consolidate_nutrient_needs] stores under the
    key of [need], given what the dictionary held there. *)
Definition merge_need (held : option NutrientNeed.t) (need : NutrientNeed.t) : NutrientNeed.t :=
  match held with
  | Some existing =>
      if (NutrientNeed.priority need <? NutrientNeed.priority existing)%Z then
        NutrientNeed.mk (NutrientNeed.nutrient need) (NutrientNeed.priority need)
          (NutrientNeed.reason need ++ [Txt "; Also: "] ++ NutrientNeed.reason existing)
          (list_of_set (NutrientNeed.related_markers existing ++
                        NutrientNeed.related_markers need))
          (NutrientNeed.food_sources need)
      else
        NutrientNeed.mk (NutrientNeed.nutrient existing)
          (NutrientNeed.priority existing) (NutrientNeed.reason existing)
          (list_of_set (NutrientNeed.related_markers existing ++
                        NutrientNeed.related_markers need))
          (NutrientNeed.food_sources existing)
  | None => need
  end.

(** The entry held under key [k] after the needs [l] went through the
    loop, starting from [held]. *)
Definition held_after (k : string) (l : list NutrientNeed.t) (held : option NutrientNeed.t)
    : option NutrientNeed.t :=
  fold_left
    (λ o x, if String.eqb (NutrientNeed.nutrient x) k then Some (merge_need o x) else o)
    l held.

(** The rationale of a group of needs of one nutrient, by the rule: a later
    need whose priority number is strictly below the one held so far puts
    its rationale in front, followed by "; Also: " and the rationale held;
    any other later need leaves the rationale as it is. *)
Fixpoint chain_reasons (held_priority : Z) (held_reason : text)
    (later : list NutrientNeed.t) : text :=
  match later with
  | [] => held_reason
  | x :: later' =>
      if (NutrientNeed.priority x <? held_priority)%Z then
        chain_reasons (NutrientNeed.priority x)
          (NutrientNeed.reason x ++ [Txt "; Also: "] ++ held_reason) later'
      else chain_reasons held_priority held_reason later'
  end.

Definition group_reason (group : list NutrientNeed.t) : text :=
  match group with
  | [] => []
  | first :: later =>
      chain_reasons (NutrientNeed.priority first) (NutrientNeed.reason first) later
  end.

(** The reading of "the consolidated entry carries the rationale of every
    need of its group": each piece of the rationale of each need of the
    group occurs in the rationale of the entry. *)
Definition rationales_carried (all_needs : list NutrientNeed.t) : Prop :=
  ∀ e x, In e (consolidate_nutrient_needs all_needs) → In x all_needs →
    NutrientNeed.nutrient x = NutrientNeed.nutrient e →
    ∀ p, In p (NutrientNeed.reason x) → In p (NutrientNeed.reason e).

(** The needs of a lab record with an iron level of 50 together with those
    of the symptom "fatigue": Iron at priority 1, then Iron and Vitamin B12
    at priority 3. *)
Definition low_iron_and_fatigue : list NutrientNeed.t :=
  iron_rule (lab_with_iron 50) ++
  analyze_symptoms (MedicalHistory.mk [] [] ["fatigue"] [] []).

(** The same profile with another [max_travel_distance_miles]. *)
Definition with_max_travel_distance (user_context : UserContext.t) (miles : Q)
    : UserContext.t :=
  let logistics := UserContext.logistics user_context in
  UserContext.mk
    (UserContext.user_id user_context) (UserContext.name user_context)
    (UserContext.financials user_context)
    (Logistics.mk (Logistics.zip_code logistics) (Logistics.has_vehicle logistics)
       (Logistics.has_public_transit logistics)
       (Logistics.grocery_trips_per_week logistics) miles)
    (UserContext.medical user_context) (UserContext.lab_results user_context).

(** The stores of the reachable set of a resource map. *)
Definition reachable_stores (resource_map : ResourceMap.t) : list Store.t :=
  map TravelFeasibility.store (ResourceMap.accessible_stores resource_map).

(** What the loop over [top_needs] decides for each need, in order: the
    need paired with its resolution in the state in which it is met. *)
Fixpoint resolutions (user_context : UserContext.t) (resource_map : ResourceMap.t)
    (st : Plan.t) (needs : list NutrientNeed.t) : list (NutrientNeed.t * Resolution) :=
  match needs with
  | [] => []
  | need :: rest =>
      (need, resolve_need user_context (Plan.remaining_budget st) need) ::
      resolutions user_context resource_map
        (plan_need user_context resource_map st need) rest
  end.

Definition plan_resolutions (user_context : UserContext.t)
    (nutrient_priorities : NutrientPriorityList.t) (resource_map : ResourceMap.t)
    : list (NutrientNeed.t * Resolution) :=
  resolutions user_context resource_map
    (initial_plan user_context nutrient_priorities resource_map)
    (NutrientPriorityList.get_top_priorities nutrient_priorities 8).

(** The items of a list whose food has a given name. *)
Definition items_named (food_name : string) (items : list ShoppingListItem.t)
    : list ShoppingListItem.t :=
  List.filter
    (λ it, String.eqb (FoodItem.name (ShoppingListItem.food it)) food_name) items.

(** A zero-cost pantry placeholder for the staple [pf] is on the plan. *)
Definition has_placeholder (shopping_list : ShoppingList.t) (pf : string) : Prop :=
  ∃ item, In item (ShoppingList.pantry_items shopping_list) ∧
          FoodItem.name (ShoppingListItem.food item) = "Pantry: " +:+ title pf ∧
          ShoppingListItem.estimated_cost item = 0.0%float.

(** A profile on a very low budget, with no lab record. *)
Definition low_budget_profile (family_history known_allergies : list string)
    : UserContext.t :=
  UserContext.mk "user_anonymous" "Anonymous"
    (Financials.mk 40 false false None)
    (Logistics.mk "00000" false false 1 2.0)
    (MedicalHistory.mk family_history [] [] known_allergies [])
    None.






(** [s.isascii()] *)
Fixpoint ascii_only (s : string) : bool :=
  match s with
  | EmptyString => true
  | String c s' => (N_of_ascii c <? 128)%N && ascii_only s'
  end.

(** The names of the foods on a list of items. *)
Definition item_names (items : list ShoppingListItem.t) : list string :=
  map (λ it, FoodItem.name (ShoppingListItem.food it)) items.

(** Some item of the list has the food of that name and addresses the
    nutrient. *)
Definition covers (items : list ShoppingListItem.t) (food_name nutrient : string) : Prop :=
  ∃ it, In it items ∧ FoodItem.name (ShoppingListItem.food it) = food_name ∧
        In nutrient (ShoppingListItem.nutrients_addressed it).

(** ** Further functions of the source *)

(** [NutrientPriorityList.get_all_food_sources]: the dict comprehension
    [{need.nutrient: need.food_sources for need in self.needs}]. *)
Definition get_all_food_sources (self : NutrientPriorityList.t)
    : list (string * list string) :=
  fold_left
    (λ d need, dict_set (NutrientNeed.nutrient need) (NutrientNeed.food_sources need) d)
    (NutrientPriorityList.needs self) [].

(** The lowercased allergy tags of a profile, as [analyze_lab_data] and
    [generate_shopping_list] compute them. *)
Definition allergies_of (user_context : UserContext.t) : list string :=
  map lower (MedicalHistory.known_allergies (UserContext.medical user_context)).

(** What every need built by a rule looks like: its nutrient is a key of
    [NUTRIENT_FOOD_SOURCES], its priority lies between 1 and 4 and its food
    sources are the table's row for the nutrient. *)
Definition rule_shaped (n : NutrientNeed.t) : Prop :=
  In (NutrientNeed.nutrient n) (map fst NUTRIENT_FOOD_SOURCES) ∧
  (1 <= NutrientNeed.priority n <= 4)%Z ∧
  NutrientNeed.food_sources n = sources_of (NutrientNeed.nutrient n).

(** A questionnaire profile with diabetes in the family history whose
    allergy tags match every food source of Chromium. *)
Definition chromium_blocked_profile : UserContext.t :=
  UserContext.mk "user_anonymous" "Anonymous"
    (Financials.mk 75 false false None)
    (Logistics.mk "00000" false false 1 2.0)
    (MedicalHistory.mk ["diabetes"] [] []
       ["broccoli"; "grape"; "grains"; "beef"; "beans"; "potatoes"] [])
    None.


(** ** Notions used by the further properties of the plan builder *)

(** [FOOD_DATABASE.values()] *)
Definition database_foods : list FoodItem.t := map snd FOOD_DATABASE.

(** An item as the plan builder creates it: one unit of a food of the
    table, at the table's price. *)
Definition priced_from_table (item : ShoppingListItem.t) : Prop :=
  In (ShoppingListItem.food item) database_foods ∧
  ShoppingListItem.quantity item = 1%Z ∧
  ShoppingListItem.estimated_cost item =
  FoodItem.price_estimate (ShoppingListItem.food item).

(** The item was created for a nutrient need (its reason starts with
    "Addresses"), not as a staple. *)
Definition for_a_need (item : ShoppingListItem.t) : bool :=
  match ShoppingListItem.reason item with
  | Addresses _ _ => true
  | Because _ => false
  end.

(** A store the selection loop may suggest to this profile. *)
Definition usable_store (user_context : UserContext.t) (tf : TravelFeasibility.t) : Prop :=
  Store.inventory_level (TravelFeasibility.store tf) ≠ InventoryLevel.LOW ∧
  (Financials.snap_status (UserContext.financials user_context) = true →
   Store.snap_accepted (TravelFeasibility.store tf) = true).

Definition moderate_budget_profile (known_allergies : list string) : UserContext.t :=
  UserContext.mk "user_anonymous" "Anonymous"
    (Financials.mk 120 false false None)
    (Logistics.mk "00000" false false 1 2.0)
    (MedicalHistory.mk ["heart_disease"; "cancer"] [] ["fatigue"] known_allergies [])
    None.

(** The item addresses only nutrients that its food provides, and its food
    contains none of the allergens. *)
Definition sound_for (allergies : list string) (item : ShoppingListItem.t) : Prop :=
  food_safe allergies (ShoppingListItem.food item) = true ∧
  Forall (λ n, In n (FoodItem.nutrients_provided (ShoppingListItem.food item)))
    (ShoppingListItem.nutrients_addressed item).

(** ** resource_locator.py: [get_stores_with_item] *)

Definition item_keywords : list (string * list string) :=
  [ ("produce", ["produce"; "fresh"; "farmers"; "organic"]);
    ("spinach", ["produce"; "fresh"; "organic"; "leafy"]);
    ("eggs", ["eggs"; "dairy"; "fresh"; "farmers"]);
    ("fish", ["fresh"; "specialty"; "salmon"; "seafood"]);
    ("salmon", ["fresh"; "specialty"; "seafood"]);
    ("beans", ["bulk"; "canned"; "staples"; "basic"]);
    ("lentils", ["bulk"; "specialty"; "organic"]);
    ("nuts", ["bulk"; "specialty"; "snacks"]);
    ("supplements", ["supplements"; "specialty"; "health"]) ].

(** [" ".join(l)] *)
Fixpoint join_space (l : list string) : string :=
  match l with
  | [] => ""
  | [x] => x
  | x :: rest => x +:+ " " +:+ join_space rest
  end.

Definition get_stores_with_item (resource_map : ResourceMap.t) (item : string)
    : list TravelFeasibility.t :=
  let item_lower := lower item in
  let search_keywords := default [item_lower] (dict_get item_lower item_keywords) in
  List.filter
    (λ feasibility,
       let store := TravelFeasibility.store feasibility in
       let store_items := lower (join_space (Store.specialty_items store)) in
       existsb (λ kw, contains kw store_items) search_keywords ||
       InventoryLevel.eqb (Store.inventory_level store) InventoryLevel.HIGH)
    (ResourceMap.accessible_stores resource_map).

(** The list of [SYNTHETIC_STORES_DATABASE] under a key, empty for a
    missing key. *)
Definition stores_of_key (k : string) : list Store.t :=
  default [] (dict_get k SYNTHETIC_STORES_DATABASE).

(** Better score first, and the nearer store first among equal scores. *)
Definition score_then_distance (a b : TravelFeasibility.t) : Prop :=
  (TravelFeasibility.accessibility_score b < TravelFeasibility.accessibility_score a)%Q ∨
  ((TravelFeasibility.accessibility_score a == TravelFeasibility.accessibility_score b)%Q ∧
   (Store.distance_miles (TravelFeasibility.store a) <=
    Store.distance_miles (TravelFeasibility.store b))%Q).

(** Lower price tier first, and the nearer store first within a tier. *)
Definition price_then_distance (a b : TravelFeasibility.t) : Prop :=
  (Store.price_tier (TravelFeasibility.store a) <
   Store.price_tier (TravelFeasibility.store b))%Z ∨
  (Store.price_tier (TravelFeasibility.store a) =
   Store.price_tier (TravelFeasibility.store b) ∧
   (Store.distance_miles (TravelFeasibility.store a) <=
    Store.distance_miles (TravelFeasibility.store b))%Q).

(** ** interactive_cli.py: the lookups of [InteractiveCLI] *)

Module InteractiveCLI.
Record t : Type := mk {
  user : UserContext.t;
  nutrients : NutrientPriorityList.t;
  shopping : ShoppingList.t;
  running : bool
}.

(** [InteractiveCLI(user_context, nutrient_priorities, shopping_list)] *)
Definition init (user_context : UserContext.t)
    (nutrient_priorities : NutrientPriorityList.t) (shopping_list : ShoppingList.t) : t :=
  mk user_context nutrient_priorities shopping_list false.

Definition find_item_by_name (self : t) (search : string) : option ShoppingListItem.t :=
  let search_lower := lower search in
  List.find
    (λ item, contains search_lower (lower (FoodItem.name (ShoppingListItem.food item))))
    (ShoppingList.items (shopping self)).

Definition find_nutrient_need (self : t) (search : string) : option NutrientNeed.t :=
  let search_lower := lower search in
  List.find
    (λ need, contains search_lower (lower (NutrientNeed.nutrient need)))
    (NutrientPriorityList.needs (nutrients self)).
End InteractiveCLI.

(** No name of the list is part of another, letter case aside. *)
Definition no_name_within_another (names : list string) : bool :=
  forallb
    (λ k, forallb (λ k', implb (contains (lower k) (lower k')) (String.eqb k k')) names)
    names.
(** * Properties *)

(** ** Comparisons on rationals *)

Lemma Qltb_lt (a b : Q) : Qltb a b = true ↔ (a < b)%Q.
Proof.
  unfold Qltb. rewrite negb_true_iff. split.
  - intros H. apply Qnot_le_lt. intros Hle.
    apply Qle_bool_iff in Hle. congruence.
  - intros H. destruct (Qle_bool b a) eqn:E; [|done].
    apply Qle_bool_iff in E. exfalso. by apply (Qlt_not_le a b).
Qed.

Lemma Qltb_ge (a b : Q) : Qltb a b = false ↔ (b <= a)%Q.
Proof.
  unfold Qltb. rewrite negb_false_iff. apply Qle_bool_iff.
Qed.

(** ** Lab-value bands *)

Lemma needs_for_other (k : string) (needs : list NutrientNeed.t) :
  Forall (λ n, NutrientNeed.nutrient n ≠ k) needs → needs_for k needs = [].
Proof.
  induction 1 as [|n l Hn _ IH]; [done|].
  unfold needs_for in *. simpl. rewrite IH.
  destruct (String.eqb_spec (NutrientNeed.nutrient n) k); [done|done].
Qed.

Lemma vitamin_d_rule_names (lab : LabResults.t) :
  Forall (λ n, NutrientNeed.nutrient n = "Vitamin D") (vitamin_d_rule lab).
Proof.
  unfold vitamin_d_rule. repeat case_match; repeat constructor.
Qed.

Lemma iron_rule_names (lab : LabResults.t) :
  Forall (λ n, NutrientNeed.nutrient n = "Iron") (iron_rule lab).
Proof.
  unfold iron_rule. repeat case_match; repeat constructor.
Qed.

Lemma needs_for_b12_vitamin_levels (lab : LabResults.t) :
  needs_for "Vitamin B12" (analyze_vitamin_levels lab) =
  needs_for "Vitamin B12" (vitamin_b12_rule lab).
Proof.
  unfold analyze_vitamin_levels, needs_for. rewrite !List.filter_app.
  fold (needs_for "Vitamin B12" (vitamin_d_rule lab)).
  fold (needs_for "Vitamin B12" (iron_rule lab)).
  rewrite (needs_for_other _ (vitamin_d_rule lab)), (needs_for_other _ (iron_rule lab)).
  - by rewrite !app_nil_r.
  - eapply Forall_impl; [apply iron_rule_names|]. intros n ->. done.
  - eapply Forall_impl; [apply vitamin_d_rule_names|]. intros n ->. done.
Qed.

(** C9: with a vitamin B12 level present, the vitamin rules emit exactly
    one Vitamin B12 need of priority 1 below 300, exactly one of priority 2
    from 300 up to but not including 500, and none from 500 on. *)
Theorem b12_band_priority (lab : LabResults.t) (v : Q) :
  LabResults.vitamin_b12_level lab = Some v →
  let b12 := needs_for "Vitamin B12" (analyze_vitamin_levels lab) in
  ((v < 300)%Q → map NutrientNeed.priority b12 = [1%Z]) ∧
  ((300 <= v)%Q → (v < 500)%Q → map NutrientNeed.priority b12 = [2%Z]) ∧
  ((500 <= v)%Q → b12 = []).
Proof.
  intros Hv b12. subst b12. rewrite needs_for_b12_vitamin_levels.
  unfold vitamin_b12_rule. rewrite Hv. cbv zeta.
  change (LevelRange.low LAB_REFERENCE_RANGES.vitamin_b12) with 300%Q.
  change (LevelRange.optimal_low LAB_REFERENCE_RANGES.vitamin_b12) with 500%Q.
  split; [|split].
  - intros Hlt. apply Qltb_lt in Hlt. by rewrite Hlt.
  - intros Hge Hlt. apply Qltb_ge in Hge. apply Qltb_lt in Hlt.
    by rewrite Hge, Hlt.
  - intros Hge. assert (Hge' : (300 <= v)%Q).
    { eapply Qle_trans; [|exact Hge]. done. }
    apply Qltb_ge in Hge, Hge'. by rewrite Hge', Hge.
Qed.

Lemma b12_band_priority_witness :
  map NutrientNeed.priority
    (needs_for "Vitamin B12"
       (analyze_vitamin_levels
          (LabResults.mk None None (Some 280%Q) None None None None None None None)))
  = [1%Z] ∧
  map NutrientNeed.priority
    (needs_for "Vitamin B12"
       (analyze_vitamin_levels
          (LabResults.mk None None (Some 300%Q) None None None None None None None)))
  = [2%Z] ∧
  needs_for "Vitamin B12"
    (analyze_vitamin_levels
       (LabResults.mk None None (Some 500%Q) None None None None None None None))
  = [].
Proof.
  split; [|split].
  - apply (b12_band_priority
             (LabResults.mk None None (Some 280%Q) None None None None None None None)
             280%Q eq_refl).
    reflexivity.
  - apply (b12_band_priority
             (LabResults.mk None None (Some 300%Q) None None None None None None None)
             300%Q eq_refl).
    + discriminate.
    + reflexivity.
  - apply (b12_band_priority
             (LabResults.mk None None (Some 500%Q) None None None None None None None)
             500%Q eq_refl).
    discriminate.
Defined.




(** ** Stable sorting *)

Lemma insert_sorted_perm {A} (leb : A → A → bool) (x : A) (l : list A) :
  Permutation (insert_sorted leb x l) (x :: l).
Proof.
  induction l as [|y l IH]; simpl; [done|].
  destruct (leb x y); [done|].
  rewrite IH. apply perm_swap.
Qed.

Lemma stable_sort_perm {A} (leb : A → A → bool) (l : list A) :
  Permutation (stable_sort leb l) l.
Proof.
  induction l as [|x l IH]; simpl; [done|].
  rewrite insert_sorted_perm. by constructor.
Qed.

Lemma stable_sort_In {A} (leb : A → A → bool) (l : list A) (x : A) :
  In x (stable_sort leb l) ↔ In x l.
Proof.
  split; apply Permutation_in; [|symmetry]; apply stable_sort_perm.
Qed.

Section sort_order.
Context {A : Type} (leb : A → A → bool) (R : A → A → Prop).
Hypothesis leb_true : ∀ a b, leb a b = true → R a b.
Hypothesis leb_false : ∀ a b, leb a b = false → R b a.
Hypothesis R_trans : ∀ a b c, R a b → R b c → R a c.

Lemma insert_sorted_sorted (x : A) (l : list A) :
  StronglySorted R l → StronglySorted R (insert_sorted leb x l).
Proof.
  induction 1 as [|y l Hl IH Hy]; simpl.
  - repeat constructor.
  - destruct (leb x y) eqn:E.
    + constructor; [by constructor|].
      constructor; [by apply leb_true|].
      eapply Forall_impl; [exact Hy|]. intros z Hz.
      eapply R_trans; [|exact Hz]. by apply leb_true.
    + constructor; [exact IH|].
      rewrite List.Forall_forall. intros z Hz.
      apply (Permutation_in _ (insert_sorted_perm leb x l)) in Hz.
      destruct Hz as [<-|Hz]; [by apply leb_false|].
      rewrite List.Forall_forall in Hy. by apply Hy.
Qed.

Lemma stable_sort_sorted (l : list A) : StronglySorted R (stable_sort leb l).
Proof.
  induction l as [|x l IH]; simpl; [constructor|].
  by apply insert_sorted_sorted.
Qed.
End sort_order.

(** ** Dictionaries *)

Lemma dict_get_set_eq {V} (k : string) (v : V) (d : list (string * V)) :
  dict_get k (dict_set k v d) = Some v.
Proof.
  induction d as [|[k' v'] d IH]; simpl.
  - by rewrite String.eqb_refl.
  - destruct (String.eqb k k') eqn:E; simpl; rewrite ?String.eqb_refl, ?E; done.
Qed.

Lemma dict_get_set_ne {V} (k k' : string) (v : V) (d : list (string * V)) :
  k ≠ k' → dict_get k' (dict_set k v d) = dict_get k' d.
Proof.
  intros Hne. induction d as [|[k0 v0] d IH]; simpl.
  - destruct (String.eqb_spec k' k); [congruence|done].
  - destruct (String.eqb_spec k k0) as [->|Hk]; simpl.
    + destruct (String.eqb_spec k' k0); [congruence|done].
    + destruct (String.eqb k' k0); [done|exact IH].
Qed.

Lemma dict_set_keys {V} (k : string) (v : V) (d : list (string * V)) :
  map fst (dict_set k v d) =
  match dict_get k d with
  | Some _ => map fst d
  | None => map fst d ++ [k]
  end.
Proof.
  induction d as [|[k' v'] d IH]; simpl; [done|].
  destruct (String.eqb_spec k k') as [->|Hk]; simpl; [done|].
  rewrite IH. by destruct (dict_get k d).
Qed.

Lemma dict_get_None {V} (k : string) (d : list (string * V)) :
  dict_get k d = None → ¬ In k (map fst d).
Proof.
  induction d as [|[k' v'] d IH]; simpl; [tauto|].
  destruct (String.eqb_spec k k') as [->|Hk]; [done|].
  intros H [Heq|Hin]; [congruence|by apply IH].
Qed.

Lemma dict_set_NoDup {V} (k : string) (v : V) (d : list (string * V)) :
  NoDup (map fst d) → NoDup (map fst (dict_set k v d)).
Proof.
  intros Hd. rewrite dict_set_keys.
  destruct (dict_get k d) eqn:E; [done|].
  apply NoDup_app. split; [done|]. split.
  - intros x Hx Hx'. apply list_elem_of_In in Hx, Hx'.
    destruct Hx' as [<-|[]]. by apply (dict_get_None _ _ E).
  - apply NoDup_singleton.
Qed.

Lemma dict_In_get {V} (k : string) (v : V) (d : list (string * V)) :
  NoDup (map fst d) → In (k, v) d → dict_get k d = Some v.
Proof.
  induction d as [|[k' v'] d IH]; simpl; [tauto|].
  intros Hd [Heq|Hin].
  - injection Heq as -> ->. by rewrite String.eqb_refl.
  - apply NoDup_cons in Hd as [Hk' Hd].
    destruct (String.eqb_spec k k') as [->|Hk].
    + exfalso. apply Hk'. apply list_elem_of_In.
      apply (in_map fst) in Hin. exact Hin.
    + by apply IH.
Qed.

Lemma dict_get_In {V} (k : string) (v : V) (d : list (string * V)) :
  dict_get k d = Some v → In (k, v) d.
Proof.
  induction d as [|[k' v'] d IH]; simpl; [done|].
  destruct (String.eqb_spec k k') as [->|Hk].
  - intros [= ->]. by left.
  - intros H. right. by apply IH.
Qed.

(** ** Consolidation *)

Lemma consolidate_step_merge (m : list (string * NutrientNeed.t)) (x : NutrientNeed.t) :
  consolidate_step m x =
  dict_set (NutrientNeed.nutrient x) (merge_need (dict_get (NutrientNeed.nutrient x) m) x) m.
Proof.
  unfold consolidate_step, merge_need.
  destruct (dict_get (NutrientNeed.nutrient x) m) as [e|]; [|done].
  by destruct (NutrientNeed.priority x <? NutrientNeed.priority e)%Z.
Qed.

Lemma consolidate_step_get (k : string) (m : list (string * NutrientNeed.t))
    (x : NutrientNeed.t) :
  dict_get k (consolidate_step m x) =
  if String.eqb (NutrientNeed.nutrient x) k
  then Some (merge_need (dict_get k m) x) else dict_get k m.
Proof.
  rewrite consolidate_step_merge.
  destruct (String.eqb_spec (NutrientNeed.nutrient x) k) as [<-|Hk].
  - apply dict_get_set_eq.
  - by apply dict_get_set_ne.
Qed.

Lemma consolidate_get (k : string) (l : list NutrientNeed.t)
    (m : list (string * NutrientNeed.t)) :
  dict_get k (fold_left consolidate_step l m) = held_after k l (dict_get k m).
Proof.
  revert m. induction l as [|x l IH]; intros m; simpl; [done|].
  rewrite IH, consolidate_step_get. done.
Qed.

Lemma consolidate_keys_NoDup (l : list NutrientNeed.t) (m : list (string * NutrientNeed.t)) :
  NoDup (map fst m) → NoDup (map fst (fold_left consolidate_step l m)).
Proof.
  revert m. induction l as [|x l IH]; intros m Hm; simpl; [done|].
  apply IH. rewrite consolidate_step_merge. by apply dict_set_NoDup.
Qed.

Lemma held_after_snoc (k : string) (l : list NutrientNeed.t) (x : NutrientNeed.t)
    (held : option NutrientNeed.t) :
  held_after k (l ++ [x]) held =
  if String.eqb (NutrientNeed.nutrient x) k
  then Some (merge_need (held_after k l held) x) else held_after k l held.
Proof. unfold held_after. by rewrite fold_left_app. Qed.

Lemma merge_need_nutrient (held : option NutrientNeed.t) (x : NutrientNeed.t) (k : string) :
  (∀ e, held = Some e → NutrientNeed.nutrient e = k) →
  NutrientNeed.nutrient x = k →
  NutrientNeed.nutrient (merge_need held x) = k.
Proof.
  intros He Hx. unfold merge_need. destruct held as [e|]; [|done].
  destruct (NutrientNeed.priority x <? NutrientNeed.priority e)%Z; simpl; [done|].
  by apply He.
Qed.

Lemma held_after_nutrient (k : string) (l : list NutrientNeed.t) (e : NutrientNeed.t) :
  held_after k l None = Some e → NutrientNeed.nutrient e = k.
Proof.
  revert e. induction l as [|x l IH] using rev_ind; intros e; [done|].
  rewrite held_after_snoc.
  destruct (String.eqb_spec (NutrientNeed.nutrient x) k) as [Hk|Hk]; [|by apply IH].
  intros [= <-]. by apply merge_need_nutrient.
Qed.

Lemma held_after_none (k : string) (l : list NutrientNeed.t) :
  held_after k l None = None → needs_for k l = [].
Proof.
  induction l as [|x l IH] using rev_ind; [done|].
  rewrite held_after_snoc. unfold needs_for in *. rewrite List.filter_app. simpl.
  destruct (String.eqb (NutrientNeed.nutrient x) k); [done|].
  intros H. by rewrite IH.
Qed.

(** The entry held for a nutrient has the lowest priority of its group. *)
Lemma held_after_priority (k : string) (l : list NutrientNeed.t) (e : NutrientNeed.t) :
  held_after k l None = Some e →
  (∃ x, In x l ∧ NutrientNeed.nutrient x = k ∧
        NutrientNeed.priority x = NutrientNeed.priority e) ∧
  (∀ x, In x l → NutrientNeed.nutrient x = k →
        (NutrientNeed.priority e <= NutrientNeed.priority x)%Z).
Proof.
  revert e. induction l as [|x l IH] using rev_ind; intros e; [done|].
  rewrite held_after_snoc.
  destruct (String.eqb_spec (NutrientNeed.nutrient x) k) as [Hk|Hk].
  - intros [= <-]. unfold merge_need.
    destruct (held_after k l None) as [e0|] eqn:E.
    + destruct (IH e0 eq_refl) as [(y & Hy & Hyk & Hyp) Hmin].
      destruct (Z.ltb_spec (NutrientNeed.priority x) (NutrientNeed.priority e0)); simpl.
      * split.
        -- exists x. rewrite in_app_iff. simpl. tauto.
        -- intros z Hz Hzk. apply in_app_iff in Hz as [Hz|[<-|[]]]; [|lia].
           specialize (Hmin z Hz Hzk). lia.
      * split.
        -- exists y. rewrite in_app_iff. tauto.
        -- intros z Hz Hzk. apply in_app_iff in Hz as [Hz|[<-|[]]]; [|lia].
           by apply Hmin.
    + split.
      * exists x. rewrite in_app_iff. simpl. tauto.
      * intros z Hz Hzk. apply in_app_iff in Hz as [Hz|[<-|[]]]; [|lia].
        apply held_after_none in E.
        assert (Hin : In z (needs_for k l)).
        { unfold needs_for. apply filter_In. split; [done|]. by apply String.eqb_eq. }
        rewrite E in Hin. destruct Hin.
  - intros He. destruct (IH e He) as [(y & Hy & Hyk & Hyp) Hmin]. split.
    + exists y. rewrite in_app_iff. tauto.
    + intros z Hz Hzk. apply in_app_iff in Hz as [Hz|[<-|[]]]; [|congruence].
      by apply Hmin.
Qed.

Lemma consolidate_entry (all_needs : list NutrientNeed.t) (e : NutrientNeed.t) :
  In e (consolidate_nutrient_needs all_needs) →
  held_after (NutrientNeed.nutrient e) all_needs None = Some e.
Proof.
  unfold consolidate_nutrient_needs. intros He.
  apply in_map_iff in He as ([k e'] & Heq & Hin). simpl in Heq. subst e'.
  apply dict_In_get in Hin; [|apply consolidate_keys_NoDup; constructor].
  rewrite consolidate_get in Hin. simpl in Hin.
  by rewrite (held_after_nutrient _ _ _ Hin).
Qed.

Lemma consolidate_names_NoDup (all_needs : list NutrientNeed.t) :
  NoDup (map NutrientNeed.nutrient (consolidate_nutrient_needs all_needs)).
Proof.
  unfold consolidate_nutrient_needs. rewrite map_map.
  assert (Hkeys := consolidate_keys_NoDup all_needs [] (NoDup_nil_2 (A:=string))).
  erewrite map_ext_in; [exact Hkeys|].
  intros [k e] Hin. simpl.
  apply dict_In_get in Hin; [|exact Hkeys].
  rewrite consolidate_get in Hin. by apply held_after_nutrient in Hin.
Qed.

(** C2: the needs returned by [analyze_lab_data] name each nutrient at most
    once; the priority of each entry is the priority of some need of that
    nutrient before consolidation and is not above the priority of any of
    them; and the list is in non-decreasing order of priority. *)
Theorem consolidated_needs_unique_lowest_sorted (user_context : UserContext.t) :
  let all_needs := filtered_needs user_context in
  let needs := NutrientPriorityList.needs (analyze_lab_data user_context) in
  NoDup (map NutrientNeed.nutrient needs) ∧
  (∀ e, In e needs →
     (∃ x, In x all_needs ∧ NutrientNeed.nutrient x = NutrientNeed.nutrient e ∧
           NutrientNeed.priority x = NutrientNeed.priority e) ∧
     (∀ x, In x all_needs → NutrientNeed.nutrient x = NutrientNeed.nutrient e →
           (NutrientNeed.priority e <= NutrientNeed.priority x)%Z)) ∧
  StronglySorted (λ a b, (NutrientNeed.priority a <= NutrientNeed.priority b)%Z) needs.
Proof.
  intros all_needs needs. subst needs. unfold analyze_lab_data. simpl.
  fold all_needs. split; [|split].
  - rewrite (Permutation_map NutrientNeed.nutrient (stable_sort_perm _ _)).
    apply consolidate_names_NoDup.
  - intros e He. apply stable_sort_In in He.
    apply consolidate_entry in He. by apply held_after_priority in He.
  - apply stable_sort_sorted.
    + intros a b H. by apply Z.leb_le.
    + intros a b H. apply Z.leb_gt in H. lia.
    + intros a b c. lia.
Qed.


Lemma In_list_of_set (m : string) (l : list string) :
  In m (list_of_set l) ↔ In m l.
Proof.
  unfold list_of_set. rewrite <- !list_elem_of_In.
  rewrite elem_of_elements. apply elem_of_list_to_set.
Qed.

Lemma In_needs_for (k : string) (l : list NutrientNeed.t) (x : NutrientNeed.t) :
  In x (needs_for k l) ↔ In x l ∧ NutrientNeed.nutrient x = k.
Proof.
  unfold needs_for. rewrite filter_In. by rewrite String.eqb_eq.
Qed.

(** The markers of the entry held for a nutrient are those of its group. *)
Lemma held_after_markers (k : string) (l : list NutrientNeed.t) (e : NutrientNeed.t) :
  held_after k l None = Some e →
  ∀ m, In m (NutrientNeed.related_markers e) ↔
       ∃ x, In x (needs_for k l) ∧ In m (NutrientNeed.related_markers x).
Proof.
  revert e. induction l as [|x l IH] using rev_ind; intros e; [done|].
  rewrite held_after_snoc.
  assert (Hgroup : ∀ P : NutrientNeed.t → Prop,
            (∃ y, In y (needs_for k (l ++ [x])) ∧ P y) ↔
            (∃ y, In y (needs_for k l) ∧ P y) ∨ (NutrientNeed.nutrient x = k ∧ P x)).
  { intros P. split.
    - intros (y & Hy & HP). apply In_needs_for in Hy as [Hy Hk].
      apply in_app_iff in Hy as [Hy|[<-|[]]]; [left|right; done].
      exists y. by rewrite In_needs_for.
    - intros [(y & Hy & HP)|[Hk HP]].
      + exists y. split; [|done]. apply In_needs_for in Hy as [Hy Hk].
        apply In_needs_for. rewrite in_app_iff. tauto.
      + exists x. split; [|done]. apply In_needs_for. rewrite in_app_iff. simpl. tauto. }
  destruct (String.eqb_spec (NutrientNeed.nutrient x) k) as [Hk|Hk].
  - intros [= <-] m.
    rewrite (Hgroup (λ y, In m (NutrientNeed.related_markers y))). unfold merge_need.
    destruct (held_after k l None) as [e0|] eqn:E.
    + specialize (IH e0 eq_refl m).
      destruct (NutrientNeed.priority x <? NutrientNeed.priority e0)%Z; simpl;
        rewrite In_list_of_set, in_app_iff, IH; tauto.
    + apply held_after_none in E. rewrite E. split; [tauto|].
      intros [(y & [] & _)|[_ H]]. exact H.
  - intros He m.
    rewrite (Hgroup (λ y, In m (NutrientNeed.related_markers y))), (IH e He m). tauto.
Qed.

Lemma held_after_reason_from (k : string) (l : list NutrientNeed.t)
    (e0 e : NutrientNeed.t) :
  held_after k l (Some e0) = Some e →
  NutrientNeed.reason e =
  chain_reasons (NutrientNeed.priority e0) (NutrientNeed.reason e0) (needs_for k l).
Proof.
  revert e0. induction l as [|x l IH]; intros e0; simpl.
  - by intros [= <-].
  - destruct (String.eqb (NutrientNeed.nutrient x) k); [|apply IH].
    intros He. apply IH in He. rewrite He. simpl.
    by destruct (NutrientNeed.priority x <? NutrientNeed.priority e0)%Z.
Qed.

(** The rationale of the entry held for a nutrient follows [group_reason]. *)
Lemma held_after_reason (k : string) (l : list NutrientNeed.t) (e : NutrientNeed.t) :
  held_after k l None = Some e →
  NutrientNeed.reason e = group_reason (needs_for k l).
Proof.
  induction l as [|x l IH]; simpl; [done|].
  destruct (String.eqb (NutrientNeed.nutrient x) k); [|exact IH].
  simpl. apply held_after_reason_from.
Qed.

(** C8, as the code has it: the markers of a consolidated entry are exactly
    the markers of the needs of its nutrient, whatever their priorities;
    its rationale is the one [group_reason] builds, where a need met later
    contributes its rationale (in front, joined by "; Also: ") only when its
    priority number is strictly below the one held at that point. *)
Theorem consolidated_markers_union_reason_chain
    (all_needs : list NutrientNeed.t) (e : NutrientNeed.t) :
  In e (consolidate_nutrient_needs all_needs) →
  let group := needs_for (NutrientNeed.nutrient e) all_needs in
  (∀ m, In m (NutrientNeed.related_markers e) ↔
        ∃ x, In x group ∧ In m (NutrientNeed.related_markers x)) ∧
  NutrientNeed.reason e = group_reason group.
Proof.
  intros He group. subst group. apply consolidate_entry in He. split.
  - by apply held_after_markers.
  - by apply held_after_reason.
Qed.

Lemma consolidated_markers_union_reason_chain_witness :
  let e :=
    NutrientNeed.mk "Iron" 1
      [Txt "Iron level ("; Num 50; Txt " mcg/dL) is low - may cause fatigue and anemia"]
      ["serum iron"; "symptoms: fatigue"; "ferritin"; "TIBC"] (sources_of "Iron") in
  In e (consolidate_nutrient_needs low_iron_and_fatigue) ∧
  (∀ m, In m (NutrientNeed.related_markers e) ↔
        ∃ x, In x (needs_for "Iron" low_iron_and_fatigue) ∧
             In m (NutrientNeed.related_markers x)) ∧
  NutrientNeed.reason e = group_reason (needs_for "Iron" low_iron_and_fatigue).
Proof.
  intros e.
  assert (He : In e (consolidate_nutrient_needs low_iron_and_fatigue)).
  { left. vm_compute. reflexivity. }
  split; [exact He|].
  exact (consolidated_markers_union_reason_chain low_iron_and_fatigue e He).
Defined.

(** C8, counterexample: with an Iron need of priority 1 followed by the
    Iron need of priority 3 that the symptom "fatigue" brings, the
    consolidated Iron entry does not carry the rationale of the latter. *)
Lemma rationale_of_lower_urgency_dropped : ¬ rationales_carried low_iron_and_fatigue.
Proof.
  intros H.
  set (x := NutrientNeed.mk "Iron" 3
              [Txt "Fatigue reported - iron deficiency is a common cause"]
              ["symptoms: fatigue"] (sources_of "Iron")).
  set (e := NutrientNeed.mk "Iron" 1
              [Txt "Iron level ("; Num 50;
               Txt " mcg/dL) is low - may cause fatigue and anemia"]
              ["serum iron"; "symptoms: fatigue"; "ferritin"; "TIBC"] (sources_of "Iron")).
  assert (Hin : In (Txt "Fatigue reported - iron deficiency is a common cause")
                  (NutrientNeed.reason e)).
  { apply (H e x).
    - left. vm_compute. reflexivity.
    - right. left. vm_compute. reflexivity.
    - reflexivity.
    - left. reflexivity. }
  simpl in Hin. destruct Hin as [Hp|[Hp|[Hp|[]]]]; discriminate Hp.
Qed.

(** ** Fields of the lab record that no rule reads *)

Lemma lab_rules_same (a b : LabResults.t) :
  same_labs_but_ferritin_omega3 a b →
  analyze_methylation_markers a = analyze_methylation_markers b ∧
  analyze_vitamin_levels a = analyze_vitamin_levels b ∧
  analyze_inflammation_markers a = analyze_inflammation_markers b ∧
  analyze_metabolic_markers a = analyze_metabolic_markers b.
Proof.
  intros (Hm & Hc & Hb12 & Hd & Hi & Hcrp & Hh & Hg).
  unfold analyze_methylation_markers, mthfr_rule, comt_rule,
    analyze_vitamin_levels, vitamin_b12_rule, vitamin_d_rule, iron_rule,
    analyze_inflammation_markers, crp_rule, homocysteine_rule,
    analyze_metabolic_markers.
  by rewrite Hm, Hc, Hb12, Hd, Hi, Hcrp, Hh, Hg.
Qed.

Lemma collect_needs_same (a b : UserContext.t) :
  same_but_ferritin_omega3 a b → collect_needs a = collect_needs b.
Proof.
  intros (_ & _ & _ & _ & Hmed & Hlab). unfold collect_needs. rewrite Hmed.
  destruct (UserContext.lab_results a) as [la|], (UserContext.lab_results b) as [lb|];
    try done.
  destruct (lab_rules_same la lb Hlab) as (-> & -> & -> & ->). done.
Qed.

(** C10: two profiles that differ only in [ferritin_level] and
    [omega3_index] get the same result from the need analyzer: the same
    needs, in the same order, and the same warnings. *)
Theorem ferritin_omega3_never_read (a b : UserContext.t) :
  same_but_ferritin_omega3 a b → analyze_lab_data a = analyze_lab_data b.
Proof.
  intros H. pose proof (collect_needs_same a b H) as Hneeds.
  destruct H as (Hid & _ & _ & _ & Hmed & Hlab).
  unfold analyze_lab_data, filtered_needs, lab_warnings.
  rewrite Hid, Hmed, Hneeds.
  by destruct (UserContext.lab_results a), (UserContext.lab_results b).
Qed.

Lemma ferritin_omega3_never_read_witness :
  let a := profile_with_labs
             (LabResults.mk (Some "C677T") None (Some 280%Q) None (Some 50%Q)
                (Some 12%Q) None None None (Some 3%Q)) in
  let b := profile_with_labs
             (LabResults.mk (Some "C677T") None (Some 280%Q) None (Some 50%Q)
                (Some 400%Q) None None None None) in
  same_but_ferritin_omega3 a b ∧ analyze_lab_data a = analyze_lab_data b.
Proof.
  intros a b.
  assert (H : same_but_ferritin_omega3 a b).
  { unfold same_but_ferritin_omega3, same_labs_but_ferritin_omega3. simpl.
    repeat split; reflexivity. }
  split; [exact H|]. exact (ferritin_omega3_never_read a b H).
Defined.

(** ** Travel feasibility *)

Lemma int_of_float_le (x : Q) (n : Z) :
  (0 <= n)%Z → (x <= inject_Z n)%Q → (int_of_float x <= n)%Z.
Proof.
  intros Hn Hx. unfold int_of_float. destruct (Qle_bool 0 x) eqn:E.
  - rewrite <- (Qfloor_Z n). by apply Qfloor_resp_le.
  - assert (Hneg : (x < 0)%Q) by (apply Qltb_lt; unfold Qltb; by rewrite E).
    pose proof (Qceiling_lt x) as Hc.
    assert (Hlt : (inject_Z (Qceiling x - 1) < inject_Z 0)%Q).
    { eapply Qlt_trans; [exact Hc|exact Hneg]. }
    rewrite <- Zlt_Qlt in Hlt. lia.
Qed.

Lemma walk_time_short (d : Q) :
  Qle_bool d 2.0 = true → (45 <? calculate_travel_time d walk)%Z = false.
Proof.
  intros Hd. apply Qle_bool_iff in Hd. apply Z.ltb_ge. unfold calculate_travel_time.
  apply int_of_float_le; [lia|]. simpl speed_of.
  change (inject_Z 45) with 45%Q.
  assert (E : (d / 3.0 * 60 == d * 20)%Q) by field.
  rewrite E. lra.
Qed.

Lemma transit_time_short (d : Q) :
  Qle_bool d 2.0 = true → (45 <? calculate_travel_time d transit)%Z = false.
Proof.
  intros Hd. apply Qle_bool_iff in Hd. apply Z.ltb_ge. unfold calculate_travel_time.
  apply int_of_float_le; [lia|]. simpl speed_of.
  change (inject_Z 45) with 45%Q.
  assert (E : (d / 12.0 * 60 == d * 5)%Q) by field.
  rewrite E. lra.
Qed.

Lemma drive_time_short (d : Q) :
  Qle_bool d 8.0 = true → (45 <? calculate_travel_time d drive)%Z = false.
Proof.
  intros Hd. apply Qle_bool_iff in Hd. apply Z.ltb_ge. unfold calculate_travel_time.
  apply int_of_float_le; [lia|]. simpl speed_of.
  change (inject_Z 45) with 45%Q.
  assert (E : (d / 25.0 * 60 == d * (12 # 5))%Q) by field.
  rewrite E. lra.
Qed.

Lemma Qle_bool_2_8 (d : Q) : Qle_bool d 2.0 = true → Qle_bool d 8.0 = true.
Proof. rewrite !Qle_bool_iff. lra. Qed.

Lemma feasibility_monotone (store : Store.t) (lg : Logistics.t) (miles : Q) :
  (Logistics.max_travel_distance_miles lg <= miles)%Q →
  TravelFeasibility.is_accessible (calculate_travel_feasibility store lg) = true →
  TravelFeasibility.is_accessible
    (calculate_travel_feasibility store
       (Logistics.mk (Logistics.zip_code lg) (Logistics.has_vehicle lg)
          (Logistics.has_public_transit lg) (Logistics.grocery_trips_per_week lg)
          miles)) = true.
Proof.
  intros Hle. unfold calculate_travel_feasibility.
  cbn [Logistics.zip_code Logistics.has_vehicle Logistics.has_public_transit
       Logistics.grocery_trips_per_week Logistics.max_travel_distance_miles].
  set (d := Store.distance_miles store).
  assert (Hdirect : Qle_bool d (Logistics.max_travel_distance_miles lg) = true →
                    Qle_bool d miles = true).
  { rewrite !Qle_bool_iff. intros H. by eapply Qle_trans. }
  destruct (Qle_bool d (Logistics.max_travel_distance_miles lg)) eqn:E1.
  { rewrite (Hdirect eq_refl). done. }
  clear Hdirect.
  destruct (Logistics.has_vehicle lg), (Logistics.has_public_transit lg);
    destruct (Qle_bool d miles) eqn:E1'; destruct (Qle_bool d 2.0) eqn:E2;
    destruct (Qle_bool d 8.0) eqn:E8;
    cbn [TravelFeasibility.is_accessible negb andb];
    try (rewrite (Qle_bool_2_8 d E2) in E8; discriminate E8);
    try rewrite (walk_time_short d) by assumption;
    try rewrite (transit_time_short d) by assumption;
    try rewrite (drive_time_short d) by assumption;
    try done.
  all: by destruct (45 <? _)%Z.
Qed.


Lemma feasibility_store (s : Store.t) (lg : Logistics.t) :
  TravelFeasibility.store (calculate_travel_feasibility s lg) = s.
Proof. unfold calculate_travel_feasibility. by repeat case_match. Qed.

Lemma accessible_stores_In (user_context : UserContext.t) (s : Store.t) :
  In s (reachable_stores (resource_locator user_context)) ↔
  In s (get_stores_for_zip (Logistics.zip_code (UserContext.logistics user_context))) ∧
  TravelFeasibility.is_accessible
    (calculate_travel_feasibility s (UserContext.logistics user_context)) = true.
Proof.
  unfold reachable_stores, resource_locator.
  cbn [ResourceMap.accessible_stores].
  rewrite in_map_iff. split.
  - intros (tf & <- & Htf). apply stable_sort_In in Htf.
    apply filter_In in Htf as [Htf Hacc].
    apply in_map_iff in Htf as (s & <- & Hs).
    by rewrite feasibility_store.
  - intros [Hs Hacc].
    exists (calculate_travel_feasibility s (UserContext.logistics user_context)).
    split; [apply feasibility_store|]. apply stable_sort_In, filter_In. split; [|done].
    apply in_map_iff. by exists s.
Qed.

(** C6: a store of the reachable set of a profile is still in the reachable
    set once the profile's maximal travel distance is raised, all else
    unchanged. *)
Theorem reachability_monotone_in_travel_distance
    (user_context : UserContext.t) (miles : Q) (s : Store.t) :
  (Logistics.max_travel_distance_miles (UserContext.logistics user_context) <= miles)%Q →
  In s (reachable_stores (resource_locator user_context)) →
  In s (reachable_stores
          (resource_locator (with_max_travel_distance user_context miles))).
Proof.
  intros Hle. rewrite !accessible_stores_In.
  unfold with_max_travel_distance.
  cbn [UserContext.logistics Logistics.zip_code].
  intros [Hs Hacc]. split; [done|]. by apply feasibility_monotone.
Qed.


Lemma reachability_monotone_in_travel_distance_witness :
  let target :=
    Store.mk "Target" StoreType.GROCERY 5.5 true true InventoryLevel.HIGH 3
      ["organic"; "fresh produce"; "supplements"] "8am-10pm" in
  (Logistics.max_travel_distance_miles (UserContext.logistics create_sample_user) <= 15)%Q ∧
  In target (reachable_stores (resource_locator create_sample_user)) ∧
  In target (reachable_stores
               (resource_locator (with_max_travel_distance create_sample_user 15))).
Proof.
  intros target.
  assert (Hle : (Logistics.max_travel_distance_miles
                   (UserContext.logistics create_sample_user) <= 15)%Q).
  { vm_compute. discriminate. }
  assert (Hin : In target (reachable_stores (resource_locator create_sample_user))).
  { vm_compute. do 10 right. left. reflexivity. }
  split; [exact Hle|]. split; [exact Hin|].
  exact (reachability_monotone_in_travel_distance create_sample_user 15 target Hle Hin).
Defined.

(** ** Plan builder: pantry placeholders *)

Lemma mem_In (x : string) (l : list string) : mem x l = true ↔ In x l.
Proof.
  unfold mem. rewrite existsb_exists. split.
  - intros (y & Hy & Heq). apply String.eqb_eq in Heq. by subst.
  - intros H. exists x. split; [done|]. apply String.eqb_refl.
Qed.

Lemma pantry_items_eq (user_context : UserContext.t)
    (nutrient_priorities : NutrientPriorityList.t) (resource_map : ResourceMap.t)
    (pantry : TravelFeasibility.t) (rest : list TravelFeasibility.t) :
  tight_budget (Financials.budget_tier (UserContext.financials user_context)) = true →
  ResourceMap.food_pantries resource_map = pantry :: rest →
  ShoppingList.pantry_items
    (generate_shopping_list user_context nutrient_priorities resource_map) =
  pantry_placeholders pantry.
Proof.
  intros Htier Hp. unfold generate_shopping_list, recommended_pantry.
  by rewrite Htier, Hp.
Qed.

Lemma title_pantry_foods_inj (pf pf' : string) :
  In pf pantry_foods → In pf' pantry_foods → title pf' = title pf → pf' = pf.
Proof.
  unfold pantry_foods. simpl.
  intros [<-|[<-|[<-|[]]]] [<-|[<-|[<-|[]]]]; vm_compute; congruence.
Qed.

(** The guard of the placeholder loop, for any resource map: on a low or
    very low budget with a reachable pantry, the plan holds a zero-cost
    placeholder for a staple of the fixed set exactly when the first
    pantry's specialty tags contain that staple or contain "produce". *)
Lemma placeholder_iff_tag_or_produce (user_context : UserContext.t)
    (nutrient_priorities : NutrientPriorityList.t) (resource_map : ResourceMap.t)
    (pantry : TravelFeasibility.t) (rest : list TravelFeasibility.t) (pf : string) :
  tight_budget (Financials.budget_tier (UserContext.financials user_context)) = true →
  ResourceMap.food_pantries resource_map = pantry :: rest →
  In pf pantry_foods →
  let tags := Store.specialty_items (TravelFeasibility.store pantry) in
  has_placeholder (generate_shopping_list user_context nutrient_priorities resource_map) pf
  ↔ In pf tags ∨ In "produce" tags.
Proof.
  intros Htier Hp Hpf tags. unfold has_placeholder.
  rewrite (pantry_items_eq _ _ _ _ _ Htier Hp). unfold pantry_placeholders.
  fold tags. split.
  - intros (item & Hin & Hname & _).
    apply in_map_iff in Hin as (pf' & <- & Hpf').
    apply filter_In in Hpf' as [Hpf' Htag]. simpl in Hname.
    injection Hname as Hname. apply title_pantry_foods_inj in Hname; [|done..].
    subst pf'. apply orb_true_iff in Htag. by rewrite !mem_In in Htag.
  - intros Htag. exists (pantry_item pantry pf). split; [|done].
    apply in_map_iff. exists pf. split; [done|]. apply filter_In. split; [done|].
    apply orb_true_iff. by rewrite !mem_In.
Qed.

(** ** Plan builder: the merge branch keeps the costs *)


(** ** Plan builder: one item per food *)

Lemma has_food_In (food_name : string) (items : list ShoppingListItem.t) :
  has_food food_name items = true ↔ In food_name (item_names items).
Proof.
  unfold has_food, item_names. rewrite existsb_exists, in_map_iff. split.
  - intros (it & Hit & Heq). apply String.eqb_eq in Heq. by exists it.
  - intros (it & Heq & Hit). exists it. split; [done|]. by apply String.eqb_eq.
Qed.

Lemma add_nutrient_names (food_name nutrient : string) (l : list ShoppingListItem.t) :
  item_names (add_nutrient food_name nutrient l) = item_names l.
Proof.
  unfold item_names. induction l as [|x l IH]; simpl; [done|].
  destruct (String.eqb _ food_name); simpl; [|by rewrite IH].
  by destruct (mem nutrient _).
Qed.

Lemma add_nutrient_covers_new (food_name nutrient : string) (l : list ShoppingListItem.t) :
  In food_name (item_names l) → covers (add_nutrient food_name nutrient l) food_name nutrient.
Proof.
  unfold covers, item_names. induction l as [|x l IH]; simpl; [tauto|].
  destruct (String.eqb_spec (FoodItem.name (ShoppingListItem.food x)) food_name) as [Hx|Hx].
  - intros _. destruct (mem nutrient (ShoppingListItem.nutrients_addressed x)) eqn:E.
    + exists x. split; [by left|]. split; [done|]. by apply mem_In.
    + eexists. split; [by left|]. simpl. split; [done|].
      apply in_app_iff. right. by left.
  - intros [Heq|Hin]; [done|].
    destruct (IH Hin) as (it & Hit & Hname & Hnu).
    exists it. split; [by right|done].
Qed.

Lemma add_nutrient_covers_old (food_name nutrient nm nu : string)
    (l : list ShoppingListItem.t) :
  covers l nm nu → covers (add_nutrient food_name nutrient l) nm nu.
Proof.
  unfold covers. induction l as [|x l IH]; simpl; [done|].
  intros (it & [<-|Hit] & Hname & Hnu).
  - destruct (String.eqb _ food_name).
    + destruct (mem nutrient _).
      * exists x. split; [by left|done].
      * eexists. split; [by left|]. simpl. split; [done|].
        apply in_app_iff. by left.
    + exists x. split; [by left|done].
  - destruct (String.eqb _ food_name).
    + exists it. split; [by right|done].
    + destruct IH as (it' & Hit' & Hname' & Hnu'); [by exists it|].
      exists it'. split; [by right|done].
Qed.

Lemma covers_app (l l' : list ShoppingListItem.t) (nm nu : string) :
  covers l nm nu → covers (l ++ l') nm nu.
Proof.
  intros (it & Hit & H). exists it. split; [|done]. apply in_app_iff. by left.
Qed.

Lemma item_names_snoc_NoDup (l : list ShoppingListItem.t) (x : ShoppingListItem.t) :
  NoDup (item_names l) →
  has_food (FoodItem.name (ShoppingListItem.food x)) l = false →
  NoDup (item_names (l ++ [x])).
Proof.
  intros Hl Hx. unfold item_names. rewrite map_app. simpl.
  apply NoDup_app. split; [done|]. split; [|apply NoDup_singleton].
  intros nm Hnm Hnm'. apply list_elem_of_In in Hnm, Hnm'.
  destruct Hnm' as [<-|[]]. apply has_food_In in Hnm. congruence.
Qed.

Lemma plan_need_names_NoDup (user_context : UserContext.t) (resource_map : ResourceMap.t)
    (st : Plan.t) (need : NutrientNeed.t) :
  NoDup (item_names (Plan.items st)) →
  NoDup (item_names (Plan.items (plan_need user_context resource_map st need))).
Proof.
  intros Hst. unfold plan_need.
  destruct (resolve_need user_context (Plan.remaining_budget st) need) as [why|food];
    [exact Hst|].
  destruct (has_food (FoodItem.name food) (Plan.items st)) eqn:E; simpl.
  - by rewrite add_nutrient_names.
  - by apply item_names_snoc_NoDup.
Qed.

Lemma plan_need_covers_old (user_context : UserContext.t) (resource_map : ResourceMap.t)
    (st : Plan.t) (need : NutrientNeed.t) (nm nu : string) :
  covers (Plan.items st) nm nu →
  covers (Plan.items (plan_need user_context resource_map st need)) nm nu.
Proof.
  intros Hst. unfold plan_need.
  destruct (resolve_need user_context (Plan.remaining_budget st) need) as [why|food];
    [exact Hst|].
  destruct (has_food (FoodItem.name food) (Plan.items st)); simpl.
  - by apply add_nutrient_covers_old.
  - by apply covers_app.
Qed.

Lemma plan_need_covers_new (user_context : UserContext.t) (resource_map : ResourceMap.t)
    (st : Plan.t) (need : NutrientNeed.t) (food : FoodItem.t) :
  resolve_need user_context (Plan.remaining_budget st) need = Selected food →
  covers (Plan.items (plan_need user_context resource_map st need))
    (FoodItem.name food) (NutrientNeed.nutrient need).
Proof.
  intros Hres. unfold plan_need. rewrite Hres.
  destruct (has_food (FoodItem.name food) (Plan.items st)) eqn:E; simpl.
  - apply add_nutrient_covers_new. by apply has_food_In.
  - eexists. split; [apply in_app_iff; right; by left|].
    simpl. split; [done|]. by left.
Qed.

Lemma fill_staples_names_NoDup (keys : list string) (st : Plan.t) :
  NoDup (item_names (Plan.items st)) →
  NoDup (item_names (Plan.items (fill_staples keys st))).
Proof.
  revert st. induction keys as [|k keys IH]; intros st Hst; cbn [fill_staples]; [done|].
  destruct (PrimFloat.leb (Plan.remaining_budget st) 2); [done|].
  destruct (dict_get k FOOD_DATABASE) as [staple|]; [|by apply IH].
  destruct (has_food (FoodItem.name staple) (Plan.items st)) eqn:E; simpl;
    [by apply IH|].
  destruct (PrimFloat.leb (FoodItem.price_estimate staple) (Plan.remaining_budget st));
    [|by apply IH].
  apply IH. simpl. by apply item_names_snoc_NoDup.
Qed.

Lemma fill_staples_covers_old (keys : list string) (st : Plan.t) (nm nu : string) :
  covers (Plan.items st) nm nu → covers (Plan.items (fill_staples keys st)) nm nu.
Proof.
  revert st. induction keys as [|k keys IH]; intros st Hst; cbn [fill_staples]; [done|].
  destruct (PrimFloat.leb (Plan.remaining_budget st) 2); [done|].
  destruct (dict_get k FOOD_DATABASE) as [staple|]; [|by apply IH].
  destruct (negb (has_food (FoodItem.name staple) (Plan.items st)) &&
            PrimFloat.leb (FoodItem.price_estimate staple) (Plan.remaining_budget st));
    [|by apply IH].
  apply IH. simpl. by apply covers_app.
Qed.

Lemma fold_plan_need_names_NoDup (user_context : UserContext.t)
    (resource_map : ResourceMap.t) (needs : list NutrientNeed.t) (st : Plan.t) :
  NoDup (item_names (Plan.items st)) →
  NoDup (item_names
           (Plan.items (fold_left (plan_need user_context resource_map) needs st))).
Proof.
  revert st. induction needs as [|need needs IH]; intros st Hst; simpl; [done|].
  apply IH. by apply plan_need_names_NoDup.
Qed.

Lemma fold_plan_need_covers_old (user_context : UserContext.t)
    (resource_map : ResourceMap.t) (needs : list NutrientNeed.t) (st : Plan.t)
    (nm nu : string) :
  covers (Plan.items st) nm nu →
  covers (Plan.items (fold_left (plan_need user_context resource_map) needs st)) nm nu.
Proof.
  revert st. induction needs as [|need needs IH]; intros st Hst; simpl; [done|].
  apply IH. by apply plan_need_covers_old.
Qed.

Lemma resolutions_covers (user_context : UserContext.t) (resource_map : ResourceMap.t)
    (needs : list NutrientNeed.t) (st : Plan.t) (i : nat)
    (need : NutrientNeed.t) (food : FoodItem.t) :
  resolutions user_context resource_map st needs !! i = Some (need, Selected food) →
  covers (Plan.items (fold_left (plan_need user_context resource_map) needs st))
    (FoodItem.name food) (NutrientNeed.nutrient need).
Proof.
  revert st i. induction needs as [|n needs IH]; intros st i; simpl; [done|].
  destruct i as [|i]; simpl.
  - intros [= -> Hres]. apply fold_plan_need_covers_old.
    by apply plan_need_covers_new.
  - apply IH.
Qed.

Lemma items_named_none (food_name : string) (l : list ShoppingListItem.t) :
  ¬ In food_name (item_names l) → items_named food_name l = [].
Proof.
  unfold items_named, item_names. induction l as [|x l IH]; simpl; [done|].
  intros H. destruct (String.eqb_spec (FoodItem.name (ShoppingListItem.food x)) food_name).
  - exfalso. apply H. by left.
  - apply IH. intros Hin. apply H. by right.
Qed.

Lemma items_named_single (l : list ShoppingListItem.t) (it : ShoppingListItem.t) :
  NoDup (item_names l) → In it l →
  items_named (FoodItem.name (ShoppingListItem.food it)) l = [it].
Proof.
  induction l as [|x l IH]; simpl; [tauto|].
  intros Hnd Hin. apply NoDup_cons in Hnd as [Hx Hnd].
  rewrite list_elem_of_In in Hx. unfold items_named. simpl.
  destruct Hin as [->|Hin].
  - rewrite String.eqb_refl. f_equal. by apply items_named_none.
  - destruct (String.eqb_spec (FoodItem.name (ShoppingListItem.food x))
                (FoodItem.name (ShoppingListItem.food it))) as [Heq|Hne].
    + exfalso. apply Hx. rewrite Heq. unfold item_names. apply in_map_iff. by exists it.
    + by apply IH.
Qed.

(** C5: when two of the top needs resolve to foods of the same name, the
    generated list holds exactly one item with that food name, and its
    [nutrients_addressed] contains the nutrient names of both needs. *)
Theorem same_food_one_item_both_nutrients (user_context : UserContext.t)
    (nutrient_priorities : NutrientPriorityList.t) (resource_map : ResourceMap.t)
    (i j : nat) (need1 need2 : NutrientNeed.t) (food1 food2 : FoodItem.t) :
  i ≠ j →
  plan_resolutions user_context nutrient_priorities resource_map !! i
    = Some (need1, Selected food1) →
  plan_resolutions user_context nutrient_priorities resource_map !! j
    = Some (need2, Selected food2) →
  FoodItem.name food1 = FoodItem.name food2 →
  ∃ item,
    items_named (FoodItem.name food1)
      (ShoppingList.items
         (generate_shopping_list user_context nutrient_priorities resource_map)) = [item] ∧
    In (NutrientNeed.nutrient need1) (ShoppingListItem.nutrients_addressed item) ∧
    In (NutrientNeed.nutrient need2) (ShoppingListItem.nutrients_addressed item).
Proof.
  intros _ H1 H2 Hname. unfold plan_resolutions in *.
  apply resolutions_covers in H1, H2. rewrite <- Hname in H2.
  apply (fill_staples_covers_old staples) in H1, H2.
  fold (final_plan user_context nutrient_priorities resource_map) in H1, H2.
  assert (Hnd : NoDup (item_names
                  (Plan.items (final_plan user_context nutrient_priorities resource_map)))).
  { unfold final_plan. apply fill_staples_names_NoDup, fold_plan_need_names_NoDup.
    simpl. constructor. }
  destruct H1 as (it1 & Hit1 & Hn1 & Hnu1), H2 as (it2 & Hit2 & Hn2 & Hnu2).
  assert (Heq : it2 = it1).
  { pose proof (items_named_single _ _ Hnd Hit1) as E1.
    pose proof (items_named_single _ _ Hnd Hit2) as E2.
    rewrite Hn1 in E1. rewrite Hn2 in E2. congruence. }
  subst it2. exists it1. split; [|done].
  unfold generate_shopping_list. cbn [ShoppingList.items].
  rewrite <- Hn1. apply items_named_single.
  - unfold item_names.
    rewrite (Permutation_map _ (stable_sort_perm by_priority _)). exact Hnd.
  - by apply stable_sort_In.
Qed.

Lemma same_food_one_item_both_nutrients_witness :
  let user := create_sample_user in
  let needs := analyze_lab_data user in
  let stores := resource_locator user in
  ∃ need1 need2 food,
    NutrientNeed.nutrient need1 = "Vitamin B12" ∧
    NutrientNeed.nutrient need2 = "Vitamin D" ∧
    FoodItem.name food = "Sardines (canned)" ∧
    plan_resolutions user needs stores !! 1%nat = Some (need1, Selected food) ∧
    plan_resolutions user needs stores !! 2%nat = Some (need2, Selected food) ∧
    ∃ item,
      items_named (FoodItem.name food)
        (ShoppingList.items (generate_shopping_list user needs stores)) = [item] ∧
      In (NutrientNeed.nutrient need1) (ShoppingListItem.nutrients_addressed item) ∧
      In (NutrientNeed.nutrient need2) (ShoppingListItem.nutrients_addressed item).
Proof.
  intros user needs stores.
  assert (H1 : ∃ need food,
            plan_resolutions user needs stores !! 1%nat = Some (need, Selected food) ∧
            NutrientNeed.nutrient need = "Vitamin B12" ∧
            FoodItem.name food = "Sardines (canned)" ∧
            ∃ need2,
              plan_resolutions user needs stores !! 2%nat = Some (need2, Selected food) ∧
              NutrientNeed.nutrient need2 = "Vitamin D").
  { vm_compute. eexists _, _. split; [reflexivity|]. split; [reflexivity|].
    split; [reflexivity|]. eexists. split; reflexivity. }
  destruct H1 as (need1 & food & Hr1 & Hn1 & Hf & need2 & Hr2 & Hn2).
  exists need1, need2, food.
  split; [exact Hn1|]. split; [exact Hn2|]. split; [exact Hf|].
  split; [exact Hr1|]. split; [exact Hr2|].
  assert (Hij : 1%nat ≠ 2%nat) by discriminate.
  exact (same_food_one_item_both_nutrients user needs stores 1 2 need1 need2 food food
           Hij Hr1 Hr2 eq_refl).
Defined.

(** ** Plan builder: allergies *)

Lemma resolve_need_all_conflict (user_context : UserContext.t) (remaining_budget : float)
    (need : NutrientNeed.t) :
  List.filter
    (food_safe (map lower (MedicalHistory.known_allergies (UserContext.medical user_context))))
    (get_foods_for_nutrient (NutrientNeed.nutrient need)) = [] →
  ∃ why, resolve_need user_context remaining_budget need = Skipped why.
Proof.
  intros Hsafe. unfold resolve_need.
  destruct (PrimFloat.leb remaining_budget 0); [by eexists|].
  destruct (get_foods_for_nutrient (NutrientNeed.nutrient need)) eqn:E; [by eexists|].
  rewrite Hsafe. by eexists.
Qed.

(** C3: for a questionnaire profile on a budget of 40 with "cancer" in the
    family history and the allergy "spinach", the Antioxidants need is
    resolved to "Spinach (frozen bag)", the budget substitute of kale: the
    food is not allergy-safe, yet it is on the generated list as the item
    that addresses the need. *)
Theorem substitute_escapes_allergy_filter :
  let user := low_budget_profile ["cancer"] ["spinach"] in
  let allergies := map lower (MedicalHistory.known_allergies (UserContext.medical user)) in
  let needs := analyze_lab_data user in
  let stores := resource_locator user in
  ∃ need food item,
    plan_resolutions user needs stores = [(need, Selected food)] ∧
    NutrientNeed.nutrient need = "Antioxidants" ∧
    FoodItem.name food = "Spinach (frozen bag)" ∧
    food_safe allergies food = false ∧
    In item (ShoppingList.items (generate_shopping_list user needs stores)) ∧
    ShoppingListItem.food item = food ∧
    ShoppingListItem.nutrients_addressed item = ["Antioxidants"].
Proof.
  vm_compute. eexists _, _, _. split; [reflexivity|].
  split; [reflexivity|]. split; [reflexivity|]. split; [reflexivity|].
  split; [left; reflexivity|]. split; reflexivity.
Qed.

(** * Further properties *)

(** ** Need analyzer: shape of the needs *)

Ltac in_list := simpl; repeat (first [by left | right]).

Ltac rule_shaped_cases :=
  repeat case_match;
  repeat (constructor; [unfold rule_shaped; simpl; split; [in_list|split; [lia|done]]|]);
  try constructor.

Lemma mthfr_rule_shaped (lab : LabResults.t) : Forall rule_shaped (mthfr_rule lab).
Proof. unfold mthfr_rule. rule_shaped_cases. Qed.

Lemma comt_rule_shaped (lab : LabResults.t) : Forall rule_shaped (comt_rule lab).
Proof. unfold comt_rule. rule_shaped_cases. Qed.

Lemma vitamin_b12_rule_shaped (lab : LabResults.t) :
  Forall rule_shaped (vitamin_b12_rule lab).
Proof. unfold vitamin_b12_rule. rule_shaped_cases. Qed.

Lemma vitamin_d_rule_shaped (lab : LabResults.t) : Forall rule_shaped (vitamin_d_rule lab).
Proof. unfold vitamin_d_rule. rule_shaped_cases. Qed.

Lemma iron_rule_shaped (lab : LabResults.t) : Forall rule_shaped (iron_rule lab).
Proof. unfold iron_rule. rule_shaped_cases. Qed.

Lemma crp_rule_shaped (lab : LabResults.t) : Forall rule_shaped (crp_rule lab).
Proof. unfold crp_rule. rule_shaped_cases. Qed.

Lemma homocysteine_rule_shaped (lab : LabResults.t) :
  Forall rule_shaped (homocysteine_rule lab).
Proof. unfold homocysteine_rule. rule_shaped_cases. Qed.

Lemma metabolic_rule_shaped (lab : LabResults.t) :
  Forall rule_shaped (analyze_metabolic_markers lab).
Proof. unfold analyze_metabolic_markers. rule_shaped_cases. Qed.

Lemma Forall_flat_map {A B} (P : B → Prop) (f : A → list B) (l : list A) :
  (∀ a, In a l → Forall P (f a)) → Forall P (flat_map f l).
Proof.
  induction l as [|a l IH]; intros H; simpl; [constructor|].
  apply Forall_app. split; [apply H; by left|].
  apply IH. intros b Hb. apply H. by right.
Qed.

Lemma symptom_rules_shaped (medical : MedicalHistory.t) :
  Forall rule_shaped (analyze_symptoms medical).
Proof.
  unfold analyze_symptoms. apply Forall_flat_map. intros symptom _.
  apply Forall_flat_map. intros [key needs] Hentry. simpl.
  destruct (contains key symptom); [|constructor].
  unfold symptom_nutrient_map in Hentry. simpl in Hentry.
  repeat (destruct Hentry as [[= <- <-]|Hentry]; [rule_shaped_cases|]).
  destruct Hentry.
Qed.

Lemma family_history_rules_shaped (medical : MedicalHistory.t) :
  Forall rule_shaped (analyze_family_history medical).
Proof.
  unfold analyze_family_history. rewrite !Forall_app.
  repeat split; rule_shaped_cases.
Qed.

Lemma collect_needs_shaped (user_context : UserContext.t) :
  Forall rule_shaped (collect_needs user_context).
Proof.
  unfold collect_needs. rewrite !Forall_app. split; [|split].
  - destruct (UserContext.lab_results user_context) as [lab|]; [|constructor].
    unfold analyze_methylation_markers, analyze_vitamin_levels,
      analyze_inflammation_markers.
    rewrite !Forall_app.
    repeat split;
      auto using mthfr_rule_shaped, comt_rule_shaped, vitamin_b12_rule_shaped,
        vitamin_d_rule_shaped, iron_rule_shaped, crp_rule_shaped,
        homocysteine_rule_shaped, metabolic_rule_shaped.
  - apply symptom_rules_shaped.
  - apply family_history_rules_shaped.
Qed.

Lemma filtered_needs_names (user_context : UserContext.t) :
  map NutrientNeed.nutrient (filtered_needs user_context) =
  map NutrientNeed.nutrient (collect_needs user_context).
Proof. unfold filtered_needs. rewrite map_map. done. Qed.

Lemma filtered_needs_In (user_context : UserContext.t) (x : NutrientNeed.t) :
  In x (filtered_needs user_context) →
  In (NutrientNeed.nutrient x) (map fst NUTRIENT_FOOD_SOURCES) ∧
  (1 <= NutrientNeed.priority x <= 4)%Z ∧
  NutrientNeed.food_sources x =
  List.filter (allergy_safe (allergies_of user_context))
    (sources_of (NutrientNeed.nutrient x)).
Proof.
  unfold filtered_needs. intros Hx. apply in_map_iff in Hx as (y & <- & Hy).
  pose proof (collect_needs_shaped user_context) as Hall.
  rewrite List.Forall_forall in Hall. destruct (Hall y Hy) as (Hk & Hp & Hs).
  simpl. by rewrite Hs.
Qed.

Lemma held_after_food_sources (k : string) (l : list NutrientNeed.t) (e : NutrientNeed.t) :
  held_after k l None = Some e →
  ∃ x, In x l ∧ NutrientNeed.nutrient x = k ∧
       NutrientNeed.food_sources x = NutrientNeed.food_sources e.
Proof.
  revert e. induction l as [|x l IH] using rev_ind; intros e; [done|].
  rewrite held_after_snoc.
  destruct (String.eqb_spec (NutrientNeed.nutrient x) k) as [Hk|Hk].
  - intros [= <-]. unfold merge_need.
    destruct (held_after k l None) as [e0|] eqn:E.
    + destruct (IH e0 eq_refl) as (y & Hy & Hyk & Hys).
      destruct (NutrientNeed.priority x <? NutrientNeed.priority e0)%Z; simpl.
      * exists x. rewrite in_app_iff. simpl. tauto.
      * exists y. rewrite in_app_iff. tauto.
    + exists x. rewrite in_app_iff. simpl. tauto.
  - intros He. destruct (IH e He) as (y & Hy & Hyk & Hys).
    exists y. rewrite in_app_iff. tauto.
Qed.

Lemma consolidate_covers (all_needs : list NutrientNeed.t) (x : NutrientNeed.t) :
  In x all_needs →
  ∃ e, In e (consolidate_nutrient_needs all_needs) ∧
       NutrientNeed.nutrient e = NutrientNeed.nutrient x.
Proof.
  intros Hx. unfold consolidate_nutrient_needs.
  destruct (dict_get (NutrientNeed.nutrient x) (fold_left consolidate_step all_needs []))
    as [e|] eqn:E.
  - exists e. split.
    + apply in_map_iff. exists (NutrientNeed.nutrient x, e). split; [done|].
      by apply dict_get_In.
    + rewrite consolidate_get in E. by apply held_after_nutrient in E.
  - rewrite consolidate_get in E. simpl in E. apply held_after_none in E.
    assert (Hin : In x (needs_for (NutrientNeed.nutrient x) all_needs))
      by (by apply In_needs_for).
    rewrite E in Hin. destruct Hin.
Qed.

Lemma analyzed_needs_In (user_context : UserContext.t) (e : NutrientNeed.t) :
  In e (NutrientPriorityList.needs (analyze_lab_data user_context)) ↔
  In e (consolidate_nutrient_needs (filtered_needs user_context)).
Proof. unfold analyze_lab_data. simpl. apply stable_sort_In. Qed.

(** X1: every need returned by [analyze_lab_data] names a nutrient that is a
    key of [NUTRIENT_FOOD_SOURCES] and has a priority from 1 to 4; since the
    names are distinct, the list never has more than ten needs. *)
Theorem analyzed_needs_in_table_and_range (user_context : UserContext.t) :
  let needs := NutrientPriorityList.needs (analyze_lab_data user_context) in
  Forall (λ e, In (NutrientNeed.nutrient e) (map fst NUTRIENT_FOOD_SOURCES) ∧
               (1 <= NutrientNeed.priority e <= 4)%Z) needs ∧
  (length needs <= 10)%nat.
Proof.
  intros needs.
  assert (Hall : Forall (λ e, In (NutrientNeed.nutrient e) (map fst NUTRIENT_FOOD_SOURCES) ∧
                              (1 <= NutrientNeed.priority e <= 4)%Z) needs).
  { apply List.Forall_forall. intros e He. apply analyzed_needs_In in He.
    apply consolidate_entry in He.
    destruct (held_after_priority _ _ _ He) as [(x & Hx & Hxk & Hxp) _].
    apply filtered_needs_In in Hx as (Hk & Hp & _).
    rewrite <- Hxk, <- Hxp. done. }
  split; [exact Hall|].
  assert (Hnd : NoDup (map NutrientNeed.nutrient needs)).
  { subst needs. unfold analyze_lab_data. simpl.
    rewrite (Permutation_map NutrientNeed.nutrient (stable_sort_perm _ _)).
    apply consolidate_names_NoDup. }
  rewrite <- (length_map NutrientNeed.nutrient needs).
  change 10%nat with (length (map fst NUTRIENT_FOOD_SOURCES)).
  apply submseteq_length, NoDup_submseteq; [exact Hnd|].
  intros k Hk. apply list_elem_of_In. apply list_elem_of_In in Hk.
  apply in_map_iff in Hk as (e & <- & He).
  rewrite List.Forall_forall in Hall. by apply Hall.
Qed.

(** X2: the food sources of every returned need are the row of
    [NUTRIENT_FOOD_SOURCES] for its nutrient without the entries whose
    lowercased name contains one of the profile's lowercased allergy tags;
    so no returned food source contains an allergen. *)
Theorem analyzed_sources_are_safe_table_rows (user_context : UserContext.t) :
  let allergies := allergies_of user_context in
  Forall
    (λ e, NutrientNeed.food_sources e =
          List.filter (allergy_safe allergies) (sources_of (NutrientNeed.nutrient e)) ∧
          Forall (λ source, allergy_safe allergies source = true)
            (NutrientNeed.food_sources e))
    (NutrientPriorityList.needs (analyze_lab_data user_context)).
Proof.
  intros allergies. apply List.Forall_forall. intros e He.
  apply analyzed_needs_In, consolidate_entry in He.
  destruct (held_after_food_sources _ _ _ He) as (x & Hx & Hxk & Hxs).
  apply filtered_needs_In in Hx as (_ & _ & Hs).
  rewrite <- Hxs, Hs, Hxk. split; [done|].
  apply List.Forall_forall. intros source Hsrc. by apply filter_In in Hsrc as [_ ?].
Qed.

Lemma analyzed_names_are_rule_names_aux (user_context : UserContext.t) (k : string) :
  In k (map NutrientNeed.nutrient (collect_needs user_context)) →
  ∃ e, In e (NutrientPriorityList.needs (analyze_lab_data user_context)) ∧
       NutrientNeed.nutrient e = k.
Proof.
  rewrite <- filtered_needs_names, in_map_iff.
  intros (x & <- & Hx). destruct (consolidate_covers _ _ Hx) as (e & He & Hek).
  exists e. split; [|done]. by apply analyzed_needs_In.
Qed.

(** X3: consolidation loses no nutrient and invents none: a nutrient name
    is in the returned list exactly when some rule emitted a need for it. *)
Theorem analyzed_names_are_rule_names (user_context : UserContext.t) (k : string) :
  In k (map NutrientNeed.nutrient (NutrientPriorityList.needs (analyze_lab_data user_context)))
  ↔ In k (map NutrientNeed.nutrient (collect_needs user_context)).
Proof.
  rewrite <- filtered_needs_names, !in_map_iff. split.
  - intros (e & <- & He). apply analyzed_needs_In, consolidate_entry in He.
    destruct (held_after_priority _ _ _ He) as [(x & Hx & Hxk & _) _]. by exists x.
  - intros (x & <- & Hx).
    destruct (analyzed_names_are_rule_names_aux user_context (NutrientNeed.nutrient x))
      as (e & He & Hek).
    + rewrite <- filtered_needs_names. by apply in_map.
    + by exists e.
Qed.

Lemma filter_filter_same {A} (f : A → bool) (l : list A) :
  List.filter f (List.filter f l) = List.filter f l.
Proof.
  induction l as [|x l IH]; simpl; [done|].
  destruct (f x) eqn:E; simpl; [|done]. by rewrite E, IH.
Qed.

(** X4: the allergy pass is idempotent: filtering the food sources of an
    already filtered need against the same allergies changes nothing. *)
Theorem allergy_filter_idempotent (allergies : list string) (need : NutrientNeed.t) :
  filter_sources allergies (filter_sources allergies need) = filter_sources allergies need.
Proof. unfold filter_sources. simpl. by rewrite filter_filter_same. Qed.

(** ** Need analyzer: warnings *)

Lemma analyzed_entry_sources (user_context : UserContext.t) (e : NutrientNeed.t) :
  In e (NutrientPriorityList.needs (analyze_lab_data user_context)) →
  NutrientNeed.food_sources e =
  List.filter (allergy_safe (allergies_of user_context))
    (sources_of (NutrientNeed.nutrient e)).
Proof.
  intros He. apply analyzed_needs_In, consolidate_entry in He.
  destruct (held_after_food_sources _ _ _ He) as (x & Hx & Hxk & Hxs).
  apply filtered_needs_In in Hx as (_ & _ & Hs). by rewrite <- Hxs, Hs, Hxk.
Qed.

Lemma allergy_warnings_In (needs : list NutrientNeed.t) (x : NutrientNeed.t) :
  In x needs → NutrientNeed.food_sources x = [] →
  In ("Limited food sources for " +:+ NutrientNeed.nutrient x +:+ " due to allergies")
     (allergy_warnings needs).
Proof.
  intros Hx Hs. unfold allergy_warnings. apply in_flat_map. exists x.
  split; [done|]. rewrite Hs. by left.
Qed.

(** X5: when allergies remove every food source of a nutrient for which a
    rule emitted a need, the need is not dropped: the returned list has an
    entry for the nutrient with an empty food-source list, and the warnings
    contain "Limited food sources for <nutrient> due to allergies". *)
Theorem emptied_need_kept_with_warning (user_context : UserContext.t) (k : string) :
  In k (map NutrientNeed.nutrient (collect_needs user_context)) →
  List.filter (allergy_safe (allergies_of user_context)) (sources_of k) = [] →
  let result := analyze_lab_data user_context in
  (∃ e, In e (NutrientPriorityList.needs result) ∧ NutrientNeed.nutrient e = k ∧
        NutrientNeed.food_sources e = []) ∧
  In ("Limited food sources for " +:+ k +:+ " due to allergies")
     (NutrientPriorityList.warnings result).
Proof.
  intros Hk Hempty result. split.
  - apply analyzed_names_are_rule_names_aux in Hk as (e & He & Hek).
    exists e. split; [done|]. split; [done|].
    by rewrite (analyzed_entry_sources _ _ He), Hek.
  - rewrite <- filtered_needs_names in Hk. apply in_map_iff in Hk as (x & <- & Hx).
    subst result. unfold analyze_lab_data. cbn [NutrientPriorityList.warnings].
    apply in_app_iff. right. apply allergy_warnings_In; [done|].
    apply filtered_needs_In in Hx as (_ & _ & Hs). by rewrite Hs.
Qed.

Lemma emptied_need_kept_with_warning_witness :
  let user := chromium_blocked_profile in
  In "Chromium" (map NutrientNeed.nutrient (collect_needs user)) ∧
  List.filter (allergy_safe (allergies_of user)) (sources_of "Chromium") = [] ∧
  (∃ e, In e (NutrientPriorityList.needs (analyze_lab_data user)) ∧
        NutrientNeed.nutrient e = "Chromium" ∧ NutrientNeed.food_sources e = []) ∧
  In "Limited food sources for Chromium due to allergies"
     (NutrientPriorityList.warnings (analyze_lab_data user)).
Proof.
  intros user.
  assert (Hk : In "Chromium" (map NutrientNeed.nutrient (collect_needs user))).
  { vm_compute. right. left. reflexivity. }
  assert (Hs : List.filter (allergy_safe (allergies_of user)) (sources_of "Chromium") = []).
  { vm_compute. reflexivity. }
  split; [exact Hk|]. split; [exact Hs|].
  exact (emptied_need_kept_with_warning user "Chromium" Hk Hs).
Defined.

Ltac tier_cases :=
  repeat case_match; repeat (constructor; [simpl; lia|]); try constructor.

Lemma symptom_needs_tier (medical : MedicalHistory.t) :
  Forall (λ n, NutrientNeed.priority n = 3%Z ∨ NutrientNeed.priority n = 4%Z)
    (analyze_symptoms medical).
Proof.
  unfold analyze_symptoms. apply Forall_flat_map. intros symptom _.
  apply Forall_flat_map. intros [key needs] Hentry. simpl.
  destruct (contains key symptom); [|constructor].
  unfold symptom_nutrient_map in Hentry. simpl in Hentry.
  repeat (destruct Hentry as [[= <- <-]|Hentry]; [tier_cases|]).
  destruct Hentry.
Qed.

Lemma family_history_needs_tier (medical : MedicalHistory.t) :
  Forall (λ n, NutrientNeed.priority n = 3%Z ∨ NutrientNeed.priority n = 4%Z)
    (analyze_family_history medical).
Proof.
  unfold analyze_family_history. rewrite !Forall_app. repeat split; tier_cases.
Qed.

(** X6: for a profile without a lab record, the warnings start with the
    notice "No lab results provided - ..." and every returned need has
    priority 3 (symptom) or 4 (family history); when the profile also has
    no symptoms and no family history, no need is returned. *)
Theorem no_labs_notice_and_tiers (user_context : UserContext.t) :
  UserContext.lab_results user_context = None →
  let result := analyze_lab_data user_context in
  head (NutrientPriorityList.warnings result) =
    Some "No lab results provided - recommendations based on symptoms and history only" ∧
  Forall (λ e, NutrientNeed.priority e = 3%Z ∨ NutrientNeed.priority e = 4%Z)
    (NutrientPriorityList.needs result) ∧
  (MedicalHistory.current_symptoms (UserContext.medical user_context) = [] →
   MedicalHistory.family_history (UserContext.medical user_context) = [] →
   NutrientPriorityList.needs result = []).
Proof.
  intros Hlab result. subst result. split; [|split].
  - unfold analyze_lab_data, lab_warnings. rewrite Hlab. done.
  - apply List.Forall_forall. intros e He.
    apply analyzed_needs_In, consolidate_entry in He.
    destruct (held_after_priority _ _ _ He) as [(x & Hx & _ & Hxp) _].
    rewrite <- Hxp. unfold filtered_needs in Hx.
    apply in_map_iff in Hx as (y & <- & Hy). simpl.
    unfold collect_needs in Hy. rewrite Hlab in Hy. simpl in Hy.
    apply in_app_iff in Hy as [Hy|Hy].
    + pose proof (symptom_needs_tier (UserContext.medical user_context)) as H.
      rewrite List.Forall_forall in H. by apply H.
    + pose proof (family_history_needs_tier (UserContext.medical user_context)) as H.
      rewrite List.Forall_forall in H. by apply H.
  - intros Hsym Hfam. unfold analyze_lab_data, filtered_needs, collect_needs.
    rewrite Hlab. unfold analyze_symptoms, analyze_family_history.
    rewrite Hsym, Hfam. reflexivity.
Qed.

Lemma no_labs_notice_and_tiers_witness :
  let user := low_budget_profile ["heart_disease"] [] in
  UserContext.lab_results user = None ∧
  head (NutrientPriorityList.warnings (analyze_lab_data user)) =
    Some "No lab results provided - recommendations based on symptoms and history only" ∧
  Forall (λ e, NutrientNeed.priority e = 3%Z ∨ NutrientNeed.priority e = 4%Z)
    (NutrientPriorityList.needs (analyze_lab_data user)).
Proof.
  intros user.
  assert (Hlab : UserContext.lab_results user = None) by reflexivity.
  split; [exact Hlab|].
  destruct (no_labs_notice_and_tiers user Hlab) as (Hw & Ht & _).
  split; [exact Hw|exact Ht].
Defined.

(** ** Need analyzer: consolidation of distinct names *)

Lemma dict_set_fresh {V} (k : string) (v : V) (d : list (string * V)) :
  ¬ In k (map fst d) → dict_set k v d = d ++ [(k, v)].
Proof.
  induction d as [|[k' v'] d IH]; simpl; [done|].
  intros H. destruct (String.eqb_spec k k') as [->|Hk]; [tauto|].
  rewrite IH; [done|tauto].
Qed.

Lemma dict_get_fresh {V} (k : string) (d : list (string * V)) :
  ¬ In k (map fst d) → dict_get k d = None.
Proof.
  induction d as [|[k' v'] d IH]; simpl; [done|].
  intros H. destruct (String.eqb_spec k k') as [->|Hk]; [tauto|].
  apply IH. tauto.
Qed.

Lemma consolidate_fresh (l : list NutrientNeed.t) (m : list (string * NutrientNeed.t)) :
  NoDup (map fst m ++ map NutrientNeed.nutrient l) →
  fold_left consolidate_step l m = m ++ map (λ x, (NutrientNeed.nutrient x, x)) l.
Proof.
  revert m. induction l as [|x l IH]; intros m Hnd; simpl.
  - by rewrite app_nil_r.
  - assert (Hx : ¬ In (NutrientNeed.nutrient x) (map fst m)).
    { intros Hin. apply NoDup_app in Hnd as (_ & Hdisj & _).
      apply (Hdisj (NutrientNeed.nutrient x)); [by apply list_elem_of_In|].
      simpl. left. }
    rewrite consolidate_step_merge, (dict_get_fresh _ _ Hx), (dict_set_fresh _ _ _ Hx).
    simpl. rewrite IH.
    + by rewrite <- app_assoc.
    + rewrite map_app. simpl. rewrite <- app_assoc. exact Hnd.
Qed.

(** X7: consolidation returns a list of needs with pairwise distinct
    nutrient names unchanged, in the same order; consolidating a
    consolidated list therefore changes nothing. *)
Theorem consolidate_fixes_distinct_names (all_needs : list NutrientNeed.t) :
  (NoDup (map NutrientNeed.nutrient all_needs) →
   consolidate_nutrient_needs all_needs = all_needs) ∧
  consolidate_nutrient_needs (consolidate_nutrient_needs all_needs) =
  consolidate_nutrient_needs all_needs.
Proof.
  assert (Hfix : ∀ l, NoDup (map NutrientNeed.nutrient l) →
                      consolidate_nutrient_needs l = l).
  { intros l Hnd. unfold consolidate_nutrient_needs.
    rewrite consolidate_fresh by exact Hnd. simpl.
    rewrite map_map. simpl. apply map_id. }
  split; [apply Hfix|]. apply Hfix, consolidate_names_NoDup.
Qed.

Lemma consolidate_fixes_distinct_names_witness :
  let l := analyze_metabolic_markers
             (LabResults.mk None None None None None None None None (Some 110%Q) None) in
  NoDup (map NutrientNeed.nutrient l) ∧ consolidate_nutrient_needs l = l.
Proof.
  intros l.
  assert (Hnd : NoDup (map NutrientNeed.nutrient l)).
  { vm_compute. repeat constructor; rewrite list_elem_of_In; simpl; intuition discriminate. }
  split; [exact Hnd|].
  exact (proj1 (consolidate_fixes_distinct_names l) Hnd).
Defined.

(** ** Top priorities *)

Lemma StronglySorted_app_order {A} (R : A → A → Prop) (l1 l2 : list A) :
  StronglySorted R (l1 ++ l2) → ∀ x y, In x l1 → In y l2 → R x y.
Proof.
  induction l1 as [|a l1 IH]; simpl; [tauto|].
  intros Hs x y [<-|Hx] Hy.
  - apply StronglySorted_inv in Hs as [_ Hall].
    rewrite List.Forall_forall in Hall. apply Hall, in_app_iff. by right.
  - apply StronglySorted_inv in Hs as [Hs _]. by apply IH.
Qed.

Lemma StronglySorted_take {A} (R : A → A → Prop) (n : nat) (l : list A) :
  StronglySorted R l → StronglySorted R (take n l).
Proof.
  intros Hs. revert n. induction Hs as [|x l Hs IH Hx]; intros [|n]; simpl;
    try constructor; [apply IH|].
  rewrite List.Forall_forall in *. intros y Hy. apply Hx.
  rewrite <- (take_drop n l). apply in_app_iff. by left.
Qed.

Lemma needs_sorted (l : list NutrientNeed.t) :
  StronglySorted (λ a b, (NutrientNeed.priority a <= NutrientNeed.priority b)%Z)
    (stable_sort (λ a b, (NutrientNeed.priority a <=? NutrientNeed.priority b)%Z) l).
Proof.
  apply stable_sort_sorted.
  - intros a b H. by apply Z.leb_le.
  - intros a b H. apply Z.leb_gt in H. lia.
  - intros a b c. lia.
Qed.

(** X8: [get_top_priorities n] returns [min n (len needs)] needs in
    non-decreasing order of priority; together with the needs it leaves out
    they are a rearrangement of [needs], and no returned need has a higher
    priority number than a need left out. *)
Theorem top_priorities_are_most_urgent (self : NutrientPriorityList.t) (n : nat) :
  let top := NutrientPriorityList.get_top_priorities self n in
  length top = Nat.min n (length (NutrientPriorityList.needs self)) ∧
  StronglySorted (λ a b, (NutrientNeed.priority a <= NutrientNeed.priority b)%Z) top ∧
  ∃ rest, Permutation (top ++ rest) (NutrientPriorityList.needs self) ∧
          Forall (λ x, Forall (λ y, (NutrientNeed.priority x <= NutrientNeed.priority y)%Z)
                         rest) top.
Proof.
  intros top. subst top. unfold NutrientPriorityList.get_top_priorities.
  set (sorted := stable_sort _ (NutrientPriorityList.needs self)).
  assert (Hsorted := needs_sorted (NutrientPriorityList.needs self)). fold sorted in Hsorted.
  split; [|split].
  - rewrite length_take. unfold sorted.
    by rewrite (Permutation_length (stable_sort_perm _ _)).
  - by apply StronglySorted_take.
  - exists (drop n sorted). split.
    + rewrite take_drop. apply stable_sort_perm.
    + rewrite <- (take_drop n sorted) in Hsorted.
      apply List.Forall_forall. intros x Hx. apply List.Forall_forall. intros y Hy.
      by apply (StronglySorted_app_order _ _ _ Hsorted).
Qed.

Lemma stable_sort_sorted_id {A} (leb : A → A → bool) (l : list A) :
  StronglySorted (λ a b, leb a b = true) l → stable_sort leb l = l.
Proof.
  induction 1 as [|x l Hs IH Hx]; simpl; [done|].
  rewrite IH. destruct l as [|y l]; simpl; [done|].
  apply Forall_cons in Hx as [Hxy _]. by rewrite Hxy.
Qed.

Lemma StronglySorted_weaken {A} (R R' : A → A → Prop) (l : list A) :
  (∀ a b, R a b → R' a b) → StronglySorted R l → StronglySorted R' l.
Proof.
  intros HR. induction 1 as [|x l Hs IH Hx]; constructor; [done|].
  eapply Forall_impl; [exact Hx|]. intros y. apply HR.
Qed.

(** X9: on the result of [analyze_lab_data], which is sorted already,
    [get_top_priorities n] is the first [n] needs of the list, in the
    list's own order: the plan builder's top 8 are the analyzer's first 8. *)
Theorem top_priorities_of_analysis (user_context : UserContext.t) (n : nat) :
  NutrientPriorityList.get_top_priorities (analyze_lab_data user_context) n =
  take n (NutrientPriorityList.needs (analyze_lab_data user_context)).
Proof.
  unfold NutrientPriorityList.get_top_priorities. f_equal.
  apply stable_sort_sorted_id. unfold analyze_lab_data. simpl.
  eapply StronglySorted_weaken; [|apply needs_sorted].
  intros a b H. by apply Z.leb_le.
Qed.

(** ** Food sources by nutrient *)

Lemma food_sources_dict_get (k : string) (needs : list NutrientNeed.t)
    (d : list (string * list string)) :
  NoDup (map NutrientNeed.nutrient needs) →
  (∀ x, In x needs → dict_get (NutrientNeed.nutrient x) d = None) →
  dict_get k
    (fold_left
       (λ d need, dict_set (NutrientNeed.nutrient need) (NutrientNeed.food_sources need) d)
       needs d) =
  match List.find (λ e, String.eqb (NutrientNeed.nutrient e) k) needs with
  | Some e => Some (NutrientNeed.food_sources e)
  | None => dict_get k d
  end.
Proof.
  revert d. induction needs as [|x needs IH]; intros d Hnd Hfresh; simpl; [done|].
  apply NoDup_cons in Hnd as [Hx Hnd]. rewrite list_elem_of_In in Hx.
  rewrite IH; [|done|].
  - destruct (String.eqb_spec (NutrientNeed.nutrient x) k) as [<-|Hk].
    + destruct (List.find _ needs) as [e|] eqn:E.
      * exfalso. apply find_some in E as [He Hek]. apply String.eqb_eq in Hek.
        apply Hx. rewrite <- Hek. by apply in_map.
      * apply dict_get_set_eq.
    + destruct (List.find _ needs); [done|]. by apply dict_get_set_ne.
  - intros y Hy. rewrite dict_get_set_ne; [apply Hfresh; by right|].
    intros Heq. apply Hx. rewrite Heq. by apply in_map.
Qed.

(** X10: for the result of [analyze_lab_data], [get_all_food_sources] maps
    the nutrient of each returned need to that need's food sources, and has
    no entry for any other name. *)
Theorem food_sources_by_nutrient (user_context : UserContext.t) (k : string) :
  let result := analyze_lab_data user_context in
  dict_get k (get_all_food_sources result) =
  option_map NutrientNeed.food_sources
    (List.find (λ e, String.eqb (NutrientNeed.nutrient e) k)
       (NutrientPriorityList.needs result)).
Proof.
  intros result. unfold get_all_food_sources.
  rewrite food_sources_dict_get.
  - by destruct (List.find _ _).
  - subst result. unfold analyze_lab_data. simpl.
    rewrite (Permutation_map NutrientNeed.nutrient (stable_sort_perm _ _)).
    apply consolidate_names_NoDup.
  - done.
Qed.

(** ** Resource scorer: reachability *)

Lemma feasibility_accessible_eq (store : Store.t) (lg : Logistics.t) :
  let d := Store.distance_miles store in
  let tf := calculate_travel_feasibility store lg in
  TravelFeasibility.is_accessible tf =
  (Qle_bool d (Logistics.max_travel_distance_miles lg) || Qle_bool d 2.0 ||
   (Qle_bool d 8.0 && Logistics.has_public_transit lg)) &&
  (negb (45 <? TravelFeasibility.estimated_time_minutes tf)%Z ||
   (2 <=? Logistics.grocery_trips_per_week lg)%Z).
Proof.
  intros d tf. subst tf. unfold calculate_travel_feasibility. fold d.
  destruct (Logistics.has_vehicle lg), (Logistics.has_public_transit lg);
    destruct (Qle_bool d (Logistics.max_travel_distance_miles lg));
    destruct (Qle_bool d 2.0); destruct (Qle_bool d 8.0);
    cbn [TravelFeasibility.is_accessible TravelFeasibility.estimated_time_minutes
         negb andb orb];
    by destruct (45 <? _)%Z.
Qed.

(** X11: a store is reachable exactly when it lies within the profile's
    maximal travel distance, or within 2 miles, or within 8 miles for a
    profile with public transit, and, if the estimated travel time exceeds
    45 minutes, the profile makes at least two grocery trips a week. *)
Theorem reachable_iff (store : Store.t) (lg : Logistics.t) :
  let d := Store.distance_miles store in
  let tf := calculate_travel_feasibility store lg in
  TravelFeasibility.is_accessible tf = true ↔
  ((d <= Logistics.max_travel_distance_miles lg)%Q ∨ (d <= 2)%Q ∨
   ((d <= 8)%Q ∧ Logistics.has_public_transit lg = true)) ∧
  ((45 < TravelFeasibility.estimated_time_minutes tf)%Z →
   (2 <= Logistics.grocery_trips_per_week lg)%Z).
Proof.
  intros d tf. subst tf. rewrite feasibility_accessible_eq. fold d.
  rewrite andb_true_iff, !orb_true_iff, andb_true_iff, negb_true_iff.
  rewrite !Qle_bool_iff, Z.ltb_ge, Z.leb_le.
  change (2.0)%Q with (20 # 10)%Q. change (8.0)%Q with (80 # 10)%Q.
  assert (H2 : (d <= 20 # 10)%Q ↔ (d <= 2)%Q) by (split; intros; lra).
  assert (H8 : (d <= 80 # 10)%Q ↔ (d <= 8)%Q) by (split; intros; lra).
  rewrite H2, H8. split.
  - intros [Hreach Hlong]. split; [tauto|]. intros Hgt. destruct Hlong; [lia|done].
  - intros [Hreach Hlong]. split; [tauto|].
    destruct (Z_lt_le_dec 45
                (TravelFeasibility.estimated_time_minutes
                   (calculate_travel_feasibility store lg))); [right; auto|left; done].
Qed.

(** X12: a store at most 2 miles away is reachable for every profile,
    whatever its vehicle, transit, trip count and maximal travel distance. *)
Theorem within_two_miles_always_reachable (store : Store.t) (lg : Logistics.t) :
  (Store.distance_miles store <= 2)%Q →
  TravelFeasibility.is_accessible (calculate_travel_feasibility store lg) = true.
Proof.
  intros Hd. assert (E2 : Qle_bool (Store.distance_miles store) 2.0 = true).
  { apply Qle_bool_iff. lra. }
  pose proof (Qle_bool_2_8 _ E2) as E8.
  unfold calculate_travel_feasibility. rewrite E2.
  destruct (Logistics.has_vehicle lg), (Logistics.has_public_transit lg);
    destruct (Qle_bool (Store.distance_miles store)
                (Logistics.max_travel_distance_miles lg));
    cbn [TravelFeasibility.is_accessible negb andb];
    try rewrite (walk_time_short _ E2);
    try rewrite (transit_time_short _ E2);
    try rewrite (drive_time_short _ E8); done.
Qed.

Lemma within_two_miles_always_reachable_witness :
  let pantry :=
    Store.mk "Community Food Pantry" StoreType.FOOD_PANTRY 0.8 false false
      InventoryLevel.MEDIUM 1 ["canned goods"; "bread"; "produce"] "Mon/Wed/Fri 10am-2pm" in
  let lg := Logistics.mk "00000" false false 1 0.5 in
  (Store.distance_miles pantry <= 2)%Q ∧
  TravelFeasibility.is_accessible (calculate_travel_feasibility pantry lg) = true.
Proof.
  intros pantry lg.
  assert (Hd : (Store.distance_miles pantry <= 2)%Q) by (vm_compute; discriminate).
  split; [exact Hd|]. exact (within_two_miles_always_reachable pantry lg Hd).
Defined.

(** ** Resource scorer: travel time and score *)

Lemma int_of_float_mono (x y : Q) : (x <= y)%Q → (int_of_float x <= int_of_float y)%Z.
Proof.
  intros Hxy. unfold int_of_float.
  destruct (Qle_bool 0 x) eqn:Ex, (Qle_bool 0 y) eqn:Ey.
  - by apply Qfloor_resp_le.
  - apply Qle_bool_iff in Ex. exfalso.
    assert (Hy : (0 <= y)%Q) by (by eapply Qle_trans).
    apply Qle_bool_iff in Hy. congruence.
  - apply Qle_bool_iff in Ey.
    assert (Hx : (x < 0)%Q) by (apply Qltb_lt; unfold Qltb; by rewrite Ex).
    pose proof (Qceiling_lt x) as Hc.
    assert (Hlt : (inject_Z (Qceiling x - 1) < inject_Z 0)%Q).
    { eapply Qlt_trans; [exact Hc|exact Hx]. }
    rewrite <- Zlt_Qlt in Hlt.
    assert (H0 : (0 <= Qfloor y)%Z).
    { rewrite <- (Qfloor_Z 0). by apply Qfloor_resp_le. }
    lia.
  - by apply Qceiling_resp_le.
Qed.

Lemma int_of_float_nonneg (x : Q) : (0 <= x)%Q → (0 <= int_of_float x)%Z.
Proof.
  intros Hx. change 0%Z with (int_of_float 0). by apply int_of_float_mono.
Qed.

Lemma base_time_eq (d : Q) (method : TravelMethod) :
  (d / speed_of method * 60 ==
   d * match method with walk => 20 | transit => 5 | drive => 12 # 5 end)%Q.
Proof. destruct method; simpl; field. Qed.

Lemma travel_time_nonneg_aux (d : Q) (method : TravelMethod) :
  (0 <= d)%Q → (0 <= calculate_travel_time d method)%Z.
Proof.
  intros H0. unfold calculate_travel_time.
  destruct method; cbv beta iota zeta; apply int_of_float_nonneg;
    rewrite base_time_eq; lra.
Qed.

(** X13: the estimated travel time is an integer number of minutes that is
    never negative for a non-negative distance and never decreases when the
    distance grows, for each travel mode. *)
Theorem travel_time_monotone (d d' : Q) (method : TravelMethod) :
  (0 <= d)%Q → (d <= d')%Q →
  (0 <= calculate_travel_time d method <= calculate_travel_time d' method)%Z.
Proof.
  intros H0 Hd. split; [by apply travel_time_nonneg_aux|].
  unfold calculate_travel_time.
  destruct method; cbv beta iota zeta; apply int_of_float_mono;
    rewrite !base_time_eq; lra.
Qed.

Lemma travel_time_monotone_witness :
  (0 <= 1.2)%Q ∧ (1.2 <= 5.5)%Q ∧
  (0 <= calculate_travel_time 1.2 transit <= calculate_travel_time 5.5 transit)%Z.
Proof.
  assert (H0 : (0 <= 1.2)%Q) by (vm_compute; discriminate).
  assert (Hd : (1.2 <= 5.5)%Q) by (vm_compute; discriminate).
  split; [exact H0|]. split; [exact Hd|].
  exact (travel_time_monotone 1.2 5.5 transit H0 Hd).
Defined.

Lemma round2_unit (x : Q) : (0 <= x)%Q → (x <= 1)%Q → (0 <= round2 x)%Q ∧ (round2 x <= 1)%Q.
Proof.
  intros H0 H1. unfold round2.
  set (y := (x * 100)%Q). set (n := Qfloor y).
  assert (Hy0 : (0 <= y)%Q) by (unfold y; lra).
  assert (Hy1 : (y <= 100)%Q) by (unfold y; lra).
  assert (Hn0 : (0 <= n)%Z).
  { unfold n. rewrite <- (Qfloor_Z 0). by apply Qfloor_resp_le. }
  assert (Hn1 : (n <= 100)%Z).
  { unfold n. rewrite <- (Qfloor_Z 100). by apply Qfloor_resp_le. }
  assert (Hup : (1 # 2 <= y - inject_Z n)%Q → (n + 1 <= 100)%Z).
  { intros Hfrac.
    assert (Hlt : (inject_Z n < inject_Z 100)%Q).
    { change (inject_Z 100) with 100%Q. lra. }
    rewrite <- Zlt_Qlt in Hlt. lia. }
  assert (Hres : ∀ m : Z, (0 <= m <= 100)%Z → (0 <= m # 100)%Q ∧ (m # 100 <= 1)%Q).
  { intros m Hm. unfold Qle. simpl. lia. }
  destruct (Qltb (1 # 2) (y - inject_Z n)) eqn:E1.
  - apply Hres. apply Qltb_lt in E1. split; [lia|]. apply Hup. lra.
  - destruct (Qltb (y - inject_Z n) (1 # 2)) eqn:E2.
    + apply Hres. lia.
    + destruct (Z.odd n).
      * apply Hres. apply Qltb_ge in E2. split; [lia|]. by apply Hup.
      * apply Hres. lia.
Qed.

(** X14: for a store at a non-negative distance the accessibility score,
    after rounding to two decimals, lies between 0 and 1. *)
Theorem accessibility_score_in_unit_interval (store : Store.t) (lg : Logistics.t) :
  (0 <= Store.distance_miles store)%Q →
  let score :=
    TravelFeasibility.accessibility_score (calculate_travel_feasibility store lg) in
  (0 <= score)%Q ∧ (score <= 1)%Q.
Proof.
  intros Hd score. subst score. unfold calculate_travel_feasibility.
  set (d := Store.distance_miles store) in *.
  assert (Hscore : ∀ (mp : Q) (t : Z) (inv : Q),
            (0 < mp)%Q → (0 <= t)%Z → (0 <= inv)%Q → (inv <= 1)%Q →
            let x := (Qmax 0 (1 - d / mp) * 0.4 + Qmax 0 (1 - inject_Z t / 60) * 0.3 +
                      inv * 0.3)%Q in
            (0 <= round2 x)%Q ∧ (round2 x <= 1)%Q).
  { intros mp t inv Hmp Ht Hinv0 Hinv1 x. subst x.
    assert (Hdm : (0 <= d / mp)%Q).
    { apply Qle_shift_div_l; [done|]. lra. }
    assert (Ht' : (0 <= inject_Z t / 60)%Q).
    { apply Qle_shift_div_l; [reflexivity|].
      assert (H : (inject_Z 0 <= inject_Z t)%Q) by (by rewrite <- Zle_Qle).
      change (inject_Z 0) with 0%Q in H. lra. }
    pose proof (Q.le_max_l 0 (1 - d / mp)) as Ha0.
    pose proof (Q.le_max_l 0 (1 - inject_Z t / 60)) as Hb0.
    assert (Ha1 : (Qmax 0 (1 - d / mp) <= 1)%Q) by (apply Q.max_lub; lra).
    assert (Hb1 : (Qmax 0 (1 - inject_Z t / 60) <= 1)%Q) by (apply Q.max_lub; lra).
    apply round2_unit.
    - change (0.4)%Q with (4 # 10)%Q. change (0.3)%Q with (3 # 10)%Q. nra.
    - change (0.4)%Q with (4 # 10)%Q. change (0.3)%Q with (3 # 10)%Q. nra. }
  assert (Hinv : (0 <= inventory_score (Store.inventory_level store))%Q ∧
                 (inventory_score (Store.inventory_level store) <= 1)%Q).
  { destruct (Store.inventory_level store); simpl; split; vm_compute; discriminate. }
  destruct Hinv as [Hinv0 Hinv1].
  assert (Htime : ∀ m, (0 <= calculate_travel_time d m)%Z).
  { intros m. apply (travel_time_nonneg_aux d m Hd). }
  destruct (Logistics.has_vehicle lg), (Logistics.has_public_transit lg);
    destruct (Qle_bool d (Logistics.max_travel_distance_miles lg));
    destruct (Qle_bool d 2.0); destruct (Qle_bool d 8.0);
    cbn [TravelFeasibility.accessibility_score negb andb];
    apply Hscore; try done.
Qed.

Lemma accessibility_score_in_unit_interval_witness :
  let market :=
    Store.mk "Dollar General" StoreType.DISCOUNT 0.5 true false
      InventoryLevel.LOW 2 ["canned goods"; "snacks"; "basic staples"] "8am-10pm" in
  let lg := Logistics.mk "00000" false true 2 5.0 in
  (0 <= Store.distance_miles market)%Q ∧
  (0 <= TravelFeasibility.accessibility_score (calculate_travel_feasibility market lg))%Q ∧
  (TravelFeasibility.accessibility_score (calculate_travel_feasibility market lg) <= 1)%Q.
Proof.
  intros market lg.
  assert (Hd : (0 <= Store.distance_miles market)%Q) by (vm_compute; discriminate).
  split; [exact Hd|]. exact (accessibility_score_in_unit_interval market lg Hd).
Defined.

(** ** Plan builder: what is on the list *)

Lemma dict_get_values {V} (k : string) (v : V) (d : list (string * V)) :
  dict_get k d = Some v → In v (map snd d).
Proof.
  intros H. apply dict_get_In in H. apply in_map_iff. by exists (k, v).
Qed.

Lemma budget_substitute_In (tier : BudgetTier) (food : FoodItem.t) :
  In food database_foods → In (budget_substitute tier food) database_foods.
Proof.
  intros Hf. unfold budget_substitute.
  repeat case_match; try done. by eapply dict_get_values.
Qed.

Lemma budget_substitute_roomy (tier : BudgetTier) (food : FoodItem.t) :
  tight_budget tier = false → budget_substitute tier food = food.
Proof. intros H. unfold budget_substitute. rewrite H. by case_match. Qed.

Lemma first_affordable_In (user_context : UserContext.t) (remaining_budget : float)
    (safe_options : list FoodItem.t) (food : FoodItem.t) :
  first_affordable user_context remaining_budget safe_options = Some food →
  ∃ option, In option safe_options ∧
    food = budget_substitute
             (Financials.budget_tier (UserContext.financials user_context)) option.
Proof.
  induction safe_options as [|o rest IH]; [done|]. cbn [first_affordable].
  destruct (PrimFloat.leb _ remaining_budget).
  - destruct (_ && _).
    + intros H. destruct (IH H) as (x & Hx & Hs). exists x. split; [by right|done].
    + intros [= <-]. exists o. split; [by left|done].
  - intros H. destruct (IH H) as (x & Hx & Hs). exists x. split; [by right|done].
Qed.

Lemma get_foods_for_nutrient_In (nutrient : string) (f : FoodItem.t) :
  In f (get_foods_for_nutrient nutrient) ↔
  In f database_foods ∧ In nutrient (FoodItem.nutrients_provided f).
Proof.
  unfold get_foods_for_nutrient. rewrite stable_sort_In, filter_In, mem_In. done.
Qed.

(** What [resolve_need] selects is an allergy-safe food of the table for
    the nutrient, or the budget substitute of one. *)
Lemma resolve_need_selected (user_context : UserContext.t) (remaining_budget : float)
    (need : NutrientNeed.t) (food : FoodItem.t) :
  resolve_need user_context remaining_budget need = Selected food →
  PrimFloat.leb remaining_budget 0 = false ∧
  ∃ option,
    In option database_foods ∧
    In (NutrientNeed.nutrient need) (FoodItem.nutrients_provided option) ∧
    food_safe (allergies_of user_context) option = true ∧
    (food = option ∨
     food = budget_substitute
              (Financials.budget_tier (UserContext.financials user_context)) option).
Proof.
  unfold resolve_need. destruct (PrimFloat.leb remaining_budget 0) eqn:Eb; [done|].
  destruct (get_foods_for_nutrient _) as [|f0 fs] eqn:Ef; [done|].
  fold (allergies_of user_context).
  destruct (List.filter _ (f0 :: fs)) as [|c cs] eqn:Es; [done|].
  assert (Hsafe : ∀ o, In o (c :: cs) →
            In o database_foods ∧
            In (NutrientNeed.nutrient need) (FoodItem.nutrients_provided o) ∧
            food_safe (allergies_of user_context) o = true).
  { intros o Ho. rewrite <- Es in Ho. apply filter_In in Ho as [Ho Hs].
    rewrite <- Ef in Ho. apply get_foods_for_nutrient_In in Ho. tauto. }
  destruct (first_affordable _ _ _) as [f|] eqn:Ea.
  - intros [= <-]. split; [done|].
    apply first_affordable_In in Ea as (o & Ho & ->).
    exists o. destruct (Hsafe o Ho) as (? & ? & ?). repeat split; try done. by right.
  - intros [= <-]. split; [done|].
    exists c. destruct (Hsafe c (or_introl eq_refl)) as (? & ? & ?).
    repeat split; try done. by left.
Qed.

Lemma resolve_need_In (user_context : UserContext.t) (remaining_budget : float)
    (need : NutrientNeed.t) (food : FoodItem.t) :
  resolve_need user_context remaining_budget need = Selected food →
  In food database_foods.
Proof.
  intros H. apply resolve_need_selected in H as (_ & o & Ho & _ & _ & [->| ->]); [done|].
  by apply budget_substitute_In.
Qed.

Lemma add_nutrient_Forall (P : ShoppingListItem.t → Prop) (food_name nutrient : string)
    (l : list ShoppingListItem.t) :
  (∀ it, P it →
     P (ShoppingListItem.mk
          (ShoppingListItem.food it) (ShoppingListItem.quantity it)
          (ShoppingListItem.priority it) (ShoppingListItem.reason it)
          (ShoppingListItem.suggested_store it) (ShoppingListItem.estimated_cost it)
          (ShoppingListItem.nutrients_addressed it ++ [nutrient]))) →
  Forall P l → Forall P (add_nutrient food_name nutrient l).
Proof.
  intros HP. induction 1 as [|x l Hx Hl IH]; cbn [add_nutrient]; [constructor|].
  repeat case_match; constructor; auto.
Qed.

(** An invariant of both loops, for a property [P] of items that the
    merge branch keeps and that the new items have. *)
Lemma plan_need_Forall (P : ShoppingListItem.t → Prop)
    (user_context : UserContext.t) (resource_map : ResourceMap.t)
    (st : Plan.t) (need : NutrientNeed.t) :
  (∀ it n, P it →
     P (ShoppingListItem.mk
          (ShoppingListItem.food it) (ShoppingListItem.quantity it)
          (ShoppingListItem.priority it) (ShoppingListItem.reason it)
          (ShoppingListItem.suggested_store it) (ShoppingListItem.estimated_cost it)
          (ShoppingListItem.nutrients_addressed it ++ [n]))) →
  (∀ food, resolve_need user_context (Plan.remaining_budget st) need = Selected food →
     has_food (FoodItem.name food) (Plan.items st) = false →
     P (ShoppingListItem.mk food 1
          (calculate_priority (NutrientNeed.priority need)
             (Financials.budget_tier (UserContext.financials user_context)))
          (Addresses (NutrientNeed.nutrient need) (NutrientNeed.reason need))
          (find_best_store user_context resource_map) (FoodItem.price_estimate food)
          [NutrientNeed.nutrient need])) →
  Forall P (Plan.items st) →
  Forall P (Plan.items (plan_need user_context resource_map st need)).
Proof.
  intros Hmerge Hnew Hst. unfold plan_need.
  destruct (resolve_need _ _ _) as [why|food] eqn:Er; [done|].
  destruct (has_food _ _) eqn:Eh; cbn [negb Plan.items].
  - apply add_nutrient_Forall; [|done]. intros it. apply Hmerge.
  - apply Forall_app. split; [done|]. constructor; [|constructor]. by apply Hnew.
Qed.

Lemma fill_staples_Forall (P : ShoppingListItem.t → Prop) (keys : list string)
    (st : Plan.t) :
  (∀ st' staple, In staple database_foods →
     PrimFloat.leb (FoodItem.price_estimate staple) (Plan.remaining_budget st') = true →
     PrimFloat.leb (Plan.remaining_budget st') 2 = false →
     P (ShoppingListItem.mk staple 1 ShoppingPriority.OPTIONAL
          (Because "Budget-friendly staple for general nutrition")
          None (FoodItem.price_estimate staple) [])) →
  Forall P (Plan.items st) → Forall P (Plan.items (fill_staples keys st)).
Proof.
  intros Hnew. revert st. induction keys as [|k keys IH]; intros st Hst; [done|].
  cbn [fill_staples]. destruct (PrimFloat.leb (Plan.remaining_budget st) 2) eqn:E2; [done|].
  destruct (dict_get k FOOD_DATABASE) as [staple|] eqn:Ek; [|by apply IH].
  destruct (negb _ && _) eqn:Ec; [|by apply IH].
  apply IH. cbn [Plan.items]. apply Forall_app. split; [done|].
  constructor; [|constructor]. apply andb_prop in Ec as [_ Hp].
  apply (Hnew st).
  - by eapply dict_get_values.
  - exact Hp.
  - exact E2.
Qed.

Lemma fold_plan_need_Forall (P : ShoppingListItem.t → Prop)
    (user_context : UserContext.t) (resource_map : ResourceMap.t)
    (needs : list NutrientNeed.t) (st : Plan.t) :
  (∀ st need, Forall P (Plan.items st) →
     Forall P (Plan.items (plan_need user_context resource_map st need))) →
  Forall P (Plan.items st) →
  Forall P (Plan.items (fold_left (plan_need user_context resource_map) needs st)).
Proof.
  intros Hstep. revert st. induction needs as [|n needs IH]; intros st Hst; [done|].
  simpl. apply IH. by apply Hstep.
Qed.

Lemma sorted_items_Forall (P : ShoppingListItem.t → Prop) (l : list ShoppingListItem.t) :
  Forall P l → Forall P (stable_sort by_priority l).
Proof.
  intros H. apply List.Forall_forall. intros x Hx. apply stable_sort_In in Hx.
  by apply (proj1 (List.Forall_forall _ _) H).
Qed.

(** X15: every item of the shopping list is one unit of a food of
    [FOOD_DATABASE], costed at that food's price, whatever the needs and
    the resource map handed to the plan builder. *)
Theorem items_are_table_foods_at_table_price (user_context : UserContext.t)
    (nutrient_priorities : NutrientPriorityList.t) (resource_map : ResourceMap.t) :
  Forall priced_from_table
    (ShoppingList.items
       (generate_shopping_list user_context nutrient_priorities resource_map)).
Proof.
  unfold generate_shopping_list. cbn [ShoppingList.items].
  apply sorted_items_Forall. unfold final_plan.
  apply fill_staples_Forall.
  { intros st' staple Hin _ _. by split. }
  apply fold_plan_need_Forall; [|constructor].
  intros st need Hst. apply plan_need_Forall; [| |done].
  - by intros it n (? & ? & ?).
  - intros food Hr _. split; [|done]. cbn. by eapply resolve_need_In.
Qed.

(** ** Plan builder: the budget *)

(** A budget that is at most 0 is at most 2: what lets the staples loop
    stop at once when the loop over the needs bought nothing. *)
Lemma at_most_0_at_most_2 (b : float) :
  PrimFloat.leb b 0 = true → PrimFloat.leb b 2 = true.
Proof.
  rewrite !leb_spec. change (Prim2SF 0) with (S754_zero false).
  destruct (Prim2SF b) as [s|s| |s m e]; try discriminate; try reflexivity.
  - destruct s; try discriminate; reflexivity.
  - destruct s; try discriminate; reflexivity.
Qed.

Lemma fold_plan_need_exhausted (user_context : UserContext.t)
    (resource_map : ResourceMap.t) (needs : list NutrientNeed.t) (st : Plan.t) :
  PrimFloat.leb (Plan.remaining_budget st) 0 = true →
  Plan.items (fold_left (plan_need user_context resource_map) needs st) = Plan.items st ∧
  Plan.remaining_budget (fold_left (plan_need user_context resource_map) needs st) =
  Plan.remaining_budget st.
Proof.
  revert st. induction needs as [|n needs IH]; intros st Hst; [done|].
  simpl.
  assert (E : ∃ why, plan_need user_context resource_map st n =
                     Plan.mk (Plan.items st) (Plan.remaining_budget st) why).
  { unfold plan_need, resolve_need. rewrite Hst. by eexists. }
  destruct E as [why E]. rewrite E.
  by destruct (IH (Plan.mk (Plan.items st) (Plan.remaining_budget st) why) Hst).
Qed.

(** X17: with a weekly budget of zero or less nothing is bought: the list
    has no items, the total is 0 and the budget left is the budget itself,
    whatever the needs. *)
Theorem nothing_bought_without_budget (user_context : UserContext.t)
    (nutrient_priorities : NutrientPriorityList.t) (resource_map : ResourceMap.t) :
  let budget := Financials.weekly_budget (UserContext.financials user_context) in
  let plan := generate_shopping_list user_context nutrient_priorities resource_map in
  PrimFloat.leb budget 0 = true →
  ShoppingList.items plan = [] ∧
  ShoppingList.store_visits plan = [] ∧
  ShoppingList.total_estimated_cost plan = 0%float ∧
  ShoppingList.budget_remaining plan = budget.
Proof.
  intros budget plan E0.
  pose proof (at_most_0_at_most_2 budget E0) as E2.
  destruct (fold_plan_need_exhausted user_context resource_map
              (NutrientPriorityList.get_top_priorities nutrient_priorities 8)
              (initial_plan user_context nutrient_priorities resource_map) E0)
    as [Hi Hr].
  assert (Hf : Plan.items (final_plan user_context nutrient_priorities resource_map) = [] ∧
               Plan.remaining_budget
                 (final_plan user_context nutrient_priorities resource_map) = budget).
  { unfold final_plan, staples. cbn [fill_staples]. rewrite Hr.
    cbn [initial_plan Plan.remaining_budget]. fold budget. rewrite E2. by rewrite Hi, Hr. }
  destruct Hf as [Hfi Hfr]. subst plan. unfold generate_shopping_list.
  cbn [ShoppingList.items ShoppingList.store_visits ShoppingList.total_estimated_cost
       ShoppingList.budget_remaining].
  by rewrite Hfi, Hfr.
Qed.

Lemma nothing_bought_without_budget_witness :
  let user :=
    UserContext.mk "user_anonymous" "Anonymous" (Financials.mk 0 true false None)
      (Logistics.mk "00000" false false 1 2.0)
      (MedicalHistory.mk ["diabetes"] [] ["fatigue"] [] []) None in
  let plan := generate_shopping_list user (analyze_lab_data user) (resource_locator user) in
  PrimFloat.leb (Financials.weekly_budget (UserContext.financials user)) 0 = true ∧
  ShoppingList.items plan = [] ∧
  ShoppingList.budget_remaining plan = 0%float.
Proof.
  intros user plan.
  assert (Hb : PrimFloat.leb (Financials.weekly_budget (UserContext.financials user)) 0
               = true) by reflexivity.
  split; [exact Hb|].
  pose proof (nothing_bought_without_budget user (analyze_lab_data user)
                (resource_locator user) Hb) as H.
  split; [exact (proj1 H)|exact (proj2 (proj2 (proj2 H)))].
Defined.

(** ** Plan builder: size, order and stores *)

Lemma add_nutrient_length (food_name nutrient : string) (l : list ShoppingListItem.t) :
  length (add_nutrient food_name nutrient l) = length l.
Proof.
  induction l as [|x l IH]; [done|]. cbn [add_nutrient].
  repeat case_match; simpl; by rewrite ?IH.
Qed.

Lemma plan_need_length (user_context : UserContext.t) (resource_map : ResourceMap.t)
    (st : Plan.t) (need : NutrientNeed.t) :
  (length (Plan.items (plan_need user_context resource_map st need)) <=
   S (length (Plan.items st)))%nat.
Proof.
  unfold plan_need. destruct (resolve_need _ _ _); [simpl; lia|].
  destruct (negb _); cbn [Plan.items].
  - rewrite length_app. simpl. lia.
  - rewrite add_nutrient_length. lia.
Qed.

Lemma fold_plan_need_length (user_context : UserContext.t) (resource_map : ResourceMap.t)
    (needs : list NutrientNeed.t) (st : Plan.t) :
  (length (Plan.items (fold_left (plan_need user_context resource_map) needs st)) <=
   length (Plan.items st) + length needs)%nat.
Proof.
  revert st. induction needs as [|n needs IH]; intros st; [simpl; lia|].
  simpl. pose proof (IH (plan_need user_context resource_map st n)) as H.
  pose proof (plan_need_length user_context resource_map st n). lia.
Qed.

Lemma fill_staples_length (keys : list string) (st : Plan.t) :
  (length (Plan.items (fill_staples keys st)) <=
   length (Plan.items st) + length keys)%nat.
Proof.
  revert st. induction keys as [|k keys IH]; intros st; [simpl; lia|].
  cbn [fill_staples]. destruct (PrimFloat.leb _ 2); [simpl; lia|].
  destruct (dict_get k FOOD_DATABASE); [|specialize (IH st); simpl; lia].
  destruct (negb _ && _); [|specialize (IH st); simpl; lia].
  match goal with |- context [fill_staples keys ?s] => specialize (IH s) end.
  cbn [Plan.items] in IH. rewrite length_app in IH. simpl in *. lia.
Qed.

(** X18: the items come most urgent tier first (CRITICAL, HIGH, MODERATE,
    OPTIONAL), and there are at most as many as needs considered (eight or
    fewer) plus the five staples: never more than thirteen. *)
Theorem items_by_tier_and_at_most_thirteen (user_context : UserContext.t)
    (nutrient_priorities : NutrientPriorityList.t) (resource_map : ResourceMap.t) :
  let items :=
    ShoppingList.items
      (generate_shopping_list user_context nutrient_priorities resource_map) in
  StronglySorted
    (λ a b, (ShoppingPriority.value (ShoppingListItem.priority a) <=
             ShoppingPriority.value (ShoppingListItem.priority b))%Z) items ∧
  (length items <=
   Nat.min 8 (length (NutrientPriorityList.needs nutrient_priorities)) + 5)%nat ∧
  (length items <= 13)%nat.
Proof.
  intros items. subst items. unfold generate_shopping_list. cbn [ShoppingList.items].
  split.
  - apply (stable_sort_sorted by_priority).
    + intros a b H. unfold by_priority in H. lia.
    + intros a b H. unfold by_priority in H. lia.
    + intros a b c. lia.
  - rewrite (Permutation_length (stable_sort_perm _ _)).
    unfold final_plan.
    pose proof (fill_staples_length staples
                  (fold_left (plan_need user_context resource_map)
                     (NutrientPriorityList.get_top_priorities nutrient_priorities 8)
                     (initial_plan user_context nutrient_priorities resource_map))) as H1.
    pose proof (fold_plan_need_length user_context resource_map
                  (NutrientPriorityList.get_top_priorities nutrient_priorities 8)
                  (initial_plan user_context nutrient_priorities resource_map)) as H2.
    assert (H3 : length (NutrientPriorityList.get_top_priorities nutrient_priorities 8) =
                 Nat.min 8 (length (NutrientPriorityList.needs nutrient_priorities))).
    { unfold NutrientPriorityList.get_top_priorities. rewrite length_take.
      by rewrite (Permutation_length (stable_sort_perm _ _)). }
    change (length staples) with 5%nat in H1.
    change (length (Plan.items (initial_plan user_context nutrient_priorities
                                  resource_map))) with 0%nat in H2.
    split; lia.
Qed.

(** The first item with a given visit key never changes a list's other
    keys: the steps of [group_by_store]. *)
Lemma group_step_keys (visits : list (string * list ShoppingListItem.t))
    (item : ShoppingListItem.t) :
  NoDup (map fst visits) →
  NoDup (map fst (dict_set (visit_key item)
                    (default [] (dict_get (visit_key item) visits) ++ [item]) visits)).
Proof. apply dict_set_NoDup. Qed.

Lemma dict_set_concat {V} (k : string) (x : V) (visits : list (string * list V)) :
  Permutation
    (concat (map snd (dict_set k (default [] (dict_get k visits) ++ [x]) visits)))
    (x :: concat (map snd visits)).
Proof.
  induction visits as [|[k' l] visits IH]; [done|].
  cbn [dict_get]. destruct (String.eqb k k') eqn:E.
  - cbn [dict_set]. rewrite E. simpl.
    rewrite <- app_assoc. simpl. symmetry. apply Permutation_middle.
  - cbn [dict_set]. rewrite E. simpl.
    set (tail := dict_set k _ visits) in *.
    rewrite IH. symmetry. apply Permutation_middle.
Qed.

Lemma dict_set_values {V} (P : string → list V → Prop) (k : string) (x : V)
    (visits : list (string * list V)) :
  (∀ l, P k l → P k (l ++ [x])) → P k [x] →
  Forall (λ kv, P (fst kv) (snd kv)) visits →
  Forall (λ kv, P (fst kv) (snd kv))
    (dict_set k (default [] (dict_get k visits) ++ [x]) visits).
Proof.
  intros Hadd Hnew. induction 1 as [|[k' l] visits Hk Hv IH].
  - simpl. by constructor.
  - cbn [dict_get dict_set]. destruct (String.eqb k k') eqn:E.
    + apply String.eqb_eq in E as <-. constructor; [|done]. simpl. by apply Hadd.
    + constructor; [done|]. apply IH.
Qed.

Lemma group_by_store_partition (items : list ShoppingListItem.t) :
  let visits := group_by_store items in
  NoDup (map fst visits) ∧
  Forall (λ kv, snd kv ≠ [] ∧ Forall (λ it, visit_key it = fst kv) (snd kv)) visits ∧
  Permutation (concat (map snd visits)) items.
Proof.
  unfold group_by_store.
  assert (G : ∀ (l : list ShoppingListItem.t) visits done,
             NoDup (map fst visits) →
             Forall (λ kv, snd kv ≠ [] ∧ Forall (λ it, visit_key it = fst kv) (snd kv))
               visits →
             Permutation (concat (map snd visits)) done →
             let out :=
               fold_left
                 (λ visits item,
                    let store := visit_key item in
                    dict_set store (default [] (dict_get store visits) ++ [item]) visits)
                 l visits in
             NoDup (map fst out) ∧
             Forall (λ kv, snd kv ≠ [] ∧ Forall (λ it, visit_key it = fst kv) (snd kv))
               out ∧
             Permutation (concat (map snd out)) (done ++ l)).
  { induction l as [|x l IH]; intros visits done Hk Hv Hp.
    - simpl. by rewrite app_nil_r.
    - cbn [fold_left].
      specialize (IH (dict_set (visit_key x)
                        (default [] (dict_get (visit_key x) visits) ++ [x]) visits)
                    (done ++ [x])).
      cbv zeta in IH. rewrite <- app_assoc in IH. apply IH.
      + by apply group_step_keys.
      + apply (dict_set_values
                 (λ k l, l ≠ [] ∧ Forall (λ it, visit_key it = k) l)); [| |done].
        * intros l' [_ Hl]. split; [by destruct l'|].
          apply Forall_app. split; [done|]. by constructor.
        * split; [done|]. by constructor.
      + rewrite dict_set_concat. rewrite Hp. apply Permutation_cons_append. }
  apply (G items [] []); [apply NoDup_nil_2|constructor|done].
Qed.

(** X19: [store_visits] files every item of the list exactly once: its
    keys are distinct, no key has an empty list, every item filed under a
    key has that store as its suggested store ("Any Store" when it has
    none), and the lists together are a rearrangement of the items. *)
Theorem store_visits_partition_items (user_context : UserContext.t)
    (nutrient_priorities : NutrientPriorityList.t) (resource_map : ResourceMap.t) :
  let plan := generate_shopping_list user_context nutrient_priorities resource_map in
  let visits := ShoppingList.store_visits plan in
  NoDup (map fst visits) ∧
  Forall (λ kv, snd kv ≠ [] ∧ Forall (λ it, visit_key it = fst kv) (snd kv)) visits ∧
  Permutation (concat (map snd visits)) (ShoppingList.items plan).
Proof.
  intros plan visits. subst plan visits. unfold generate_shopping_list.
  cbn [ShoppingList.store_visits ShoppingList.items].
  destruct (group_by_store_partition
              (Plan.items (final_plan user_context nutrient_priorities resource_map)))
    as (Hk & Hv & Hp).
  split; [done|]. split; [done|].
  rewrite Hp. symmetry. apply stable_sort_perm.
Qed.

Lemma find_best_store_usable (user_context : UserContext.t) (resource_map : ResourceMap.t)
    (s : string) :
  find_best_store user_context resource_map = Some s →
  ∃ tf, In tf (ResourceMap.accessible_stores resource_map) ∧
        Store.name (TravelFeasibility.store tf) = s ∧ usable_store user_context tf.
Proof.
  unfold find_best_store. destruct (List.find _ _) as [tf|] eqn:Ef; [|done].
  intros [= <-]. apply find_some in Ef as [Hin Hok]. exists tf.
  split; [done|]. split; [done|]. apply andb_prop in Hok as [Hsnap Hinv].
  split.
  - intros E. rewrite E in Hinv. by destruct (Store.inventory_level _).
  - intros E. rewrite E in Hsnap. by destruct (Store.snap_accepted _).
Qed.

(** X20: every item made for a need is sent to one and the same store,
    the first accessible store of the resource map that is not low on
    inventory and, for a profile with SNAP, accepts SNAP, or to no store
    when there is none; staples are never given a store.  So
    [store_visits] has at most that store and "Any Store" as keys. *)
Theorem one_usable_store_for_all_needs (user_context : UserContext.t)
    (nutrient_priorities : NutrientPriorityList.t) (resource_map : ResourceMap.t) :
  let plan := generate_shopping_list user_context nutrient_priorities resource_map in
  Forall
    (λ item,
       ShoppingListItem.suggested_store item =
       (if for_a_need item then find_best_store user_context resource_map else None) ∧
       ∀ s, ShoppingListItem.suggested_store item = Some s →
            ∃ tf, In tf (ResourceMap.accessible_stores resource_map) ∧
                  Store.name (TravelFeasibility.store tf) = s ∧
                  usable_store user_context tf)
    (ShoppingList.items plan).
Proof.
  intros plan. subst plan.
  assert (H : Forall
                (λ item,
                   ShoppingListItem.suggested_store item =
                   (if for_a_need item then find_best_store user_context resource_map
                    else None))
                (ShoppingList.items
                   (generate_shopping_list user_context nutrient_priorities
                      resource_map))).
  { unfold generate_shopping_list. cbn [ShoppingList.items].
    apply sorted_items_Forall. unfold final_plan.
    apply fill_staples_Forall; [done|].
    apply fold_plan_need_Forall; [|constructor].
    intros st need Hst. by apply plan_need_Forall. }
  eapply Forall_impl; [exact H|]. intros item Hitem. split; [done|].
  intros s Hs. rewrite Hitem in Hs. destruct (for_a_need item); [|done].
  by apply find_best_store_usable.
Qed.

(** ** Plan builder: selection without budget substitutes *)

Lemma database_names_NoDup : NoDup (map FoodItem.name database_foods).
Proof. apply (bool_decide_unpack _). by vm_compute. Qed.

Lemma NoDup_map_inj {A B} (f : A → B) (l : list A) (a b : A) :
  NoDup (map f l) → In a l → In b l → f a = f b → a = b.
Proof.
  induction l as [|x l IH]; [done|]. simpl. intros Hnd Ha Hb Hab.
  apply NoDup_cons in Hnd as [Hx Hnd].
  destruct Ha as [->|Ha], Hb as [->|Hb]; [done| | |by apply IH].
  - exfalso. apply Hx. apply list_elem_of_In. rewrite Hab. by apply in_map.
  - exfalso. apply Hx. apply list_elem_of_In. rewrite <- Hab. by apply in_map.
Qed.

Lemma database_food_by_name (f g : FoodItem.t) :
  In f database_foods → In g database_foods → FoodItem.name f = FoodItem.name g → f = g.
Proof. apply NoDup_map_inj, database_names_NoDup. Qed.

Lemma add_nutrient_Forall_named (P : ShoppingListItem.t → Prop)
    (food_name nutrient : string) (l : list ShoppingListItem.t) :
  (∀ it, P it → FoodItem.name (ShoppingListItem.food it) = food_name →
     P (ShoppingListItem.mk
          (ShoppingListItem.food it) (ShoppingListItem.quantity it)
          (ShoppingListItem.priority it) (ShoppingListItem.reason it)
          (ShoppingListItem.suggested_store it) (ShoppingListItem.estimated_cost it)
          (ShoppingListItem.nutrients_addressed it ++ [nutrient]))) →
  Forall P l → Forall P (add_nutrient food_name nutrient l).
Proof.
  intros HP. induction 1 as [|x l Hx Hl IH]; cbn [add_nutrient]; [constructor|].
  destruct (String.eqb _ food_name) eqn:E.
  - apply String.eqb_eq in E. destruct (mem _ _); constructor; auto.
  - constructor; auto.
Qed.

Lemma resolve_need_roomy (user_context : UserContext.t) (remaining_budget : float)
    (need : NutrientNeed.t) (food : FoodItem.t) :
  tight_budget (Financials.budget_tier (UserContext.financials user_context)) = false →
  resolve_need user_context remaining_budget need = Selected food →
  In food database_foods ∧
  In (NutrientNeed.nutrient need) (FoodItem.nutrients_provided food) ∧
  food_safe (allergies_of user_context) food = true.
Proof.
  intros Ht Hr. apply resolve_need_selected in Hr as (_ & o & Ho & Hn & Hs & Hf).
  rewrite (budget_substitute_roomy _ _ Ht) in Hf.
  assert (food = o) as -> by (by destruct Hf). done.
Qed.

Lemma plan_need_sound (user_context : UserContext.t) (resource_map : ResourceMap.t)
    (st : Plan.t) (need : NutrientNeed.t) :
  tight_budget (Financials.budget_tier (UserContext.financials user_context)) = false →
  Forall (λ it, In (ShoppingListItem.food it) database_foods ∧
                sound_for (allergies_of user_context) it) (Plan.items st) →
  Forall (λ it, In (ShoppingListItem.food it) database_foods ∧
                sound_for (allergies_of user_context) it)
    (Plan.items (plan_need user_context resource_map st need)).
Proof.
  intros Ht Hst. unfold plan_need.
  destruct (resolve_need _ _ _) as [why|food] eqn:Er; [done|].
  destruct (resolve_need_roomy _ _ _ _ Ht Er) as (Hdb & Hn & Hs).
  destruct (has_food _ _) eqn:Eh; cbn [negb Plan.items].
  - apply add_nutrient_Forall_named; [|done].
    intros it (Hin & Hsafe & Hprov) Hname. split; [done|]. split; [done|]. cbn.
    apply Forall_app. split; [done|]. constructor; [|constructor].
    by rewrite (database_food_by_name _ _ Hin Hdb Hname).
  - apply Forall_app. split; [done|]. constructor; [|constructor].
    split; [done|]. split; [done|]. cbn. by constructor.
Qed.

(** X21: when the budget tier is moderate or comfortable (no budget
    substitutes), every item made for a need is a food whose lowercased
    name contains none of the profile's lowercased allergy tags, and every
    nutrient the item is said to address is one its food provides. *)
Theorem needs_met_by_safe_providing_foods (user_context : UserContext.t)
    (nutrient_priorities : NutrientPriorityList.t) (resource_map : ResourceMap.t) :
  tight_budget (Financials.budget_tier (UserContext.financials user_context)) = false →
  Forall (λ item, for_a_need item = true → sound_for (allergies_of user_context) item)
    (ShoppingList.items
       (generate_shopping_list user_context nutrient_priorities resource_map)).
Proof.
  intros Ht. unfold generate_shopping_list. cbn [ShoppingList.items].
  apply sorted_items_Forall. unfold final_plan.
  apply fill_staples_Forall; [done|].
  generalize (NutrientPriorityList.get_top_priorities nutrient_priorities 8).
  intros needs.
  assert (H : Forall (λ it, In (ShoppingListItem.food it) database_foods ∧
                            sound_for (allergies_of user_context) it)
                (Plan.items (fold_left (plan_need user_context resource_map) needs
                               (initial_plan user_context nutrient_priorities
                                  resource_map)))).
  { apply fold_plan_need_Forall; [|constructor].
    intros st need Hst. by apply plan_need_sound. }
  eapply Forall_impl; [exact H|]. by intros it [_ Hs] _.
Qed.

Lemma needs_met_by_safe_providing_foods_witness :
  let user := moderate_budget_profile ["spinach"; "bean"] in
  tight_budget (Financials.budget_tier (UserContext.financials user)) = false ∧
  Forall (λ item, for_a_need item = true → sound_for (allergies_of user) item)
    (ShoppingList.items
       (generate_shopping_list user (analyze_lab_data user) (resource_locator user))).
Proof.
  intros user.
  assert (Ht : tight_budget (Financials.budget_tier (UserContext.financials user)) = false)
    by reflexivity.
  split; [exact Ht|].
  exact (needs_met_by_safe_providing_foods user (analyze_lab_data user)
           (resource_locator user) Ht).
Defined.

(** ** Plan builder and need analyzer together *)

Lemma analyzed_need_shape (user_context : UserContext.t) (e : NutrientNeed.t) :
  In e (NutrientPriorityList.needs (analyze_lab_data user_context)) →
  In (NutrientNeed.nutrient e) (map fst NUTRIENT_FOOD_SOURCES) ∧
  (1 <= NutrientNeed.priority e <= 4)%Z.
Proof.
  intros He. apply analyzed_needs_In in He. apply consolidate_entry in He.
  destruct (held_after_priority _ _ _ He) as [(x & Hx & Hxk & Hxp) _].
  apply filtered_needs_In in Hx as (Hk & Hp & _). by rewrite <- Hxk, <- Hxp.
Qed.

(** Sorting a list of elements that satisfy [P], with a comparison that
    is total and transitive on such elements. *)
Lemma insert_sorted_sorted_on {A} (leb : A → A → bool) (R : A → A → Prop)
    (P : A → Prop) (x : A) (l : list A) :
  (∀ a b, P a → P b → leb a b = true → R a b) →
  (∀ a b, P a → P b → leb a b = false → R b a) →
  (∀ a b c, P a → P b → P c → R a b → R b c → R a c) →
  P x → Forall P l → StronglySorted R l → StronglySorted R (insert_sorted leb x l).
Proof.
  intros Htrue Hfalse Htrans Hx Hl Hs. induction Hs as [|y l Hs IH Hy]; simpl.
  - repeat constructor.
  - apply Forall_cons in Hl as [Py Pl]. destruct (leb x y) eqn:E.
    + constructor; [by constructor|]. constructor; [by apply Htrue|].
      apply List.Forall_forall. intros z Hz.
      apply (Htrans x y z); auto.
      * by apply (proj1 (List.Forall_forall _ _) Pl).
      * by apply (proj1 (List.Forall_forall _ _) Hy).
    + constructor; [by apply IH|].
      apply List.Forall_forall. intros z Hz.
      apply (Permutation_in _ (insert_sorted_perm leb x l)) in Hz.
      destruct Hz as [<-|Hz]; [by apply Hfalse|].
      by apply (proj1 (List.Forall_forall _ _) Hy).
Qed.

Lemma stable_sort_sorted_on {A} (leb : A → A → bool) (R : A → A → Prop)
    (P : A → Prop) (l : list A) :
  (∀ a b, P a → P b → leb a b = true → R a b) →
  (∀ a b, P a → P b → leb a b = false → R b a) →
  (∀ a b c, P a → P b → P c → R a b → R b c → R a c) →
  Forall P l → StronglySorted R (stable_sort leb l).
Proof.
  intros Htrue Hfalse Htrans. induction 1 as [|x l Hx Hl IH]; simpl; [constructor|].
  apply (insert_sorted_sorted_on leb R P); auto.
  apply List.Forall_forall. intros z Hz. apply stable_sort_In in Hz.
  by apply (proj1 (List.Forall_forall _ _) Hl).
Qed.

(** The prices of the table are ordinary numbers: any two compare, [<] and
    [<=] agree on them, and [<=] is transitive on them. *)
Lemma database_prices_compare (a b : FoodItem.t) :
  In a database_foods → In b database_foods →
  negb (PrimFloat.ltb (FoodItem.price_estimate b) (FoodItem.price_estimate a)) =
  PrimFloat.leb (FoodItem.price_estimate a) (FoodItem.price_estimate b) ∧
  (PrimFloat.leb (FoodItem.price_estimate a) (FoodItem.price_estimate b) = false →
   PrimFloat.leb (FoodItem.price_estimate b) (FoodItem.price_estimate a) = true).
Proof.
  intros Ha Hb.
  assert (H : forallb
                (λ a, forallb
                        (λ b,
                           Bool.eqb
                             (negb (PrimFloat.ltb (FoodItem.price_estimate b)
                                      (FoodItem.price_estimate a)))
                             (PrimFloat.leb (FoodItem.price_estimate a)
                                (FoodItem.price_estimate b)) &&
                           (PrimFloat.leb (FoodItem.price_estimate a)
                              (FoodItem.price_estimate b) ||
                            PrimFloat.leb (FoodItem.price_estimate b)
                              (FoodItem.price_estimate a)))
                        database_foods)
                database_foods = true) by (by vm_compute).
  rewrite forallb_forall in H. specialize (H a Ha).
  rewrite forallb_forall in H. specialize (H b Hb).
  apply andb_prop in H as [H1 H2]. apply Bool.eqb_prop in H1. split; [done|].
  intros E. rewrite E in H2. exact H2.
Qed.

Lemma database_prices_transitive (a b c : FoodItem.t) :
  In a database_foods → In b database_foods → In c database_foods →
  PrimFloat.leb (FoodItem.price_estimate a) (FoodItem.price_estimate b) = true →
  PrimFloat.leb (FoodItem.price_estimate b) (FoodItem.price_estimate c) = true →
  PrimFloat.leb (FoodItem.price_estimate a) (FoodItem.price_estimate c) = true.
Proof.
  intros Ha Hb Hc.
  assert (H : forallb
                (λ a, forallb
                        (λ b, forallb
                                (λ c,
                                   implb
                                     (PrimFloat.leb (FoodItem.price_estimate a)
                                        (FoodItem.price_estimate b) &&
                                      PrimFloat.leb (FoodItem.price_estimate b)
                                        (FoodItem.price_estimate c))
                                     (PrimFloat.leb (FoodItem.price_estimate a)
                                        (FoodItem.price_estimate c)))
                                database_foods)
                        database_foods)
                database_foods = true) by (by vm_compute).
  rewrite forallb_forall in H. specialize (H a Ha).
  rewrite forallb_forall in H. specialize (H b Hb).
  rewrite forallb_forall in H. specialize (H c Hc).
  intros E1 E2. by rewrite E1, E2 in H.
Qed.

(** X22: [get_foods_for_nutrient] returns exactly the foods of
    [FOOD_DATABASE] that list the nutrient, cheapest first; for every
    nutrient that [analyze_lab_data] can return there is at least one, so
    the plan builder's "No foods found" branch is never taken on the
    analyzer's output. *)
Theorem foods_for_nutrient_cheapest_first (nutrient : string) :
  let foods := get_foods_for_nutrient nutrient in
  StronglySorted
    (λ a b, PrimFloat.leb (FoodItem.price_estimate a) (FoodItem.price_estimate b) = true)
    foods ∧
  (∀ f, In f foods ↔
        In f database_foods ∧ In nutrient (FoodItem.nutrients_provided f)) ∧
  (∀ user_context e,
     In e (NutrientPriorityList.needs (analyze_lab_data user_context)) →
     NutrientNeed.nutrient e = nutrient → foods ≠ []).
Proof.
  intros foods. split; [|split].
  - subst foods. unfold get_foods_for_nutrient.
    apply (stable_sort_sorted_on _ _ (λ f, In f database_foods)).
    + intros a b Ha Hb H. by rewrite (proj1 (database_prices_compare a b Ha Hb)) in H.
    + intros a b Ha Hb H. rewrite (proj1 (database_prices_compare a b Ha Hb)) in H.
      by apply (database_prices_compare a b Ha Hb).
    + apply database_prices_transitive.
    + apply List.Forall_forall. intros f Hf. by apply filter_In in Hf as [Hf _].
  - intros f. apply get_foods_for_nutrient_In.
  - intros user_context e He <-. apply analyzed_need_shape in He as [Hk _].
    subst foods. simpl in Hk.
    repeat (destruct Hk as [<-|Hk]; [by vm_compute|]). done.
Qed.

(** X23: on the needs that [analyze_lab_data] returns, the number of the
    shopping priority is the need's own priority number, for every budget
    tier; outside the range 1 to 4 it is not: a priority of 0 or less is
    MODERATE, one of 4 or more is OPTIONAL. *)
Theorem shopping_priority_is_need_priority (user_context : UserContext.t) :
  Forall
    (λ e, ∀ budget_tier,
       ShoppingPriority.value (calculate_priority (NutrientNeed.priority e) budget_tier) =
       NutrientNeed.priority e)
    (NutrientPriorityList.needs (analyze_lab_data user_context)) ∧
  (∀ p budget_tier,
     ((p <= 0)%Z → calculate_priority p budget_tier = ShoppingPriority.MODERATE) ∧
     ((4 <= p)%Z → calculate_priority p budget_tier = ShoppingPriority.OPTIONAL)).
Proof.
  split.
  - apply List.Forall_forall. intros e He budget_tier.
    apply analyzed_need_shape in He as [_ Hp]. unfold calculate_priority.
    repeat case_match; simpl; lia.
  - intros p budget_tier. unfold calculate_priority. split; intros Hp.
    + repeat case_match; try done; lia.
    + repeat case_match; try done; lia.
Qed.

(** ** Resource scorer: the resource map *)

Lemma by_score_then_distance_true (a b : TravelFeasibility.t) :
  by_score_then_distance a b = true → score_then_distance a b.
Proof.
  unfold by_score_then_distance, score_then_distance. cbv zeta.
  intros H. apply orb_prop in H as [H|H].
  - left. apply Qltb_lt in H. lra.
  - right. apply andb_prop in H as [H1 H2]. apply Qeq_bool_iff in H1.
    apply Qle_bool_iff in H2. split; [lra|done].
Qed.

Lemma by_score_then_distance_false (a b : TravelFeasibility.t) :
  by_score_then_distance a b = false → score_then_distance b a.
Proof.
  unfold by_score_then_distance, score_then_distance. cbv zeta.
  intros H. apply orb_false_elim in H as [H1 H2]. apply Qltb_ge in H1.
  apply andb_false_elim in H2 as [H2|H2].
  - left. apply Qeq_bool_neq in H2. apply Qle_lteq in H1 as [H1|H1]; [lra|].
    exfalso. apply H2. lra.
  - destruct (Qlt_le_dec (TravelFeasibility.accessibility_score a)
                (TravelFeasibility.accessibility_score b)) as [Hlt|Hge]; [by left|].
    right. split; [lra|]. apply Qlt_le_weak, Qltb_lt. unfold Qltb. by rewrite H2.
Qed.

Lemma score_then_distance_trans (a b c : TravelFeasibility.t) :
  score_then_distance a b → score_then_distance b c → score_then_distance a c.
Proof.
  unfold score_then_distance. intros [H1|[H1 H1']] [H2|[H2 H2']].
  - left. lra.
  - left. lra.
  - left. lra.
  - right. split; lra.
Qed.

Lemma by_price_then_distance_true (a b : TravelFeasibility.t) :
  by_price_then_distance a b = true → price_then_distance a b.
Proof.
  unfold by_price_then_distance, price_then_distance. cbv zeta.
  intros H. apply orb_prop in H as [H|H]; [left; lia|].
  right. apply andb_prop in H as [H1 H2]. apply Qle_bool_iff in H2. split; [lia|done].
Qed.

Lemma by_price_then_distance_false (a b : TravelFeasibility.t) :
  by_price_then_distance a b = false → price_then_distance b a.
Proof.
  unfold by_price_then_distance, price_then_distance. cbv zeta.
  intros H. apply orb_false_elim in H as [H1 H2].
  apply andb_false_elim in H2 as [H2|H2]; [left; lia|].
  destruct (Z.eq_dec (Store.price_tier (TravelFeasibility.store a))
              (Store.price_tier (TravelFeasibility.store b))) as [E|E]; [|left; lia].
  right. split; [done|]. apply Qlt_le_weak, Qltb_lt. unfold Qltb. by rewrite H2.
Qed.

Lemma price_then_distance_trans (a b c : TravelFeasibility.t) :
  price_then_distance a b → price_then_distance b c → price_then_distance a c.
Proof.
  unfold price_then_distance. intros [H1|[H1 H1']] [H2|[H2 H2']].
  - left. lia.
  - left. lia.
  - left. lia.
  - right. split; [lia|lra].
Qed.

(** X24: in the resource map, [accessible_stores] holds exactly the
    accessible feasibility records of the stores for the zip code, best
    score first and the nearer store first among equal scores;
    [food_pantries] and [snap_stores] hold exactly the accessible records
    of pantry type and of SNAP-accepting stores; for a profile with SNAP or
    WIC, [snap_stores] is ordered by price tier, then distance. *)
Theorem resource_map_lists (user_context : UserContext.t) :
  let logistics := UserContext.logistics user_context in
  let resource_map := resource_locator user_context in
  (∀ tf, In tf (ResourceMap.accessible_stores resource_map) ↔
         ∃ store, In store (get_stores_for_zip (Logistics.zip_code logistics)) ∧
                  tf = calculate_travel_feasibility store logistics ∧
                  TravelFeasibility.is_accessible tf = true) ∧
  StronglySorted score_then_distance (ResourceMap.accessible_stores resource_map) ∧
  (∀ tf, In tf (ResourceMap.food_pantries resource_map) ↔
         In tf (ResourceMap.accessible_stores resource_map) ∧
         Store.store_type (TravelFeasibility.store tf) = StoreType.FOOD_PANTRY) ∧
  (∀ tf, In tf (ResourceMap.snap_stores resource_map) ↔
         In tf (ResourceMap.accessible_stores resource_map) ∧
         Store.snap_accepted (TravelFeasibility.store tf) = true) ∧
  (Financials.has_assistance (UserContext.financials user_context) = true →
   StronglySorted price_then_distance (ResourceMap.snap_stores resource_map)).
Proof.
  intros logistics resource_map. subst resource_map. unfold resource_locator.
  fold logistics. cbn [ResourceMap.accessible_stores ResourceMap.food_pantries
                       ResourceMap.snap_stores].
  split; [|split; [|split; [|split]]].
  - intros tf. rewrite stable_sort_In, filter_In, in_map_iff. split.
    + intros [(store & <- & Hs) Ha]. by exists store.
    + intros (store & Hs & -> & Ha). split; [by exists store|done].
  - apply (stable_sort_sorted by_score_then_distance).
    + apply by_score_then_distance_true.
    + apply by_score_then_distance_false.
    + apply score_then_distance_trans.
  - intros tf. rewrite filter_In. split; intros [H1 H2]; (split; [done|]).
    + by destruct (Store.store_type _).
    + by rewrite H2.
  - intros tf.
    assert (E : In tf
                  (if Financials.has_assistance (UserContext.financials user_context)
                   then stable_sort by_price_then_distance
                          (List.filter
                             (λ f, Store.snap_accepted (TravelFeasibility.store f))
                             (stable_sort by_score_then_distance
                                (List.filter TravelFeasibility.is_accessible
                                   (map (λ store,
                                           calculate_travel_feasibility store logistics)
                                      (get_stores_for_zip
                                         (Logistics.zip_code logistics))))))
                   else List.filter
                          (λ f, Store.snap_accepted (TravelFeasibility.store f))
                          (stable_sort by_score_then_distance
                             (List.filter TravelFeasibility.is_accessible
                                (map (λ store,
                                        calculate_travel_feasibility store logistics)
                                   (get_stores_for_zip
                                      (Logistics.zip_code logistics)))))) ↔
                In tf (List.filter
                         (λ f, Store.snap_accepted (TravelFeasibility.store f))
                         (stable_sort by_score_then_distance
                            (List.filter TravelFeasibility.is_accessible
                               (map (λ store,
                                       calculate_travel_feasibility store logistics)
                                  (get_stores_for_zip
                                     (Logistics.zip_code logistics))))))).
    { destruct (Financials.has_assistance _); [apply stable_sort_In|done]. }
    rewrite E. apply filter_In.
  - intros ->. apply (stable_sort_sorted by_price_then_distance).
    + apply by_price_then_distance_true.
    + apply by_price_then_distance_false.
    + apply price_then_distance_trans.
Qed.

(** ** Resource scorer: the store catalog *)

Lemma eqb_length (s k : string) :
  String.length s ≠ String.length k → String.eqb s k = false.
Proof.
  intros H. apply String.eqb_neq. intros ->. done.
Qed.

Lemma prefix3_length (s : string) : (String.length (prefix3 s) <= 3)%nat.
Proof.
  unfold prefix3. destruct s as [|a [|b [|c s]]]; simpl; try lia.
  destruct s; simpl; lia.
Qed.

Lemma prefix3_eq (s k : string) :
  String.length k = 3%nat →
  (3 <=? String.length s)%nat = true →
  String.eqb (prefix3 s) k = String.prefix k s.
Proof.
  intros Hk Hs. unfold prefix3. apply Nat.leb_le in Hs.
  destruct (String.prefix k s) eqn:E.
  - apply String.prefix_correct in E. rewrite Hk in E. rewrite E. apply String.eqb_refl.
  - apply String.eqb_neq. intros H. rewrite <- Hk in H at 1.
    apply String.prefix_correct in H. congruence.
Qed.

Lemma short_prefix (s k : string) :
  String.length k = 3%nat → (3 <=? String.length s)%nat = false →
  String.prefix k s = false.
Proof.
  intros Hk Hs. apply Nat.leb_gt in Hs.
  destruct k as [|a [|b [|c [|? ?]]]]; try done.
  destruct s as [|x [|y [|z s]]]; simpl in *; try lia; repeat case_match; done.
Qed.

(** X25: every zip code gets the ten stores of the "default" list, in the
    catalog's order, followed by the regional store of its three-character
    prefix: King Soopers for a zip code that starts with 303, Publix for
    one that starts with 300, and nothing for any other zip code, shorter
    than three characters included. *)
Theorem default_stores_then_regional (zip_code : string) :
  let stores := get_stores_for_zip zip_code in
  (String.prefix "303" zip_code = true →
   stores = stores_of_key "default" ++ stores_of_key "303") ∧
  (String.prefix "300" zip_code = true →
   stores = stores_of_key "default" ++ stores_of_key "300") ∧
  (String.prefix "303" zip_code = false → String.prefix "300" zip_code = false →
   stores = stores_of_key "default") ∧
  (10 <= length stores <= 11)%nat.
Proof.
  intros stores. subst stores. unfold get_stores_for_zip. cbv zeta.
  change (default [] (dict_get "default" SYNTHETIC_STORES_DATABASE))
    with (stores_of_key "default").
  destruct (3 <=? String.length zip_code)%nat eqn:El.
  - assert (Ed : String.eqb (prefix3 zip_code) "default" = false).
    { apply eqb_length. pose proof (prefix3_length zip_code). simpl. lia. }
    pose proof (prefix3_eq zip_code "303" eq_refl El) as E303.
    pose proof (prefix3_eq zip_code "300" eq_refl El) as E300.
    unfold SYNTHETIC_STORES_DATABASE. cbn [dict_get].
    rewrite Ed, E303, E300.
    destruct (String.prefix "303" zip_code) eqn:P303.
    + split; [done|]. split; [|split; [done|vm_compute; lia]].
      intros P300. exfalso.
      apply String.prefix_correct in P303. apply String.prefix_correct in P300.
      simpl String.length in *. congruence.
    + destruct (String.prefix "300" zip_code) eqn:P300.
      * split; [done|]. split; [done|]. split; [done|vm_compute; lia].
      * split; [done|]. split; [done|]. split; [done|vm_compute; lia].
  - rewrite (short_prefix zip_code "303" eq_refl El),
            (short_prefix zip_code "300" eq_refl El).
    apply Nat.leb_gt in El.
    assert (Ed : String.eqb zip_code "default" = false)
      by (apply eqb_length; simpl; lia).
    assert (E303 : String.eqb zip_code "303" = false)
      by (apply eqb_length; simpl; lia).
    assert (E300 : String.eqb zip_code "300" = false)
      by (apply eqb_length; simpl; lia).
    unfold SYNTHETIC_STORES_DATABASE. cbn [dict_get].
    rewrite Ed, E303, E300.
    split; [done|]. split; [done|]. split; [done|vm_compute; lia].
Qed.

(** ** Resource scorer: stores that carry an item *)

Lemma lower_ascii_idem (c : ascii) : lower_ascii (lower_ascii c) = lower_ascii c.
Proof. destruct c as [[] [] [] [] [] [] [] []]; reflexivity. Qed.

Lemma lower_upper_ascii (c : ascii) : lower_ascii (upper_ascii c) = lower_ascii c.
Proof. destruct c as [[] [] [] [] [] [] [] []]; reflexivity. Qed.

Lemma lower_idem (s : string) : lower (lower s) = lower s.
Proof. induction s as [|c s IH]; [done|]. simpl. by rewrite lower_ascii_idem, IH. Qed.

Lemma lower_upper (s : string) : lower (upper s) = lower s.
Proof. induction s as [|c s IH]; [done|]. simpl. by rewrite lower_upper_ascii, IH. Qed.

Lemma contains_empty (s : string) : contains "" s = true.
Proof. by destruct s. Qed.

(** X26: [get_stores_with_item] returns accessible stores only, in the
    order of the resource map; it returns every accessible store with a
    high inventory level whatever the item, and every accessible store for
    the empty item; for an item written in ASCII characters the letter case
    does not matter. *)
Theorem stores_with_item_high_inventory_always (resource_map : ResourceMap.t)
    (item : string) :
  let accessible := ResourceMap.accessible_stores resource_map in
  let found := get_stores_with_item resource_map item in
  (∃ keep, found = List.filter keep accessible) ∧
  (∀ tf, In tf accessible →
         Store.inventory_level (TravelFeasibility.store tf) = InventoryLevel.HIGH →
         In tf found) ∧
  get_stores_with_item resource_map "" = accessible ∧
  (ascii_only item = true →
   get_stores_with_item resource_map (upper item) = found ∧
   get_stores_with_item resource_map (lower item) = found).
Proof.
  intros accessible found. subst accessible found. unfold get_stores_with_item.
  cbv zeta. split; [by eexists|]. split; [|split; [|intros _; split]].
  - intros tf Hin Hhigh. apply filter_In. split; [done|]. rewrite Hhigh.
    apply orb_true_r.
  - change (dict_get (lower "") item_keywords) with (@None (list string)).
    change (lower "") with ""%string. cbn [default existsb].
    induction (ResourceMap.accessible_stores resource_map) as [|tf l IH]; [done|].
    cbn [List.filter]. rewrite contains_empty. cbn [orb]. by rewrite IH.
  - by rewrite lower_upper.
  - by rewrite lower_idem.
Qed.

(** ** Interactive session: lookups by name *)

Lemma prefix_refl (s : string) : String.prefix s s = true.
Proof.
  induction s as [|c s IH]; [done|]. simpl.
  destruct (Ascii.ascii_dec c c); [exact IH|done].
Qed.

Lemma contains_refl (s : string) : contains s s = true.
Proof.
  destruct s as [|c s]; [done|]. cbn [contains]. by rewrite prefix_refl.
Qed.

Lemma no_name_within_another_spec (names : list string) (k k' : string) :
  no_name_within_another names = true → In k names → In k' names →
  contains (lower k) (lower k') = true → k = k'.
Proof.
  unfold no_name_within_another. intros H Hk Hk' Hc.
  rewrite forallb_forall in H. specialize (H k Hk).
  rewrite forallb_forall in H. specialize (H k' Hk').
  rewrite Hc in H. by apply String.eqb_eq.
Qed.

(** A lookup by the exact name of an entry returns that entry, when names
    are distinct and none is part of another. *)
Lemma find_by_own_name {A} (name : A → string) (names : list string) (l : list A) (e : A) :
  no_name_within_another names = true →
  (∀ x, In x l → In (name x) names) →
  NoDup (map name l) → In e l →
  List.find (λ x, contains (lower (name e)) (lower (name x))) l = Some e.
Proof.
  intros Htab Hnames Hnd He.
  destruct (List.find _ l) as [x|] eqn:Ef.
  - apply find_some in Ef as [Hx Hc]. f_equal.
    apply (NoDup_map_inj name l); try done. symmetry.
    by apply (no_name_within_another_spec names); auto.
  - exfalso. pose proof (find_none _ _ Ef e He) as Hn. cbv beta in Hn.
    by rewrite contains_refl in Hn.
Qed.

Lemma analyzed_names_NoDup (user_context : UserContext.t) :
  NoDup (map NutrientNeed.nutrient
           (NutrientPriorityList.needs (analyze_lab_data user_context))).
Proof.
  unfold analyze_lab_data. simpl.
  rewrite (Permutation_map NutrientNeed.nutrient (stable_sort_perm _ _)).
  apply consolidate_names_NoDup.
Qed.

(** X27: in a session on the result of [analyze_lab_data], looking a
    returned need up by its own nutrient name, in any letter case, finds
    that very need; a lookup with the empty string finds the first need;
    in every session the letter case of a search written in ASCII
    characters does not matter. *)
Theorem nutrient_lookup_by_own_name (user_context : UserContext.t)
    (shopping_list : ShoppingList.t) :
  let self := InteractiveCLI.init user_context (analyze_lab_data user_context)
                shopping_list in
  let needs := NutrientPriorityList.needs (analyze_lab_data user_context) in
  Forall
    (λ e, InteractiveCLI.find_nutrient_need self (NutrientNeed.nutrient e) = Some e ∧
          InteractiveCLI.find_nutrient_need self (upper (NutrientNeed.nutrient e)) = Some e)
    needs ∧
  InteractiveCLI.find_nutrient_need self "" = head needs ∧
  (∀ other search,
     ascii_only search = true →
     InteractiveCLI.find_nutrient_need other (upper search) =
     InteractiveCLI.find_nutrient_need other search ∧
     InteractiveCLI.find_nutrient_need other (lower search) =
     InteractiveCLI.find_nutrient_need other search).
Proof.
  intros self needs. subst self needs. split; [|split].
  - apply List.Forall_forall. intros e He.
    assert (H : InteractiveCLI.find_nutrient_need
                  (InteractiveCLI.init user_context (analyze_lab_data user_context)
                     shopping_list) (NutrientNeed.nutrient e) = Some e).
    { unfold InteractiveCLI.find_nutrient_need, InteractiveCLI.init.
      cbn [InteractiveCLI.nutrients].
      apply (find_by_own_name NutrientNeed.nutrient (map fst NUTRIENT_FOOD_SOURCES)).
      - by vm_compute.
      - intros x Hx. by apply analyzed_need_shape in Hx as [Hk _].
      - apply analyzed_names_NoDup.
      - done. }
    split; [done|]. unfold InteractiveCLI.find_nutrient_need in *.
    by rewrite lower_upper.
  - unfold InteractiveCLI.find_nutrient_need, InteractiveCLI.init.
    cbn [InteractiveCLI.nutrients lower].
    destruct (NutrientPriorityList.needs (analyze_lab_data user_context)) as [|e l];
      [done|]. cbn [List.find head]. by rewrite contains_empty.
  - intros other search _. unfold InteractiveCLI.find_nutrient_need.
    by rewrite lower_upper, lower_idem.
Qed.

Lemma final_plan_from_table (user_context : UserContext.t)
    (nutrient_priorities : NutrientPriorityList.t) (resource_map : ResourceMap.t) :
  Forall (λ it, In (ShoppingListItem.food it) database_foods)
    (Plan.items (final_plan user_context nutrient_priorities resource_map)).
Proof.
  unfold final_plan. apply fill_staples_Forall; [by intros st' staple Hin _ _|].
  apply fold_plan_need_Forall; [|constructor].
  intros st need Hst. apply plan_need_Forall; [done| |done].
  intros food Hr _. cbn. by eapply resolve_need_In.
Qed.

Lemma final_plan_names_NoDup (user_context : UserContext.t)
    (nutrient_priorities : NutrientPriorityList.t) (resource_map : ResourceMap.t) :
  NoDup (item_names (Plan.items (final_plan user_context nutrient_priorities resource_map))).
Proof.
  unfold final_plan. apply fill_staples_names_NoDup, fold_plan_need_names_NoDup.
  apply NoDup_nil_2.
Qed.

(** X28: in a session on a list made by [generate_shopping_list], looking
    an item up by the full name of its food, in any letter case, finds that
    very item, and a lookup with the empty string finds the first item; in
    every session the letter case of a search written in ASCII characters
    does not matter. *)
Theorem item_lookup_by_own_name (user_context : UserContext.t)
    (nutrient_priorities : NutrientPriorityList.t) (resource_map : ResourceMap.t) :
  let shopping_list :=
    generate_shopping_list user_context nutrient_priorities resource_map in
  let self := InteractiveCLI.init user_context nutrient_priorities shopping_list in
  Forall
    (λ item,
       InteractiveCLI.find_item_by_name self
         (FoodItem.name (ShoppingListItem.food item)) = Some item ∧
       InteractiveCLI.find_item_by_name self
         (upper (FoodItem.name (ShoppingListItem.food item))) = Some item)
    (ShoppingList.items shopping_list) ∧
  InteractiveCLI.find_item_by_name self "" = head (ShoppingList.items shopping_list) ∧
  (∀ other search,
     ascii_only search = true →
     InteractiveCLI.find_item_by_name other (upper search) =
     InteractiveCLI.find_item_by_name other search ∧
     InteractiveCLI.find_item_by_name other (lower search) =
     InteractiveCLI.find_item_by_name other search).
Proof.
  intros shopping_list self. subst self. split; [|split].
  - apply List.Forall_forall. intros item Hitem.
    assert (H : InteractiveCLI.find_item_by_name
                  (InteractiveCLI.init user_context nutrient_priorities shopping_list)
                  (FoodItem.name (ShoppingListItem.food item)) = Some item).
    { unfold InteractiveCLI.find_item_by_name, InteractiveCLI.init.
      cbn [InteractiveCLI.shopping].
      apply (find_by_own_name (λ it, FoodItem.name (ShoppingListItem.food it))
               (map FoodItem.name database_foods)).
      - by vm_compute.
      - intros x Hx. subst shopping_list. unfold generate_shopping_list in Hx.
        cbn [ShoppingList.items] in Hx. apply stable_sort_In in Hx.
        apply in_map.
        by apply (proj1 (List.Forall_forall _ _)
                    (final_plan_from_table user_context nutrient_priorities
                       resource_map)).
      - subst shopping_list. unfold generate_shopping_list. cbn [ShoppingList.items].
        rewrite (Permutation_map _ (stable_sort_perm _ _)).
        apply final_plan_names_NoDup.
      - done. }
    split; [done|]. unfold InteractiveCLI.find_item_by_name in *.
    by rewrite lower_upper.
  - unfold InteractiveCLI.find_item_by_name, InteractiveCLI.init.
    cbn [InteractiveCLI.shopping lower].
    destruct (ShoppingList.items shopping_list) as [|e l]; [done|].
    cbn [List.find head]. by rewrite contains_empty.
  - intros other search _. unfold InteractiveCLI.find_item_by_name.
    by rewrite lower_upper, lower_idem.
Qed.

(** ** An empty allergy tag *)

Lemma empty_tag_matches (allergies : list string) (s : string) :
  In "" allergies → existsb (λ allergy, contains allergy s) allergies = true.
Proof.
  intros H. apply existsb_exists. exists ""%string. split; [done|]. apply contains_empty.
Qed.

Lemma empty_tag_lowered (user_context : UserContext.t) :
  In "" (MedicalHistory.known_allergies (UserContext.medical user_context)) →
  In "" (allergies_of user_context).
Proof. intros H. unfold allergies_of. apply in_map_iff. by exists ""%string. Qed.

(** X29: an empty string among the known allergies is contained in every
    name, so it blocks every food: every need returned by
    [analyze_lab_data] has an empty list of food sources, and the plan
    builder selects no food for any need (its list holds staples only). *)
Theorem empty_allergy_tag_blocks_every_food (user_context : UserContext.t)
    (nutrient_priorities : NutrientPriorityList.t) (resource_map : ResourceMap.t) :
  In "" (MedicalHistory.known_allergies (UserContext.medical user_context)) →
  Forall (λ e, NutrientNeed.food_sources e = [])
    (NutrientPriorityList.needs (analyze_lab_data user_context)) ∧
  Forall (λ item, for_a_need item = false)
    (ShoppingList.items
       (generate_shopping_list user_context nutrient_priorities resource_map)).
Proof.
  intros Hempty. apply empty_tag_lowered in Hempty. split.
  - apply List.Forall_forall. intros e He. rewrite (analyzed_entry_sources _ _ He).
    induction (sources_of (NutrientNeed.nutrient e)) as [|s l IH]; [done|].
    cbn [List.filter]. unfold allergy_safe at 1.
    by rewrite (empty_tag_matches _ _ Hempty).
  - unfold generate_shopping_list. cbn [ShoppingList.items].
    apply sorted_items_Forall. unfold final_plan.
    apply fill_staples_Forall; [done|].
    apply fold_plan_need_Forall; [|constructor].
    intros st need Hst. apply plan_need_Forall; [done| |done].
    intros food Hr _. exfalso.
    apply resolve_need_selected in Hr as (_ & o & _ & _ & Hs & _).
    unfold food_safe in Hs. by rewrite (empty_tag_matches _ _ Hempty) in Hs.
Qed.

Lemma empty_allergy_tag_blocks_every_food_witness :
  let user := moderate_budget_profile ["shellfish"; ""] in
  In "" (MedicalHistory.known_allergies (UserContext.medical user)) ∧
  Forall (λ e, NutrientNeed.food_sources e = [])
    (NutrientPriorityList.needs (analyze_lab_data user)) ∧
  Forall (λ item, for_a_need item = false)
    (ShoppingList.items
       (generate_shopping_list user (analyze_lab_data user) (resource_locator user))).
Proof.
  intros user.
  assert (H : In "" (MedicalHistory.known_allergies (UserContext.medical user)))
    by (right; left; reflexivity).
  split; [exact H|].
  exact (empty_allergy_tag_blocks_every_food user (analyze_lab_data user)
           (resource_locator user) H).
Defined.

(** ** The three stages together *)

Lemma items_suggested_store (user_context : UserContext.t)
    (nutrient_priorities : NutrientPriorityList.t) (resource_map : ResourceMap.t) :
  Forall
    (λ item,
       ShoppingListItem.suggested_store item =
       (if for_a_need item then find_best_store user_context resource_map else None))
    (ShoppingList.items
       (generate_shopping_list user_context nutrient_priorities resource_map)).
Proof.
  unfold generate_shopping_list. cbn [ShoppingList.items].
  apply sorted_items_Forall. unfold final_plan.
  apply fill_staples_Forall; [done|].
  apply fold_plan_need_Forall; [|constructor].
  intros st need Hst. by apply plan_need_Forall.
Qed.

Lemma located_store (user_context : UserContext.t) (tf : TravelFeasibility.t) :
  In tf (ResourceMap.accessible_stores (resource_locator user_context)) →
  In (TravelFeasibility.store tf)
     (get_stores_for_zip (Logistics.zip_code (UserContext.logistics user_context))) ∧
  tf = calculate_travel_feasibility (TravelFeasibility.store tf)
         (UserContext.logistics user_context) ∧
  TravelFeasibility.is_accessible tf = true.
Proof.
  unfold resource_locator. cbn [ResourceMap.accessible_stores].
  rewrite stable_sort_In, filter_In, in_map_iff.
  intros [(store & <- & Hs) Ha]. by rewrite feasibility_store.
Qed.

(** X30: in [run_full_analysis], every store that the shopping list
    suggests is a store of the catalog for the profile's zip code that the
    resource scorer found accessible for the profile, that is not low on
    inventory and that, for a profile with SNAP, accepts SNAP. *)
Theorem pipeline_suggests_reachable_stores (user : UserContext.t) :
  let '(_, _, shopping_list) := run_full_analysis user in
  Forall
    (λ item, ∀ s, ShoppingListItem.suggested_store item = Some s →
       ∃ store,
         In store (get_stores_for_zip (Logistics.zip_code (UserContext.logistics user))) ∧
         Store.name store = s ∧
         TravelFeasibility.is_accessible
           (calculate_travel_feasibility store (UserContext.logistics user)) = true ∧
         Store.inventory_level store ≠ InventoryLevel.LOW ∧
         (Financials.snap_status (UserContext.financials user) = true →
          Store.snap_accepted store = true))
    (ShoppingList.items shopping_list).
Proof.
  unfold run_full_analysis. cbv zeta.
  eapply Forall_impl; [apply items_suggested_store|].
  intros item Hitem s Hs. cbv beta in Hitem. rewrite Hitem in Hs.
  destruct (for_a_need item); [|done].
  apply find_best_store_usable in Hs as (tf & Hin & Hname & Hinv & Hsnap).
  apply located_store in Hin as (Hcat & Htf & Hacc).
  exists (TravelFeasibility.store tf). rewrite <- Htf. done.
Qed.

(** ** Plan builder: pantry placeholders on the resource map of a profile *)

Lemma catalog_store (zip_code : string) (s : Store.t) :
  In s (get_stores_for_zip zip_code) →
  In s (concat (map snd SYNTHETIC_STORES_DATABASE)).
Proof.
  unfold get_stores_for_zip. cbv zeta. intros Hs.
  assert (Hkey : ∀ k l, dict_get k SYNTHETIC_STORES_DATABASE = Some l → In s l →
                        In s (concat (map snd SYNTHETIC_STORES_DATABASE))).
  { intros k l Hk Hl. apply in_concat. exists l. split; [|done].
    by eapply dict_get_values. }
  destruct (dict_get "default" SYNTHETIC_STORES_DATABASE) as [d|] eqn:Ed.
  - cbn [default id] in Hs.
    set (zip_prefix := if (3 <=? String.length zip_code)%nat
                       then prefix3 zip_code else zip_code) in Hs.
    destruct (dict_get zip_prefix SYNTHETIC_STORES_DATABASE) as [extra|] eqn:Ee.
    + apply in_app_iff in Hs as [Hs|Hs]; eauto.
    + eauto.
  - discriminate Ed.
Qed.

(** Each pantry of the catalog that is tagged with "produce" is tagged with
    every staple of the fixed set as well. *)
Lemma catalog_pantry_tags (s : Store.t) (pf : string) :
  In s (concat (map snd SYNTHETIC_STORES_DATABASE)) →
  Store.store_type s = StoreType.FOOD_PANTRY →
  In pf pantry_foods →
  In pf (Store.specialty_items s) ∨ In "produce" (Store.specialty_items s) ↔
  In pf (Store.specialty_items s).
Proof.
  intros Hs Htype Hpf. split; [|by left]. intros [H|Hproduce]; [done|].
  simpl in Hs.
  repeat (destruct Hs as [<-|Hs]; [try discriminate Htype|]); try done.
  - simpl in Hpf. destruct Hpf as [<-|[<-|[<-|[]]]]; in_list.
  - simpl in Hproduce. destruct Hproduce as [H|[H|[H|[]]]]; discriminate H.
Qed.

(** C7: for a profile on a low or very low budget whose resource map has a
    reachable food pantry, the list made from that resource map holds a
    zero-cost placeholder for a staple of the fixed set exactly when the
    staple is among the specialty tags of the first, best-scored pantry. *)
Theorem placeholder_iff_staple_in_tags (user_context : UserContext.t)
    (nutrient_priorities : NutrientPriorityList.t)
    (pantry : TravelFeasibility.t) (rest : list TravelFeasibility.t) (pf : string) :
  tight_budget (Financials.budget_tier (UserContext.financials user_context)) = true →
  ResourceMap.food_pantries (resource_locator user_context) = pantry :: rest →
  In pf pantry_foods →
  has_placeholder
    (generate_shopping_list user_context nutrient_priorities
       (resource_locator user_context)) pf
  ↔ In pf (Store.specialty_items (TravelFeasibility.store pantry)).
Proof.
  intros Htier Hp Hpf.
  assert (Hin : In pantry (ResourceMap.food_pantries (resource_locator user_context)))
    by (rewrite Hp; by left).
  assert (Hpantry : In pantry (ResourceMap.accessible_stores
                                 (resource_locator user_context)) ∧
                    Store.store_type (TravelFeasibility.store pantry) =
                    StoreType.FOOD_PANTRY).
  { unfold resource_locator in Hin. cbn [ResourceMap.food_pantries] in Hin.
    apply filter_In in Hin as [Hin Htype]. split; [exact Hin|].
    by destruct (Store.store_type (TravelFeasibility.store pantry)). }
  destruct Hpantry as [Hacc Htype].
  apply located_store in Hacc as (Hcat & _ & _). apply catalog_store in Hcat.
  rewrite (placeholder_iff_tag_or_produce _ _ _ _ _ _ Htier Hp Hpf). cbv zeta.
  by apply catalog_pantry_tags.
Qed.

Lemma placeholder_iff_staple_in_tags_witness :
  let user := low_budget_profile [] [] in
  let pantry :=
    calculate_travel_feasibility
      (Store.mk "Community Food Pantry" StoreType.FOOD_PANTRY 0.8 false false
         InventoryLevel.MEDIUM 1 ["canned goods"; "bread"; "produce"]
         "Mon/Wed/Fri 10am-2pm")
      (UserContext.logistics user) in
  tight_budget (Financials.budget_tier (UserContext.financials user)) = true ∧
  ResourceMap.food_pantries (resource_locator user) = [pantry] ∧
  In "bread" pantry_foods ∧
  (has_placeholder
     (generate_shopping_list user (analyze_lab_data user) (resource_locator user)) "bread"
   ↔ In "bread" (Store.specialty_items (TravelFeasibility.store pantry))).
Proof.
  intros user pantry.
  assert (Htier : tight_budget (Financials.budget_tier (UserContext.financials user)) = true)
    by reflexivity.
  assert (Hp : ResourceMap.food_pantries (resource_locator user) = [pantry])
    by (vm_compute; reflexivity).
  assert (Hpf : In "bread" pantry_foods) by (left; reflexivity).
  split; [exact Htier|]. split; [exact Hp|]. split; [exact Hpf|].
  exact (placeholder_iff_staple_in_tags user (analyze_lab_data user) pantry [] "bread"
           Htier Hp Hpf).
Defined.

(** ** Plan builder: totals *)
















